(** * Profile image generator: model of [profile_image_api.py]

    A shallow embedding of the avatar service: the initials derivation, the
    on-disk variant store with its lazy generation and random selection, and
    the HTTP handlers that sit on top of them.

    Conventions.
    - A Python [str] is a list of Unicode code points ([list N]); the
      literals of the source are written [lit "..."].
    - A Python value that travels through JSON is a [pyval]; a [dict] is an
      association list in insertion order.
    - Code that raises is a computation in the monad [M]: it takes the world
      (the file store and the random generator) and returns either an
      exception or a value, together with the world it leaves behind.
    - The file store maps the path of a directory to the files it holds, by
      name. The service runs on Linux, in the directory that holds
      [OUTPUT_DIR]: a file name is a sequence of bytes, the UTF-8 encoding
      of the string, and is kept as it is. The store refuses a path with a
      NUL character, a file whose directory does not exist, and a file or a
      directory where the other stands. What else can make the file system
      refuse a name (its length, a character without encoding) is not part
      of the model, nor are the directories a path goes through: the
      properties about written files are stated for initials that are a
      plain name and a store that holds the directories of such initials.
    - The random generator is the list of the draws still to come; the
      properties hold for every such list.
    - The clock read by [/health] and [/stats] is an argument of these
      handlers. The route [/] answers a constant and is left out, as is the
      drawing inside [create_image], which belongs to the imaging library. *)

From Stdlib Require Import ZArith NArith List String Ascii Lia Bool.
From Stdlib Require Import Decimal DecimalZ Strings.Byte SpecFloat.
From stdpp Require Import gmap list strings.

Open Scope Z_scope.

(** ** Strings *)

Abbreviation pystr := (list N).

Definition cp (a : ascii) : N := N_of_ascii a.

Definition lit (s : string) : pystr := map cp (list_ascii_of_string s).

(** [str.isspace] on one code point: the characters CPython's
    [_PyUnicode_IsWhitespace] accepts. *)
Definition isspace (c : N) : bool :=
  ((9 <=? c) && (c <=? 13) || (28 <=? c) && (c <=? 32) || (c =? 133)
   || (c =? 160) || (c =? 5760) || (8192 <=? c) && (c <=? 8202)
   || (c =? 8232) || (c =? 8233) || (c =? 8239) || (c =? 8287)
   || (c =? 12288))%N.

Fixpoint lstrip (s : pystr) : pystr :=
  match s with
  | c :: s' => if isspace c then lstrip s' else s
  | [] => []
  end.

Definition rstrip (s : pystr) : pystr := rev (lstrip (rev s)).

(** [s.strip()] *)
Definition strip (s : pystr) : pystr := rstrip (lstrip s).

(** [str.upper] restricted to ASCII and Latin-1 code points, where it is
    the table of the Unicode standard: the small letters move to their
    capitals, U+00B5 and U+00FF to capitals outside Latin-1, and U+00DF
    (sharp s) expands to two letters. Other code points are not covered by
    this table and are returned as they are. *)
Definition latin1_upper (c : N) : pystr :=
  (if (97 <=? c) && (c <=? 122) then [c - 32]
   else if c =? 181 then [924]
   else if c =? 223 then [83; 83]
   else if (224 <=? c) && (c <=? 254) && negb (c =? 247) then [c - 32]
   else if c =? 255 then [376]
   else [c])%N.

(** ** Python values *)

#[warnings="-register-all"] Inductive pyval :=
| VNone
| VBool (b : bool)
| VInt (z : Z)
| VFloat (f : spec_float)
| VStr (s : pystr)
| VList (l : list pyval)
| VDict (d : list (string * pyval)).

(** Truth value of an object, as [if x:] and [not x] test it. *)
Definition truthy (v : pyval) : bool :=
  match v with
  | VNone => false
  | VBool b => b
  | VInt z => negb (z =? 0)
  | VFloat f => match f with S754_zero _ => false | _ => true end
  | VStr s => match s with [] => false | _ => true end
  | VList l => match l with [] => false | _ => true end
  | VDict d => match d with [] => false | _ => true end
  end.

(** [type(v).__name__] *)
Definition type_name (v : pyval) : pystr :=
  match v with
  | VNone => lit "NoneType"
  | VBool _ => lit "bool"
  | VInt _ => lit "int"
  | VFloat _ => lit "float"
  | VStr _ => lit "str"
  | VList _ => lit "list"
  | VDict _ => lit "dict"
  end.

Fixpoint dict_get (k : string) (d : list (string * pyval)) : option pyval :=
  match d with
  | [] => None
  | (k', v) :: d' => if String.eqb k k' then Some v else dict_get k d'
  end.

Definition dict_keys (v : pyval) : option (list string) :=
  match v with
  | VDict d => Some (map fst d)
  | _ => None
  end.

(** ** Exceptions and the monad of the service *)

Inductive exn_class :=
  ValueError | IndexError | AttributeError | TypeError | KeyError
| FileNotFoundError | FileExistsError | IsADirectoryError.

Record exn := Exn { exn_kind : exn_class; exn_msg : pystr }.

Record world := World {
  files : gmap pystr (gmap pystr (list byte));
  rng : list nat
}.

Definition M (A : Type) : Type := world -> (exn + A) * world.

Definition ret {A} (a : A) : M A := fun w => (inr a, w).

Definition raise {A} (k : exn_class) (msg : pystr) : M A :=
  fun w => (inl (Exn k msg), w).

Definition bind {A B} (m : M A) (f : A -> M B) : M B :=
  fun w => match m w with
           | (inl e, w') => (inl e, w')
           | (inr a, w') => f a w'
           end.

Notation "'let!' x := m 'in' k" := (bind m (fun x => k))
  (at level 10, x name, m at level 100, k at level 200).
Notation "'do!' m 'in' k" := (bind m (fun _ => k))
  (at level 10, m at level 100, k at level 200).

Definition attribute_error {A} (v : pyval) (attr : string) : M A :=
  raise AttributeError
    (lit "'" ++ type_name v ++ lit "' object has no attribute '"
         ++ lit attr ++ lit "'").

(** ** Library functions the service calls *)

(** [s.endswith(suffix)] and [s.startswith(prefix)] *)
Definition endswith (s suffix : pystr) : bool := bool_decide (suffix `suffix_of` s).
Definition startswith (s prefix : pystr) : bool := bool_decide (prefix `prefix_of` s).

(** [s.split(sep)] for a non-empty separator: the pieces between the
    occurrences of [sep], found from left to right without overlap. [skip]
    counts the characters of a separator just matched that are still to be
    passed over. *)
Fixpoint split_from (sep : pystr) (skip : nat) (s : pystr) : list pystr :=
  match s with
  | [] => [[]]
  | c :: s' =>
      match skip with
      | S k => split_from sep k s'
      | O =>
          if startswith s sep
          then [] :: split_from sep (length sep - 1) s'
          else match split_from sep 0 s' with
               | piece :: rest => (c :: piece) :: rest
               | [] => [[c]]
               end
      end
  end.

Definition split (s sep : pystr) : list pystr := split_from sep 0 s.

(** [l[i]] on a list, with Python's negative indices. *)
Definition list_index {A} (l : list A) (i : Z) : M A :=
  let n := Z.of_nat (length l) in
  let j := if i <? 0 then i + n else i in
  if (j <? 0) || (n <=? j) then raise IndexError (lit "list index out of range")
  else match l !! Z.to_nat j with
       | Some x => ret x
       | None => raise IndexError (lit "list index out of range")
       end.

(** [s[0]] on a string *)
Definition str_first (s : pystr) : M N :=
  match s with
  | c :: _ => ret c
  | [] => raise IndexError (lit "string index out of range")
  end.

(** Decimal digits, for [str(int)] inside an f-string and for [int(str)]. *)
Fixpoint cps_of_uint (u : uint) : pystr :=
  match u with
  | Nil => []
  | D0 u => 48%N :: cps_of_uint u
  | D1 u => 49%N :: cps_of_uint u
  | D2 u => 50%N :: cps_of_uint u
  | D3 u => 51%N :: cps_of_uint u
  | D4 u => 52%N :: cps_of_uint u
  | D5 u => 53%N :: cps_of_uint u
  | D6 u => 54%N :: cps_of_uint u
  | D7 u => 55%N :: cps_of_uint u
  | D8 u => 56%N :: cps_of_uint u
  | D9 u => 57%N :: cps_of_uint u
  end.

Definition str_of_Z (z : Z) : pystr :=
  match Z.to_int z with
  | Pos u => cps_of_uint u
  | Neg u => 45%N :: cps_of_uint u
  end.

Definition digit_of (c : N) : option (uint -> uint) :=
  (if c =? 48 then Some D0 else if c =? 49 then Some D1
   else if c =? 50 then Some D2 else if c =? 51 then Some D3
   else if c =? 52 then Some D4 else if c =? 53 then Some D5
   else if c =? 54 then Some D6 else if c =? 55 then Some D7
   else if c =? 56 then Some D8 else if c =? 57 then Some D9
   else None)%N.

(** The digits of an integer literal: single underscores may separate
    digits; [after_digit] tells whether the previous character was one. *)
Fixpoint int_digits (after_digit : bool) (s : pystr) : option uint :=
  match s with
  | [] => if after_digit then Some Nil else None
  | c :: s' =>
      if (c =? 95)%N then (if after_digit then int_digits false s' else None)
      else match digit_of c, int_digits true s' with
           | Some d, Some u => Some (d u)
           | _, _ => None
           end
  end.

(** The blanks [int] drops around a literal: those of [str.isspace] but
    for the four separators U+001C to U+001F, which [int] takes for a part
    of the literal. *)
Definition int_space (c : N) : bool :=
  (isspace c && negb ((28 <=? c) && (c <=? 31)))%N.

Fixpoint int_lstrip (s : pystr) : pystr :=
  match s with
  | c :: s' => if int_space c then int_lstrip s' else s
  | [] => []
  end.

Definition int_strip (s : pystr) : pystr :=
  rev (int_lstrip (rev (int_lstrip s))).

(** [int(s)] on a string: the blanks around the literal are dropped, a sign
    may precede the digits. Only the ASCII digits are recognised here; the
    other decimal digits of Unicode, which CPython also accepts, are not.
    The message of the error stops before the quoted literal that CPython
    adds to it. *)
Definition py_int (s : pystr) : M Z :=
  let body := int_strip s in
  let parsed :=
    match body with
    | 45%N :: ds => option_map (fun u => Z.of_int (Neg u)) (int_digits false ds)
    | 43%N :: ds => option_map (fun u => Z.of_int (Pos u)) (int_digits false ds)
    | ds => option_map (fun u => Z.of_int (Pos u)) (int_digits false ds)
    end in
  match parsed with
  | Some z => ret z
  | None => raise ValueError (lit "invalid literal for int() with base 10")
  end.

(** [os.path.join(a, b)] of [posixpath]. *)
Definition os_path_join (a b : pystr) : pystr :=
  if startswith b (lit "/") then b
  else if bool_decide (a = []) || endswith a (lit "/") then a ++ b
  else a ++ lit "/" ++ b.

(** ** The file store

    A directory is kept under one spelling of its path, its key: the path
    without its empty components, its components [.] and its final slash,
    which the file system passes over when it walks a path. A component
    [..] is kept as it is written. *)

(** The names of a path, put together again with a slash between them. *)
Fixpoint join_names (names : list pystr) : pystr :=
  match names with
  | [] => []
  | name :: names' =>
      match names' with
      | [] => name
      | _ :: _ => name ++ lit "/" ++ join_names names'
      end
  end.

(** The key of the directory at [path]. *)
Definition dir_key (path : pystr) : pystr :=
  (if startswith path (lit "/") then lit "/" else [])
  ++ join_names (filter (fun name => name ≠ [] ∧ name ≠ lit ".")
                   (split path (lit "/"))).

(** The two parts of the path of a file: the path of its directory, up to
    the last slash, and its name, after it. *)
Fixpoint split_last (path : pystr) : pystr * pystr :=
  match path with
  | [] => ([], [])
  | c :: path' =>
      let '(dir, name) := split_last path' in
      if bool_decide (dir = []) then
        if (c =? 47)%N then ([c], name) else ([], c :: name)
      else (c :: dir, name)
  end.

(** The content of the file [name] of the directory at the path [dir]. *)
Definition read_file (dir name : pystr) (w : world) : option (list byte) :=
  d ← files w !! dir_key dir; d !! name.

(** [os.path.exists(dir)], for the path of a directory: a file that
    stands at the path is not looked for. *)
Definition path_exists (dir : pystr) : M bool :=
  fun w => (inr (bool_decide (is_Some (files w !! dir_key dir))), w).

(** [os.makedirs(dir, exist_ok=True)]: a path with a NUL character is
    refused before the file system is asked; a directory that exists is
    left as it is; a file that stands at the path makes the call fail.
    The directories on the way to [dir] are not entered in the store. *)
Definition makedirs (dir : pystr) : M unit :=
  fun w =>
    if bool_decide (0%N ∈ dir) then
      (inl (Exn ValueError (lit "embedded null byte")), w)
    else
      match files w !! dir_key dir with
      | Some _ => (inr tt, w)
      | None =>
          let '(parent, name) := split_last (dir_key dir) in
          if bool_decide (is_Some (read_file parent name w)) then
            (inl (Exn FileExistsError
                    (lit "[Errno 17] File exists: '" ++ dir ++ lit "'")), w)
          else (inr tt, World (<[dir_key dir := ∅]> (files w)) (rng w))
      end.

(** [os.listdir(dir)] of an existing directory, by the files it holds:
    the directories below it are not listed. *)
Definition listdir (dir : pystr) : M (list pystr) :=
  fun w => (inr (match files w !! dir_key dir with
                 | Some d => (map_to_list d).*1
                 | None => []
                 end), w).

(** [img.save(filepath)]: the file is created, or overwritten, in the
    directory that the path names before its last slash, which has to
    exist; a directory that stands at the path makes the call fail. The
    messages quote the path as it is, without the escapes [repr] would
    add. *)
Definition write_file (filepath : pystr) (content : list byte) : M unit :=
  fun w =>
    if bool_decide (0%N ∈ filepath) then
      (inl (Exn ValueError (lit "embedded null byte")), w)
    else
      let '(dir, name) := split_last filepath in
      match files w !! dir_key dir with
      | Some d =>
          if bool_decide (is_Some (files w !! dir_key filepath)) then
            (inl (Exn IsADirectoryError
                    (lit "[Errno 21] Is a directory: '"
                       ++ filepath ++ lit "'")), w)
          else
            (inr tt,
             World (<[dir_key dir := <[name := content]> d]> (files w)) (rng w))
      | None =>
          (inl (Exn FileNotFoundError
                  (lit "[Errno 2] No such file or directory: '"
                     ++ filepath ++ lit "'")), w)
      end.

(** The random generator: [randbelow n] is the next draw, reduced to
    [0 .. n-1]. *)
Definition randbelow (n : nat) : M nat :=
  fun w => match rng w with
           | r :: rest => (inr (r mod n)%nat, World (files w) rest)
           | [] => (inr 0%nat, w)
           end.

(** [random.sample(population, k)]: the pool algorithm that CPython runs
    on a population of at most 21 elements. At step [i] the live part of
    the pool is its first [n - i] entries. *)
Fixpoint sample_loop {A} (k : nat) (pool : list A) (live : nat) : M (list A) :=
  match k with
  | O => ret []
  | S k' =>
      let! j := randbelow live in
      match pool !! j, pool !! (live - 1)%nat with
      | Some x, Some y =>
          let! rest := sample_loop k' (<[j := y]> pool) (live - 1) in
          ret (x :: rest)
      | _, _ => raise IndexError (lit "list index out of range")
      end
  end.

Definition random_sample {A} (population : list A) (k : Z) : M (list A) :=
  let n := Z.of_nat (length population) in
  if (k <? 0) || (n <? k)
  then raise ValueError (lit "Sample larger than population or is negative")
  else sample_loop (Z.to_nat k) population (length population).

(** [random.choice(seq)] *)
Definition random_choice {A} (seq : list A) : M A :=
  match seq with
  | [] => raise IndexError (lit "Cannot choose from an empty sequence")
  | _ =>
      let! j := randbelow (length seq) in
      list_index seq (Z.of_nat j)
  end.

(** [sub in s] on strings *)
Fixpoint str_contains (s sub : pystr) : bool :=
  startswith s sub ||
  match s with
  | [] => false
  | _ :: s' => str_contains s' sub
  end.

(** [base64.b64encode(data).decode('utf-8')] *)
Definition b64_alphabet : pystr :=
  lit "ABCDEFGHIJKLMNOPQRSTUVWXYZabcdefghijklmnopqrstuvwxyz0123456789+/".

Definition b64_char (i : N) : N := nth (N.to_nat i) b64_alphabet 61%N.

Fixpoint b64encode (data : list byte) : pystr :=
  match data with
  | [] => []
  | [a] =>
      let x := Byte.to_N a in
      [b64_char (x / 4); b64_char (x mod 4 * 16); 61; 61]%N
  | [a; b] =>
      let x := Byte.to_N a in
      let y := Byte.to_N b in
      [b64_char (x / 4); b64_char (x mod 4 * 16 + y / 16);
       b64_char (y mod 16 * 4); 61]%N
  | a :: b :: c :: rest =>
      let x := Byte.to_N a in
      let y := Byte.to_N b in
      let z := Byte.to_N c in
      [b64_char (x / 4); b64_char (x mod 4 * 16 + y / 16);
       b64_char (y mod 16 * 4 + z / 64); b64_char (z mod 64)]%N
      ++ b64encode rest
  end.

(** [range(a, b)] *)
Definition range (a b : Z) : list Z :=
  map (fun i => a + Z.of_nat i) (seq 0 (Z.to_nat (b - a))).

(** ** Configuration *)

Definition OUTPUT_DIR : pystr := lit "generated_images".

Definition BACKGROUND_COLORS : list pystr :=
  [ lit "#FF9933"; lit "#FFD700"; lit "#A569BD"; lit "#1ABC9C";
    lit "#2C3E50"; lit "#E74C3C"; lit "#F39C12"; lit "#27AE60";
    lit "#8E44AD"; lit "#D35400"; lit "#2980B9"; lit "#C0392B" ].

Definition FONT_SIZE : Z := 180.

Definition FONT_PATHS : list pystr :=
  [ lit "/usr/share/fonts/truetype/dejavu/DejaVuSans-Bold.ttf";
    lit "/System/Library/Fonts/Arial.ttf";
    lit "C:/Windows/Fonts/arial.ttf";
    lit "arial.ttf" ].

(** ** The class [ProfileImageGenerator] *)

Module ProfileImageGenerator.
Section Fonts.

(** [ImageFont.truetype(path, size)], [None] when it raises [OSError], and
    [ImageFont.load_default()]. *)
Variable font : Type.
Variable truetype : pystr -> Z -> option font.
Variable load_default : font.

(** The loop of [_load_font] over the paths still to be tried. *)
Fixpoint load_font_from (paths : list pystr) : font :=
  match paths with
  | [] => load_default
  | font_path :: paths' =>
      match truetype font_path FONT_SIZE with
      | Some f => f
      | None => load_font_from paths'
      end
  end.

Definition _load_font : font := load_font_from FONT_PATHS.

End Fonts.
Section Generator.

(** [c.upper()] for a one-character string [c], from the Unicode tables
    of the Python runtime. *)
Variable upper : N -> pystr.

(** The PNG encoding of the picture [create_image] draws: the initials in
    white over the background colour, as PIL renders and saves it. *)
Variable render_png : pystr -> pystr -> list byte.

Definition extract_initials (first_name last_name : pystr) : M pystr :=
  if negb (truthy (VStr first_name)) || negb (truthy (VStr last_name))
  then raise ValueError (lit "Both first_name and last_name are required")
  else
    let! c1 := str_first (strip first_name) in
    let first_initial := upper c1 in
    let! c2 := str_first (strip last_name) in
    let last_initial := upper c2 in
    ret (first_initial ++ last_initial).

Definition create_image (initials : pystr) (variant : Z) (bg_color : pystr)
  : list byte :=
  render_png initials bg_color.

(** The name of the file of variant number [variant]. *)
Definition variant_filename (initials : pystr) (variant : Z) : pystr :=
  initials ++ lit "_variant" ++ str_of_Z variant ++ lit ".png".

Definition variant_url (initials filename : pystr) : pystr :=
  lit "/image/" ++ initials ++ lit "/" ++ filename.

(** The body of the loop of [generate_variants], over the variant numbers
    still to be produced. *)
Fixpoint generate_loop (todo : list Z) (initials initials_dir : pystr)
    (colors : list pystr) (variants : list pyval) : M (list pyval) :=
  match todo with
  | [] => ret variants
  | variant :: todo' =>
      let! bg_color := list_index colors (variant - 1) in
      let img := create_image initials variant bg_color in
      let filename := variant_filename initials variant in
      let filepath := os_path_join initials_dir filename in
      do! write_file filepath img in
      generate_loop todo' initials initials_dir colors
        (variants ++ [VDict [ ("variant", VInt variant);
                              ("filename", VStr filename);
                              ("filepath", VStr filepath);
                              ("bg_color", VStr bg_color);
                              ("url", VStr (variant_url initials filename)) ]])
  end.

Definition generate_variants (initials : pystr) (num_variants : Z)
  : M (list pyval) :=
  let initials_dir := os_path_join OUTPUT_DIR initials in
  do! makedirs initials_dir in
  let! colors :=
    random_sample BACKGROUND_COLORS
      (Z.min num_variants (Z.of_nat (length BACKGROUND_COLORS))) in
  generate_loop (range 1 (num_variants + 1)) initials initials_dir colors [].

(** [[f for f in os.listdir(initials_dir) if f.endswith('.png')]] *)
Definition png_names (names : list pystr) : list pystr :=
  filter (fun f => endswith f (lit ".png") = true) names.

Definition get_random_variant (initials : pystr) : M pyval :=
  let initials_dir := os_path_join OUTPUT_DIR initials in
  let! present := path_exists initials_dir in
  if negb present then
    let! variants := generate_variants initials 3 in
    random_choice variants
  else
    let! names := listdir initials_dir in
    let files := png_names names in
    if bool_decide (files = []) then
      let! variants := generate_variants initials 3 in
      random_choice variants
    else
      let! random_file := random_choice files in
      let! tail := list_index (split random_file (lit "_variant")) 1 in
      let! variant_num := list_index (split tail (lit ".")) 0 in
      let! num := py_int variant_num in
      ret (VDict [ ("variant", VInt num);
                   ("filename", VStr random_file);
                   ("filepath", VStr (os_path_join initials_dir random_file));
                   ("url", VStr (variant_url initials random_file)) ]).

End Generator.
End ProfileImageGenerator.

(** ** The HTTP handlers *)

(** What a handler sees of the request: the value [request.get_json()]
    returns and the value [json.loads] makes of the raw body, each [None]
    when the call raises. *)
Record request := Request {
  req_json : option pyval;
  req_raw : option pyval
}.

Inductive payload :=
| Json (v : pyval)
| FileBody (mimetype : pystr) (content : list byte).

Record response := Response { status : Z; body : payload }.

(** [jsonify({'error': msg}), code] *)
Definition error_response (code : Z) (msg : pystr) : response :=
  Response code (Json (VDict [("error", VStr msg)])).

(** [obj.get(key, default)] *)
Definition py_get (obj : pyval) (key : string) (default : pyval) : M pyval :=
  match obj with
  | VDict d => ret (match dict_get key d with Some v => v | None => default end)
  | _ => attribute_error obj "get"
  end.

(** [obj.strip()] *)
Definition py_strip (obj : pyval) : M pystr :=
  match obj with
  | VStr s => ret (strip s)
  | _ => attribute_error obj "strip"
  end.

(** [isinstance(v, int)]: a [bool] is an [int] too. *)
Definition isinstance_int (v : pyval) : bool :=
  match v with
  | VInt _ | VBool _ => true
  | _ => false
  end.

Definition int_value (v : pyval) : Z :=
  match v with
  | VInt z => z
  | VBool b => if b then 1 else 0
  | _ => 0
  end.

(** [key in obj] *)
Definition py_contains (obj : pyval) (key : string) : M bool :=
  match obj with
  | VDict d => ret (bool_decide (is_Some (dict_get key d)))
  | VList l =>
      ret (existsb (fun v => match v with
                             | VStr s => bool_decide (s = lit key)
                             | _ => false
                             end) l)
  | VStr s => ret (str_contains s (lit key))
  | _ => raise TypeError
           (lit "argument of type '" ++ type_name obj ++ lit "' is not iterable")
  end.

(** [obj[key]] for a string key *)
Definition py_getitem (obj : pyval) (key : string) : M pyval :=
  match obj with
  | VDict d =>
      match dict_get key d with
      | Some v => ret v
      | None => raise KeyError (lit "'" ++ lit key ++ lit "'")
      end
  | VList _ =>
      raise TypeError (lit "list indices must be integers or slices, not str")
  | VStr _ => raise TypeError (lit "string indices must be integers")
  | _ => raise TypeError
           (lit "'" ++ type_name obj ++ lit "' object is not subscriptable")
  end.

Definition is_ValueError (e : exn) : bool :=
  match exn_kind e with ValueError => true | _ => false end.

Section Handlers.

Variable upper : N -> pystr.
Variable render_png : pystr -> pystr -> list byte.

Let extract_initials := ProfileImageGenerator.extract_initials upper.
Let get_random_variant := ProfileImageGenerator.get_random_variant render_png.

Definition names_required : pystr :=
  lit "Both first_name and last_name are required".

(** The two [except] clauses that close the handlers [/generate] and
    [/generate-variants]. *)
Definition catch_errors (m : M response) (w : world) : response * world :=
  match m w with
  | (inr r, w') => (r, w')
  | (inl e, w') =>
      if is_ValueError e then (error_response 400 (exn_msg e), w')
      else (error_response 500 (lit "Internal server error"), w')
  end.

(** [POST /generate] *)
Definition generate_profile_image (req : request) (w : world)
  : response * world :=
  match req_json req with
  | None => (error_response 400 (lit "Invalid JSON format"), w)
  | Some data0 =>
      let parsed := if negb (truthy data0) then req_raw req else Some data0 in
      match parsed with
      | None => (error_response 400 (lit "No valid JSON data provided"), w)
      | Some data =>
          catch_errors
            (let! f := py_get data "first_name" (VStr []) in
             let! first_name := py_strip f in
             let! l := py_get data "last_name" (VStr []) in
             let! last_name := py_strip l in
             if negb (truthy (VStr first_name)) || negb (truthy (VStr last_name))
             then ret (error_response 400 names_required)
             else
               let! initials := extract_initials first_name last_name in
               let! variant := get_random_variant initials in
               if negb (truthy variant)
               then ret (error_response 500 (lit "Failed to generate image"))
               else
                 ret (Response 200 (Json (VDict [
                   ("success", VBool true);
                   ("user_info", VDict [ ("first_name", VStr first_name);
                                         ("last_name", VStr last_name);
                                         ("initials", VStr initials) ]);
                   ("image", variant);
                   ("message",
                    VStr (lit "Profile image generated successfully for "
                            ++ first_name ++ lit " " ++ last_name)) ]))))
            w
      end
  end.

(** [POST /generate-variants] *)
Definition generate_variants (req : request) (w : world)
  : response * world :=
  match req_json req with
  | None => (error_response 500 (lit "Internal server error"), w)
  | Some data =>
      catch_errors
        (if negb (truthy data)
         then ret (error_response 400 (lit "No JSON data provided"))
         else
           let! f := py_get data "first_name" (VStr []) in
           let! first_name := py_strip f in
           let! l := py_get data "last_name" (VStr []) in
           let! last_name := py_strip l in
           let! num_variants := py_get data "num_variants" (VInt 3) in
           if negb (truthy (VStr first_name)) || negb (truthy (VStr last_name))
           then ret (error_response 400 names_required)
           else if negb (isinstance_int num_variants)
                   || (int_value num_variants <? 1)
                   || (12 <? int_value num_variants)
           then ret (error_response 400
                       (lit "num_variants must be an integer between 1 and 12"))
           else
             let! initials := extract_initials first_name last_name in
             let! variants :=
               ProfileImageGenerator.generate_variants render_png initials
                 (int_value num_variants) in
             let total := str_of_Z (Z.of_nat (length variants)) in
             ret (Response 200 (Json (VDict [
               ("success", VBool true);
               ("user_info", VDict [ ("first_name", VStr first_name);
                                     ("last_name", VStr last_name);
                                     ("initials", VStr initials) ]);
               ("variants", VList variants);
               ("total_variants", VInt (Z.of_nat (length variants)));
               ("message",
                VStr (lit "Generated " ++ total ++ lit " variants for "
                        ++ first_name ++ lit " " ++ last_name)) ]))))
        w
  end.

(** [GET /image/<initials>/<filename>]. The file at
    [os.path.join(OUTPUT_DIR, initials, filename)] is the file [filename]
    of the directory [os.path.join(OUTPUT_DIR, initials)]: the two
    segments of the route hold no slash. *)
Definition serve_image (initials filename : pystr) (w : world)
  : response * world :=
  match read_file (os_path_join OUTPUT_DIR initials) filename w with
  | None => (error_response 404 (lit "Image not found"), w)
  | Some content => (Response 200 (FileBody (lit "image/png") content), w)
  end.

(** [GET /image-base64/<initials>/<filename>] *)
Definition serve_image_base64 (initials filename : pystr) (w : world)
  : response * world :=
  match read_file (os_path_join OUTPUT_DIR initials) filename w with
  | None => (error_response 404 (lit "Image not found"), w)
  | Some content =>
      let encoded_string := b64encode content in
      (Response 200 (Json (VDict [
         ("success", VBool true);
         ("initials", VStr initials);
         ("filename", VStr filename);
         ("image_base64", VStr (lit "data:image/png;base64," ++ encoded_string)) ])),
       w)
  end.

(** One turn of the loop of [bulk_generate]: the result entry appended
    for [user]. *)
Definition bulk_entry (user : pyval) (w : world) : pyval * world :=
  let attempt :=
    let! f := py_get user "first_name" (VStr []) in
    let! first_name := py_strip f in
    let! l := py_get user "last_name" (VStr []) in
    let! last_name := py_strip l in
    if negb (truthy (VStr first_name)) || negb (truthy (VStr last_name))
    then ret (VDict [ ("user", user); ("success", VBool false);
                      ("error", VStr names_required) ])
    else
      let! initials := extract_initials first_name last_name in
      let! variant := get_random_variant initials in
      ret (VDict [ ("user", user); ("success", VBool true);
                   ("initials", VStr initials); ("image", variant) ]) in
  match attempt w with
  | (inr r, w') => (r, w')
  | (inl e, w') =>
      (VDict [ ("user", user); ("success", VBool false);
               ("error", VStr (exn_msg e)) ], w')
  end.

Fixpoint bulk_loop (users results : list pyval) (w : world)
  : list pyval * world :=
  match users with
  | [] => (results, w)
  | user :: users' =>
      let '(r, w') := bulk_entry user w in
      bulk_loop users' (results ++ [r]) w'
  end.

(** [r['success']] of a result entry *)
Definition entry_success (r : pyval) : bool :=
  match r with
  | VDict d => match dict_get "success" d with
               | Some v => truthy v
               | None => false
               end
  | _ => false
  end.

(** [POST /bulk-generate] *)
Definition bulk_generate (req : request) (w : world) : response * world :=
  let internal := (error_response 500 (lit "Internal server error"), w) in
  match req_json req with
  | None => internal
  | Some data =>
      if negb (truthy data)
      then (error_response 400 (lit "Users array is required"), w)
      else
        match py_contains data "users" w with
        | (inl _, _) => internal
        | (inr false, _) =>
            (error_response 400 (lit "Users array is required"), w)
        | (inr true, _) =>
            match py_getitem data "users" w with
            | (inl _, _) => internal
            | (inr (VList users), _) =>
                let '(results, w') := bulk_loop users [] w in
                let successful :=
                  Z.of_nat (length (filter (fun r => entry_success r = true) results)) in
                (Response 200 (Json (VDict [
                   ("success", VBool true);
                   ("total_users", VInt (Z.of_nat (length users)));
                   ("successful_generations", VInt successful);
                   ("failed_generations",
                    VInt (Z.of_nat (length users) - successful));
                   ("results", VList results) ])), w')
            | (inr _, _) =>
                (error_response 400 (lit "Users must be an array"), w)
            end
        end
  end.

End Handlers.

(** [GET /colors] *)
Definition get_colors : response :=
  Response 200 (Json (VDict [
    ("success", VBool true);
    ("colors", VList (map VStr BACKGROUND_COLORS));
    ("total_colors", VInt (Z.of_nat (length BACKGROUND_COLORS)));
    ("description",
     VStr (lit "Spiritual and cultural color palette for MyTempleYatra")) ])).

(** [GET /health]; [now] is [datetime.now().isoformat()]. *)
Definition health_check (now : pystr) : response :=
  Response 200 (Json (VDict [
    ("status", VStr (lit "healthy"));
    ("service", VStr (lit "MyTempleYatra Profile Image Generator"));
    ("timestamp", VStr now) ])).

(** The name under which [os.listdir(OUTPUT_DIR)] shows the directory [dir]
    of the store, when [dir] lies directly in [OUTPUT_DIR]: a name has at
    least one character and no slash, and is neither [.] nor [..]. *)
Definition entry_name (dir : pystr) : option pystr :=
  let root := OUTPUT_DIR ++ lit "/" in
  if startswith dir root then
    let e := drop (length root) dir in
    if bool_decide (e ≠ [] ∧ (47%N ∉ e) ∧ e ≠ lit "." ∧ e ≠ lit "..")
    then Some e else None
  else None.

(** [os.listdir(OUTPUT_DIR)], by the directories it shows: [get_stats]
    passes over the entries that are not a directory. *)
Definition listdir_root : M (list pystr) :=
  fun w => (inr (omap entry_name (map_to_list (files w)).*1), w).

(** [os.path.isdir(path)]: the store holds directories at this level. *)
Definition isdir (path : pystr) : M bool := path_exists path.

(** The loop of [get_stats] over the entries of [OUTPUT_DIR]; the three
    fields of [stats] are threaded through it. *)
Fixpoint stats_loop (entries : list pystr) (total_initials total_variants : Z)
    (initials_generated : list pyval) : M (Z * Z * list pyval) :=
  match entries with
  | [] => ret (total_initials, total_variants, initials_generated)
  | initials_dir :: entries' =>
      let initials_path := os_path_join OUTPUT_DIR initials_dir in
      let! is_dir := isdir initials_path in
      if is_dir then
        let! names := listdir initials_path in
        let variants :=
          Z.of_nat (length (ProfileImageGenerator.png_names names)) in
        stats_loop entries' (total_initials + 1) (total_variants + variants)
          (initials_generated
             ++ [VDict [ ("initials", VStr initials_dir);
                         ("variants", VInt variants) ]])
      else stats_loop entries' total_initials total_variants initials_generated
  end.

(** The body of the [try] of [get_stats]. [OUTPUT_DIR] exists: the
    generator creates it when it is built. *)
Definition collect_stats : M (Z * Z * list pyval) :=
  let! entries := listdir_root in
  stats_loop entries 0 0 [].

(** [GET /stats]; [now] is [datetime.now().isoformat()]. *)
Definition get_stats (now : pystr) (w : world) : response * world :=
  match collect_stats w with
  | (inr (total_initials, total_variants, initials_generated), w') =>
      (Response 200 (Json (VDict [
         ("success", VBool true);
         ("stats", VDict [ ("total_initials", VInt total_initials);
                           ("total_variants", VInt total_variants);
                           ("initials_generated", VList initials_generated) ]);
         ("timestamp", VStr now) ])), w')
  | (inl _, w') => (error_response 500 (lit "Internal server error"), w')
  end.

(** ** Notions used to state the properties *)

(** Base64 decoding, as a client of [/image-base64] undoes the encoding
    (RFC 4648, with padding). *)
Definition b64_index (c : N) : option N :=
  (if (65 <=? c) && (c <=? 90) then Some (c - 65)
   else if (97 <=? c) && (c <=? 122) then Some (c - 71)
   else if (48 <=? c) && (c <=? 57) then Some (c + 4)
   else if c =? 43 then Some 62
   else if c =? 47 then Some 63
   else None)%N.

Fixpoint b64decode (s : pystr) : option (list byte) :=
  match s with
  | [] => Some []
  | c0 :: c1 :: c2 :: c3 :: rest =>
      i0 ← b64_index c0;
      i1 ← b64_index c1;
      if (c2 =? 61)%N then
        if (c3 =? 61)%N && bool_decide (rest = []) then
          b0 ← Byte.of_N (i0 * 4 + i1 / 16)%N; Some [b0]
        else None
      else
        i2 ← b64_index c2;
        if (c3 =? 61)%N then
          if bool_decide (rest = []) then
            b0 ← Byte.of_N (i0 * 4 + i1 / 16)%N;
            b1 ← Byte.of_N (i1 mod 16 * 16 + i2 / 4)%N;
            Some [b0; b1]
          else None
        else
          i3 ← b64_index c3;
          b0 ← Byte.of_N (i0 * 4 + i1 / 16)%N;
          b1 ← Byte.of_N (i1 mod 16 * 16 + i2 / 4)%N;
          b2 ← Byte.of_N (i2 mod 4 * 64 + i3)%N;
          tl ← b64decode rest;
          Some (b0 :: b1 :: b2 :: tl)
  | _ => None
  end.

(** Removing a leading [prefix], when it is there. *)
Definition strip_prefix (prefix s : pystr) : option pystr :=
  if startswith s prefix then Some (drop (length prefix) s) else None.

(** The payload of a data URI answered by [/image-base64], decoded. *)
Definition decode_data_uri (uri : pystr) : option (list byte) :=
  strip_prefix (lit "data:image/png;base64,") uri ≫= b64decode.

(** The text that separates the initials from the number in a file name. *)
Definition marker : pystr := lit "_variant".

(** No occurrence of [sep] starts at a position of [pre] in [pre ++ tail]. *)
Fixpoint no_match_before (sep pre tail : pystr) : Prop :=
  match pre with
  | [] => True
  | _ :: pre' =>
      startswith (pre ++ tail) sep = false ∧ no_match_before sep pre' tail
  end.

(** The characters of a printed integer: no blank, underscore or dot. *)
Definition plain (c : N) : Prop := isspace c = false ∧ c ≠ 95%N ∧ c ≠ 46%N.

(** The directory of the variants of [initials]. *)
Definition initials_dir (initials : pystr) : pystr :=
  os_path_join OUTPUT_DIR initials.

(** A name that makes one component of a path: it is not empty, is not
    [.], and holds neither a slash nor a NUL character. The directory
    [os.path.join(OUTPUT_DIR, name)] then lies directly in [OUTPUT_DIR] and
    is kept under this very path. *)
Definition single_name (name : pystr) : Prop :=
  name ≠ [] ∧ name ≠ lit "." ∧ (0%N ∉ name) ∧ (47%N ∉ name).

(** A character that a file name can hold on a file system with UTF-8
    names: a code point of Unicode that is not NUL, the slash or a
    surrogate. *)
Definition name_char (c : N) : Prop :=
  (c ≠ 0 ∧ c ≠ 47 ∧ ((c < 55296) ∨ (57343 < c)) ∧ c ≤ 1114111)%N.

(** A plain name, which the file system takes for a directory and at the
    head of the name of a variant file: a single name other than [..], made
    of such characters, and of at most 60 of them, so that the names of its
    variant files stay within the 255 bytes of a file name. *)
Definition plain_name (name : pystr) : Prop :=
  name ≠ [] ∧ name ≠ lit "." ∧ name ≠ lit ".." ∧ (length name ≤ 60)%nat
  ∧ Forall name_char name.

(** A store as the service keeps it for plain initials: its directories
    are the directories of plain initials, each with its files. Nothing
    else lies in [OUTPUT_DIR], and no directory lies in another. *)
Definition service_store (w : world) : Prop :=
  ∀ dir, is_Some (files w !! dir) → ∃ e, plain_name e ∧ dir = initials_dir e.

(** Nothing stands in the way of the directory of [initials] and of the
    files in it: no file at the path of the directory, and no directory
    inside it. *)
Definition unobstructed (initials : pystr) (w : world) : Prop :=
  read_file OUTPUT_DIR initials w = None
  ∧ ∀ name, files w !! (initials_dir initials ++ lit "/" ++ name) = None.

(** The [.png] files the store holds for [initials], as
    [get_random_variant] lists them. *)
Definition stored_png (initials : pystr) (w : world) : list pystr :=
  match files w !! dir_key (initials_dir initials) with
  | Some d => ProfileImageGenerator.png_names (map_to_list d).*1
  | None => []
  end.

(** The descriptor [generate_variants] builds for one variant. *)
Definition fresh_descriptor (initials : pystr) (variant : Z) (bg_color : pystr)
  : pyval :=
  let filename := ProfileImageGenerator.variant_filename initials variant in
  VDict [ ("variant", VInt variant);
          ("filename", VStr filename);
          ("filepath", VStr (os_path_join (initials_dir initials) filename));
          ("bg_color", VStr bg_color);
          ("url", VStr (ProfileImageGenerator.variant_url initials filename)) ].

(** The descriptor [get_random_variant] builds for a file it found. *)
Definition existing_descriptor (initials filename : pystr) (variant : Z)
  : pyval :=
  VDict [ ("variant", VInt variant);
          ("filename", VStr filename);
          ("filepath", VStr (os_path_join (initials_dir initials) filename));
          ("url", VStr (ProfileImageGenerator.variant_url initials filename)) ].

Definition fresh_keys : list string :=
  ["variant"; "filename"; "filepath"; "bg_color"; "url"].

Definition existing_keys : list string :=
  ["variant"; "filename"; "filepath"; "url"].

(** The colour of variant [variant]: [colors[variant - 1]]. *)
Definition color_of (colors : list pystr) (variant : Z) : pystr :=
  nth (Z.to_nat (variant - 1)) colors [].

(** The files of one directory after the images of the variants [todo]
    have been written to it. *)
Definition with_variants (render_png : pystr -> pystr -> list byte)
    (initials : pystr) (colors : list pystr) (todo : list Z)
    (d : gmap pystr (list byte)) : gmap pystr (list byte) :=
  foldl (fun d variant =>
           <[ProfileImageGenerator.variant_filename initials variant :=
               ProfileImageGenerator.create_image render_png initials variant
                 (color_of colors variant)]> d)
        d todo.

(** A field of a dictionary. *)
Definition field (k : string) (v : pyval) : option pyval :=
  match v with
  | VDict d => dict_get k d
  | _ => None
  end.

(** What [bulk_generate] records for one user: a success with the initials
    and the image, or a failure with a message; either way with the entry
    of the request. *)
Definition entry_for (user r : pyval) : Prop :=
  (∃ initials image,
      r = VDict [ ("user", user); ("success", VBool true);
                  ("initials", VStr initials); ("image", image) ])
  ∨ (∃ msg,
      r = VDict [ ("user", user); ("success", VBool false);
                  ("error", VStr msg) ]).

(** A name field of a request that [strip] can be called on: absent, so
    that the default [''] is taken, or a string. *)
Definition text_or_absent (k : string) (d : list (string * pyval)) : Prop :=
  match dict_get k d with
  | None | Some (VStr _) => True
  | Some _ => False
  end.

(** A renderer to run the service on examples: four bytes that depend on
    the initials and the colour. *)
Definition sample_render (initials bg_color : pystr) : list byte :=
  [x89; x50; default x00 (Byte.of_nat (length initials));
   default x00 (Byte.of_nat (length bg_color))].

(** The [.png] files of [initials] all carry a name [generate_variants]
    gives. *)
Definition well_named (initials : pystr) (w : world) : Prop :=
  ∀ f, f ∈ stored_png initials w →
       ∃ k, f = ProfileImageGenerator.variant_filename initials k.

(** Every file of [w] is still a file of [w'], whatever it holds now. *)
Definition keeps_files (w w' : world) : Prop :=
  ∀ dir name, is_Some (read_file dir name w) → is_Some (read_file dir name w').

(** The name a handler works with: [data.get(k, '').strip()], for a field
    that is absent or a string. *)
Definition name_field (k : string) (d : list (string * pyval)) : pystr :=
  match dict_get k d with
  | Some (VStr s) => strip s
  | _ => []
  end.

(** The entries of [OUTPUT_DIR], as [get_stats] lists them. *)
Definition root_entries (w : world) : list pystr :=
  omap entry_name (map_to_list (files w)).*1.

(** What [get_stats] reports for one entry of [OUTPUT_DIR]. *)
Definition stats_entry (w : world) (e : pystr) : pyval :=
  VDict [ ("initials", VStr e);
          ("variants", VInt (Z.of_nat (length (stored_png e w)))) ].

(** The sum of the [variants] fields of a list of entries. *)
Definition sum_variants (entries : list pyval) : Z :=
  foldr (fun e acc => match field "variants" e with
                      | Some (VInt z) => z + acc
                      | _ => acc
                      end) 0 entries.

(** The entry [bulk_generate] records for a user it refuses for want of a
    name. *)
Definition refused_entry (user : pyval) : pyval :=
  VDict [ ("user", user); ("success", VBool false);
          ("error", VStr (lit "Both first_name and last_name are required")) ].

(** A user of a batch that is an object with a name missing, empty or made
    of blanks, each name being a string when present. *)
Definition nameless (user : pyval) : Prop :=
  ∃ d, user = VDict d
       ∧ text_or_absent "first_name" d ∧ text_or_absent "last_name" d
       ∧ (name_field "first_name" d = [] ∨ name_field "last_name" d = []).

(** The entry [bulk_generate] records for a user it fails on, with the
    message of the failure, and for a user it serves. *)
Definition failed_entry (user : pyval) (msg : pystr) : pyval :=
  VDict [ ("user", user); ("success", VBool false); ("error", VStr msg) ].

Definition served_entry (user : pyval) (initials : pystr) (image : pyval)
  : pyval :=
  VDict [ ("user", user); ("success", VBool true);
          ("initials", VStr initials); ("image", image) ].

(** The message of the [AttributeError] for the attribute [attr] of [v]. *)
Definition no_attribute (v : pyval) (attr : string) : pystr :=
  lit "'" ++ type_name v ++ lit "' object has no attribute '"
      ++ lit attr ++ lit "'".

(** What [bulk_generate] owes to one user of a batch, on the world [w]; the
    entry it records and the world it leaves.
    - A user that is not an object, or one of whose names is present and is
      not a string, fails validation: the entry is a failure with the
      message of the [AttributeError].
    - A user without a usable name is refused.
    - A user with two names is processed: [get_random_variant] runs on the
      initials; the entry is a success with these initials and the image
      it returned, or a failure with the message of the exception it
      raised. *)
Inductive recorded (upper : N -> pystr)
    (render_png : pystr -> pystr -> list byte) (user : pyval) (w : world)
  : pyval -> world -> Prop :=
| recorded_not_object :
    (∀ d, user ≠ VDict d) →
    recorded upper render_png user w
      (failed_entry user (no_attribute user "get")) w
| recorded_first_not_text d v :
    user = VDict d →
    dict_get "first_name" d = Some v → (∀ s, v ≠ VStr s) →
    recorded upper render_png user w
      (failed_entry user (no_attribute v "strip")) w
| recorded_last_not_text d v :
    user = VDict d →
    text_or_absent "first_name" d →
    dict_get "last_name" d = Some v → (∀ s, v ≠ VStr s) →
    recorded upper render_png user w
      (failed_entry user (no_attribute v "strip")) w
| recorded_nameless :
    nameless user →
    recorded upper render_png user w (refused_entry user) w
| recorded_served d c1 r1 c2 r2 image w' :
    user = VDict d →
    name_field "first_name" d = c1 :: r1 →
    name_field "last_name" d = c2 :: r2 →
    ProfileImageGenerator.get_random_variant render_png (upper c1 ++ upper c2) w
    = (inr image, w') →
    recorded upper render_png user w
      (served_entry user (upper c1 ++ upper c2) image) w'
| recorded_failed d c1 r1 c2 r2 e w' :
    user = VDict d →
    name_field "first_name" d = c1 :: r1 →
    name_field "last_name" d = c2 :: r2 →
    ProfileImageGenerator.get_random_variant render_png (upper c1 ++ upper c2) w
    = (inl e, w') →
    recorded upper render_png user w (failed_entry user (exn_msg e)) w'.

(** The same for a batch: the users are taken in order, each on the world
    the one before has left. *)
Inductive recorded_all (upper : N -> pystr)
    (render_png : pystr -> pystr -> list byte)
  : list pyval -> world -> list pyval -> world -> Prop :=
| recorded_nil w : recorded_all upper render_png [] w [] w
| recorded_cons user users w r w1 rs w2 :
    recorded upper render_png user w r w1 →
    recorded_all upper render_png users w1 rs w2 →
    recorded_all upper render_png (user :: users) w (r :: rs) w2.

(** The computation [m] never removes a file. *)
Definition keeps {A} (m : M A) : Prop := ∀ w, keeps_files w (snd (m w)).

(** ** Sample inputs *)

(** No directory yet, and a few draws for the generator. *)
Definition empty_world : world := World ∅ [5; 7; 200; 1]%nat.

(** The directory of the initials AS holds its first variant. *)
Definition world_with_AS : world :=
  World {[ initials_dir (lit "AS") :=
             {[ ProfileImageGenerator.variant_filename (lit "AS") 1 :=
                  sample_render (lit "AS") (lit "#FF9933") ]} ]}
        [4]%nat.

(** The directory of the initials AB holds a picture that the service did
    not write. *)
Definition world_with_foreign_file : world :=
  World {[ initials_dir (lit "AB") := {[ lit "photo.png" := [x89; x50] ]} ]}
        [0]%nat.


Definition bytes_of (s : string) : list byte := list_byte_of_string s.

Definition request_of (data : pyval) : request := Request (Some data) None.

(** The request of the error-handling test: twenty variants asked for. *)
Definition twenty_variants : pyval :=
  VDict [ ("first_name", VStr (lit "John")); ("last_name", VStr (lit "Doe"));
          ("num_variants", VInt 20) ].

(** The batch of the bulk scenario: one valid user and one without names. *)
Definition two_users : list pyval :=
  [ VDict [ ("first_name", VStr (lit "Arjun")); ("last_name", VStr (lit "Sharma")) ];
    VDict [ ("first_name", VStr []); ("last_name", VStr []) ] ].

(** The request of the test for a missing last name. *)
Definition only_first_name : pyval :=
  VDict [ ("first_name", VStr (lit "John")) ].

(** The request of the scenario of [/generate]. *)
Definition arjun_sharma : pyval :=
  VDict [ ("first_name", VStr (lit "Arjun")); ("last_name", VStr (lit "Sharma")) ].

(** The request of the test of [/generate-variants]. *)
Definition five_variants : pyval :=
  VDict [ ("first_name", VStr (lit "Radha")); ("last_name", VStr (lit "Krishna"));
          ("num_variants", VInt 5) ].

(** A batch of users without a usable name. *)
Definition nameless_users : list pyval :=
  [ VDict [ ("first_name", VStr []); ("last_name", VStr []) ];
    VDict [ ("first_name", VStr (lit "  ")); ("last_name", VStr (lit "Doe")) ] ].

(** * Properties *)

(** ** The library functions on small inputs *)

Example strip_blanks : strip (lit "  Arjun ") = lit "Arjun".
Proof. reflexivity. Qed.

Example strip_only_blanks : strip (lit "   ") = [].
Proof. reflexivity. Qed.

Example split_variant :
  split (lit "AS_variant12.png") (lit "_variant") = [lit "AS"; lit "12.png"].
Proof. reflexivity. Qed.

Example split_dots : split (lit "a..b.") (lit ".") = [lit "a"; []; lit "b"; []].
Proof. reflexivity. Qed.

Example split_no_overlap : split (lit "aXXXb") (lit "XX") = [lit "a"; lit "Xb"].
Proof. reflexivity. Qed.

Example join_relative :
  os_path_join OUTPUT_DIR (lit "AS") = lit "generated_images/AS".
Proof. reflexivity. Qed.

Example str_of_Z_twelve : str_of_Z 12 = lit "12".
Proof. reflexivity. Qed.

Example py_int_twelve (w : world) : py_int (lit "12") w = (inr 12, w).
Proof. reflexivity. Qed.

Example py_int_empty (w : world) : fst (py_int [] w) = inl (Exn ValueError
  (lit "invalid literal for int() with base 10")).
Proof. reflexivity. Qed.

Example b64encode_Man : b64encode (bytes_of "Man") = lit "TWFu".
Proof. reflexivity. Qed.

Example b64encode_Ma : b64encode (bytes_of "Ma") = lit "TWE=".
Proof. reflexivity. Qed.

Example b64encode_M : b64encode (bytes_of "M") = lit "TQ==".
Proof. reflexivity. Qed.

Example upper_sharp_s : latin1_upper 223 = lit "SS".
Proof. reflexivity. Qed.

(** ** Base64 *)

Lemma b64_char_index (i : N) :
  (i < 64)%N → b64_index (b64_char i) = Some i ∧ (b64_char i =? 61)%N = false.
Proof.
  intros Hi.
  assert (Hn : ∀ n : nat, (n < 64)%nat →
            b64_index (b64_char (N.of_nat n)) = Some (N.of_nat n)
            ∧ (b64_char (N.of_nat n) =? 61)%N = false).
  { intros n Hn. do 64 (destruct n as [|n]; [vm_compute; done|]). lia. }
  rewrite <- (N2Nat.id i). apply Hn. lia.
Qed.

Lemma triple_ind {A} (P : list A → Prop) :
  P [] → (∀ a, P [a]) → (∀ a b, P [a; b]) →
  (∀ a b c rest, P rest → P (a :: b :: c :: rest)) → ∀ l, P l.
Proof.
  intros H0 H1 H2 H3.
  fix IH 1.
  intros [|a [|b [|c rest]]];
    [apply H0 | apply H1 | apply H2 | apply H3, IH].
Qed.

Ltac div_lia := zify; Z.to_euclidean_division_equations; lia.

Lemma of_N_to_N_eq (n : N) (a : byte) : n = Byte.to_N a → Byte.of_N n = Some a.
Proof. intros ->. apply Byte.of_to_N. Qed.

Ltac byte_of x :=
  match goal with
  | |- context [Byte.of_N ?n] => rewrite (of_N_to_N_eq n x) by div_lia
  end.

Lemma b64_roundtrip (data : list byte) : b64decode (b64encode data) = Some data.
Proof.
  induction data as [|a|a b|a b c rest IH] using triple_ind.
  - done.
  - pose proof (Byte.to_N_bounded a) as Ha.
    cbn [b64encode b64decode].
    destruct (b64_char_index (Byte.to_N a / 4)) as [-> _]; [div_lia|].
    destruct (b64_char_index (Byte.to_N a mod 4 * 16)) as [-> _]; [div_lia|].
    cbn.
    byte_of a. done.
  - pose proof (Byte.to_N_bounded a) as Ha.
    pose proof (Byte.to_N_bounded b) as Hb.
    cbn [b64encode b64decode].
    destruct (b64_char_index (Byte.to_N a / 4)) as [-> _]; [div_lia|].
    destruct (b64_char_index (Byte.to_N a mod 4 * 16 + Byte.to_N b / 16)) as [-> _]; [div_lia|].
    destruct (b64_char_index (Byte.to_N b mod 16 * 4)) as [-> ->]; [div_lia|].
    cbn.
    byte_of a.
    byte_of b. done.
  - pose proof (Byte.to_N_bounded a) as Ha.
    pose proof (Byte.to_N_bounded b) as Hb.
    pose proof (Byte.to_N_bounded c) as Hc.
    cbn [b64encode b64decode app].
    destruct (b64_char_index (Byte.to_N a / 4)) as [-> _]; [div_lia|].
    destruct (b64_char_index (Byte.to_N a mod 4 * 16 + Byte.to_N b / 16)) as [-> _]; [div_lia|].
    destruct (b64_char_index (Byte.to_N b mod 16 * 4 + Byte.to_N c / 64)) as [-> ->]; [div_lia|].
    destruct (b64_char_index (Byte.to_N c mod 64)) as [-> ->]; [div_lia|].
    cbn [mbind option_bind].
    byte_of a.
    byte_of b.
    byte_of c.
    rewrite IH. done.
Qed.

(** ** Sampling without replacement *)

Lemma randbelow_lt (n : nat) (w : world) :
  (0 < n)%nat → ∃ j w', randbelow n w = (inr j, w') ∧ (j < n)%nat ∧ files w' = files w.
Proof.
  intros Hn. unfold randbelow. destruct (rng w) as [|r rest].
  - exists 0%nat, w. auto.
  - eexists _, _. split; [done|]. split; [|done]. apply Nat.mod_upper_bound. lia.
Qed.

Lemma swap_out_perm {A} (l : list A) (j : nat) (x y : A) :
  l !! j = Some x → l ++ [y] ≡ₚ x :: <[j := y]> l.
Proof.
  revert j. induction l as [|a l IH]; intros [|j] Hj; simplify_eq/=.
  - by rewrite Permutation_app_comm.
  - rewrite (IH _ Hj). apply perm_swap.
Qed.

Lemma take_swap_perm {A} (pool : list A) (j live : nat) (x y : A) :
  (j ≤ live)%nat → pool !! j = Some x → pool !! live = Some y →
  take (S live) pool ≡ₚ x :: take live (<[j := y]> pool).
Proof.
  intros Hj Hx Hy.
  rewrite (take_S_r _ _ _ Hy).
  destruct (decide (j = live)) as [->|Hne].
  - rewrite take_insert_ge by lia. simplify_eq.
    by rewrite Permutation_app_comm.
  - rewrite take_insert_lt by lia.
    apply swap_out_perm. rewrite lookup_take_lt by lia. done.
Qed.

Lemma sample_loop_spec {A} (k : nat) : ∀ (pool : list A) (live : nat) (w : world),
  (k ≤ live ≤ length pool)%nat →
  ∃ res w', sample_loop k pool live w = (inr res, w') ∧
            length res = k ∧ res ⊆+ take live pool ∧ files w' = files w.
Proof.
  induction k as [|k IH]; intros pool live w Hk.
  - exists [], w. repeat split; auto. apply submseteq_nil_l.
  - destruct live as [|live]; [lia|].
    destruct (randbelow_lt (S live) w) as (j & w1 & Hr & Hj & Hf1); [lia|].
    destruct (lookup_lt_is_Some_2 pool j) as [x Hx]; [lia|].
    destruct (lookup_lt_is_Some_2 pool live) as [y Hy]; [lia|].
    destruct (IH (<[j := y]> pool) live w1) as (res & w' & Hs & Hlen & Hsub & Hf2).
    { rewrite length_insert. lia. }
    exists (x :: res), w'.
    cbn [sample_loop]. unfold bind at 1. rewrite Hr.
    replace (S live - 1)%nat with live by lia.
    rewrite Hx, Hy. unfold bind at 1. rewrite Hs. unfold ret.
    repeat split; [simpl; lia| |congruence].
    rewrite (take_swap_perm pool j live x y) by (done || lia).
    by apply submseteq_skip.
Qed.

(** ** Printing and reading integers *)

Lemma cps_of_uint_nonneg_head (u : uint) (s : pystr) : cps_of_uint u ≠ 45%N :: s.
Proof. destruct u; discriminate. Qed.

Lemma cps_of_uint_inj (u u' : uint) : cps_of_uint u = cps_of_uint u' → u = u'.
Proof.
  revert u'. induction u; destruct u'; simpl; intros H; try discriminate;
    try reflexivity; f_equal; apply IHu; congruence.
Qed.

Lemma str_of_Z_inj (x y : Z) : str_of_Z x = str_of_Z y → x = y.
Proof.
  unfold str_of_Z. intros H.
  rewrite <- (DecimalZ.of_to x), <- (DecimalZ.of_to y).
  destruct (Z.to_int x) as [u|u], (Z.to_int y) as [u'|u'].
  - by rewrite (cps_of_uint_inj _ _ H).
  - by apply cps_of_uint_nonneg_head in H.
  - symmetry in H. by apply cps_of_uint_nonneg_head in H.
  - injection H as H. by rewrite (cps_of_uint_inj _ _ H).
Qed.

Lemma variant_filename_inj (initials : pystr) (x y : Z) :
  ProfileImageGenerator.variant_filename initials x
  = ProfileImageGenerator.variant_filename initials y → x = y.
Proof.
  unfold ProfileImageGenerator.variant_filename. intros H.
  apply app_inv_head, app_inv_head, app_inv_tail in H.
  by apply str_of_Z_inj.
Qed.

Lemma range_NoDup (a b : Z) : NoDup (range a b).
Proof.
  unfold range. apply NoDup_fmap_2; [|apply NoDup_seq].
  intros i j. lia.
Qed.

Lemma elem_of_range (a b x : Z) : x ∈ range a b ↔ a ≤ x < b.
Proof.
  unfold range. rewrite list_elem_of_fmap. split.
  - intros (i & -> & Hi). apply elem_of_seq in Hi. lia.
  - intros Hx. exists (Z.to_nat (x - a)). split; [lia|]. apply elem_of_seq. lia.
Qed.

Lemma length_range (a b : Z) : length (range a b) = Z.to_nat (b - a).
Proof. unfold range. by rewrite length_map, length_seq. Qed.

(** ** Reading a variant file name back *)

Lemma startswith_true (s p : pystr) : startswith s p = true ↔ p `prefix_of` s.
Proof. unfold startswith. apply bool_decide_eq_true. Qed.

Lemma startswith_false (s p : pystr) : startswith s p = false ↔ ¬ p `prefix_of` s.
Proof. unfold startswith. apply bool_decide_eq_false. Qed.

Lemma str_contains_false_cons (c : N) (s sub : pystr) :
  str_contains (c :: s) sub = false →
  startswith (c :: s) sub = false ∧ str_contains s sub = false.
Proof. cbn [str_contains]. apply orb_false_elim. Qed.

Ltac prefix_inv H :=
  repeat (let E := fresh in
          pose proof (prefix_cons_inv_1 _ _ _ _ H) as E;
          apply prefix_cons_inv_2 in H;
          try discriminate E).

(** The marker has no border: when it starts inside [J ++ marker], at a
    position of [J], it lies within [J]. *)
Lemma marker_border (J R : pystr) :
  J ≠ [] → marker `prefix_of` J ++ marker ++ R → marker `prefix_of` J.
Proof.
  intros HJ H. change marker with [95; 118; 97; 114; 105; 97; 110; 116]%N in *.
  destruct J as [|j1 [|j2 [|j3 [|j4 [|j5 [|j6 [|j7 [|j8 J]]]]]]]];
    [done|cbn [app] in H; prefix_inv H..].
  subst. repeat apply prefix_cons. apply prefix_nil.
Qed.

Lemma skip_separator (sep s rest : pystr) :
  split_from sep (length s) (s ++ rest) = split_from sep 0 rest.
Proof. induction s as [|c s IH]; [done|]. done. Qed.

Lemma split_at_first (c : N) (sep pre rest : pystr) :
  no_match_before (c :: sep) pre ((c :: sep) ++ rest) →
  split (pre ++ (c :: sep) ++ rest) (c :: sep) = pre :: split rest (c :: sep).
Proof.
  unfold split. induction pre as [|a pre IH]; intros Hno.
  - cbn [app split_from].
    assert (startswith (c :: sep ++ rest) (c :: sep) = true) as ->.
    { apply startswith_true, prefix_cons, prefix_app_r. done. }
    cbn [length]. rewrite Nat.sub_1_r. cbn [Nat.pred].
    by rewrite skip_separator.
  - destruct Hno as [Hhere Hno]. cbn [app split_from] in *.
    rewrite Hhere, (IH Hno). done.
Qed.

Lemma split_none (sep s : pystr) :
  no_match_before sep s [] → split s sep = [s].
Proof.
  unfold split. induction s as [|a s IH]; intros Hno; [done|].
  destruct Hno as [Hhere Hno]. rewrite app_nil_r in Hhere.
  cbn [split_from]. rewrite Hhere, (IH Hno). done.
Qed.

Lemma no_match_first_char (c : N) (sep pre tail : pystr) :
  Forall (fun x => x ≠ c) pre → no_match_before (c :: sep) pre tail.
Proof.
  induction 1 as [|x pre Hx _ IH]; [done|]. split; [|done].
  apply startswith_false. intros H. apply prefix_cons_inv_1 in H. congruence.
Qed.

Lemma no_match_marker (initials rest : pystr) :
  str_contains initials marker = false →
  no_match_before marker initials (marker ++ rest).
Proof.
  induction initials as [|c s IH]; [done|]. intros H.
  apply str_contains_false_cons in H as [Hhere Hlater].
  split; [|by apply IH].
  apply startswith_false. intros Hp. apply marker_border in Hp; [|done].
  by apply startswith_false in Hhere.
Qed.

Lemma cps_of_uint_plain (u : uint) : Forall plain (cps_of_uint u).
Proof. induction u; constructor; try done; by vm_compute. Qed.

Lemma str_of_Z_plain (z : Z) : Forall plain (str_of_Z z).
Proof.
  unfold str_of_Z. destruct (Z.to_int z); [|constructor; [by vm_compute|]];
    apply cps_of_uint_plain.
Qed.

Lemma lstrip_id (s : pystr) : Forall (fun c => isspace c = false) s → lstrip s = s.
Proof. destruct 1 as [|c s Hc]; [done|]. simpl. by rewrite Hc. Qed.

Lemma strip_id (s : pystr) : Forall (fun c => isspace c = false) s → strip s = s.
Proof.
  intros H. unfold strip, rstrip. rewrite (lstrip_id s H).
  rewrite lstrip_id by (by apply Forall_rev). apply rev_involutive.
Qed.

Lemma int_space_plain (s : pystr) :
  Forall plain s → Forall (fun c => int_space c = false) s.
Proof.
  intros H. eapply Forall_impl; [exact H|].
  intros c (Hc & _). unfold int_space. by rewrite Hc.
Qed.

Lemma int_lstrip_id (s : pystr) :
  Forall (fun c => int_space c = false) s → int_lstrip s = s.
Proof. destruct 1 as [|c s Hc]; [done|]. simpl. by rewrite Hc. Qed.

Lemma int_strip_id (s : pystr) :
  Forall (fun c => int_space c = false) s → int_strip s = s.
Proof.
  intros H. unfold int_strip. rewrite (int_lstrip_id s H).
  rewrite int_lstrip_id by (by apply Forall_rev). apply rev_involutive.
Qed.

Lemma int_digits_cps (u : uint) :
  int_digits true (cps_of_uint u) = Some u
  ∧ (u ≠ Nil → int_digits false (cps_of_uint u) = Some u).
Proof.
  induction u as [|u [IH _]|u [IH _]|u [IH _]|u [IH _]|u [IH _]|u [IH _]
                  |u [IH _]|u [IH _]|u [IH _]|u [IH _]];
    [done|split; [|intros _]; cbn; by rewrite IH..].
Qed.

Lemma to_int_nonnil (z : Z) :
  match Z.to_int z with Pos u | Neg u => u ≠ Nil end.
Proof. destruct z; simpl; [done|apply DecimalPos.Unsigned.to_uint_nonnil..]. Qed.

Lemma cps_of_uint_head (u : uint) :
  match cps_of_uint u with
  | c :: _ => c ≠ 45%N ∧ c ≠ 43%N
  | [] => True
  end.
Proof. destruct u; simpl; [done|split; discriminate..]. Qed.

Lemma py_int_str_of_Z (z : Z) (w : world) : py_int (str_of_Z z) w = (inr z, w).
Proof.
  unfold py_int. rewrite int_strip_id by apply int_space_plain, str_of_Z_plain.
  pose proof (to_int_nonnil z) as Hnil.
  rewrite <- (DecimalZ.of_to z) at 2. unfold str_of_Z.
  destruct (Z.to_int z) as [u|u].
  - destruct (int_digits_cps u) as [_ Hd]. specialize (Hd Hnil).
    pose proof (cps_of_uint_head u) as Hh.
    destruct (cps_of_uint u) as [|c s] eqn:E.
    + by destruct u.
    + destruct Hh as [H1 H2].
      assert (option_map (λ u0, Z.of_int (Pos u0)) (int_digits false (c :: s))
              = Some (Z.of_int (Pos u))) as Hp by (by rewrite Hd).
      destruct c as [|p]; [by rewrite Hp|].
      do 6 (destruct p as [p|p|]; try (by rewrite Hp); try done).
  - destruct (int_digits_cps u) as [_ Hd]. rewrite (Hd Hnil). done.
Qed.

(** ** Paths *)

Lemma join_root (e : pystr) :
  47%N ∉ e → os_path_join OUTPUT_DIR e = OUTPUT_DIR ++ lit "/" ++ e.
Proof.
  intros He. unfold os_path_join.
  assert (startswith e (lit "/") = false) as ->.
  { apply startswith_false. intros [k ->]. apply He. by left. }
  done.
Qed.

Lemma split_one (s : pystr) : 47%N ∉ s → split s (lit "/") = [s].
Proof.
  intros H. change (lit "/") with [47%N].
  apply split_none, no_match_first_char, Forall_forall. by intros x Hx ->.
Qed.

Lemma split_slash (a rest : pystr) :
  47%N ∉ a → split (a ++ lit "/" ++ rest) (lit "/") = a :: split rest (lit "/").
Proof.
  intros H. change (lit "/") with [47%N].
  apply (split_at_first 47 [] a rest), no_match_first_char, Forall_forall.
  by intros x Hx ->.
Qed.

Lemma output_dir_name :
  OUTPUT_DIR ≠ [] ∧ OUTPUT_DIR ≠ lit "." ∧ (0%N ∉ OUTPUT_DIR) ∧ (47%N ∉ OUTPUT_DIR).
Proof. apply (bool_decide_unpack _). by vm_compute. Qed.

Lemma output_dir_relative (rest : pystr) :
  startswith (OUTPUT_DIR ++ rest) (lit "/") = false.
Proof. apply startswith_false. intros H. by apply prefix_cons_inv_1 in H. Qed.

Lemma plain_single (name : pystr) : plain_name name → single_name name.
Proof.
  intros (H1 & H2 & _ & _ & Hc). rewrite Forall_forall in Hc.
  split; [done|]. split; [done|].
  split; intros H; apply Hc in H as (? & ? & _); done.
Qed.

Lemma single_name_join (e : pystr) :
  single_name e → initials_dir e = OUTPUT_DIR ++ lit "/" ++ e.
Proof. intros (_ & _ & _ & H). by apply join_root. Qed.

(** The directory of a single name is kept under its own path, with or
    without a final slash. *)
Lemma dir_key_child (e : pystr) :
  e ≠ [] → e ≠ lit "." → 47%N ∉ e →
  dir_key (initials_dir e) = initials_dir e
  ∧ dir_key (initials_dir e ++ lit "/") = initials_dir e.
Proof.
  intros H1 H2 H3. unfold initials_dir. rewrite join_root by done.
  destruct output_dir_name as (O1 & O2 & _ & O4).
  assert (split (e ++ lit "/") (lit "/") = [e; []]) as Hs.
  { rewrite <- (app_nil_r (lit "/")) at 1. by rewrite split_slash. }
  unfold dir_key. rewrite <- !app_assoc, !output_dir_relative.
  rewrite !split_slash by done. rewrite split_one, Hs by done.
  rewrite !filter_cons, filter_nil.
  rewrite !decide_True by done. rewrite decide_False by (by intros [? _]).
  done.
Qed.

Lemma dir_key_initials_dir (e : pystr) :
  single_name e → dir_key (initials_dir e) = initials_dir e.
Proof. intros (H1 & H2 & _ & H3). by apply dir_key_child. Qed.

(** A file of the directory of a single name: its path is no other
    spelling of a directory. *)
Lemma dir_key_file (e name : pystr) :
  e ≠ [] → e ≠ lit "." → 47%N ∉ e →
  name ≠ [] → name ≠ lit "." → 47%N ∉ name →
  dir_key (initials_dir e ++ lit "/" ++ name) = initials_dir e ++ lit "/" ++ name.
Proof.
  intros H1 H2 H3 N1 N2 N3. unfold initials_dir. rewrite join_root by done.
  destruct output_dir_name as (O1 & O2 & _ & O4).
  unfold dir_key. rewrite <- !app_assoc, !output_dir_relative.
  rewrite !split_slash by done. rewrite split_one by done.
  rewrite !filter_cons, filter_nil.
  rewrite !decide_True by done. done.
Qed.

Lemma dir_key_root :
  dir_key OUTPUT_DIR = OUTPUT_DIR ∧ dir_key (OUTPUT_DIR ++ lit "/") = OUTPUT_DIR.
Proof. split; by vm_compute. Qed.

Lemma initials_dir_longer (e rest : pystr) :
  initials_dir e ++ lit "/" ++ rest ≠ initials_dir e.
Proof.
  intros H. apply (f_equal length) in H. rewrite !length_app in H.
  cbn [length lit map list_ascii_of_string] in H. lia.
Qed.

Lemma service_store_unobstructed (w : world) (initials : pystr) :
  service_store w → single_name initials → unobstructed initials w.
Proof.
  intros Hw Hn. split.
  - unfold read_file. rewrite (proj1 dir_key_root).
    destruct (files w !! OUTPUT_DIR) as [d|] eqn:E; [|done]. exfalso.
    destruct (Hw OUTPUT_DIR) as (e & He%plain_single & Hdir); [by eexists|].
    rewrite (single_name_join _ He) in Hdir.
    apply (f_equal length) in Hdir. rewrite !length_app in Hdir.
    cbn [length lit map list_ascii_of_string] in Hdir. lia.
  - intros name.
    destruct (files w !! (initials_dir initials ++ lit "/" ++ name)) as [d|] eqn:E;
      [|done]. exfalso.
    destruct (Hw _ ltac:(by eexists)) as (e & He%plain_single & Hdir).
    rewrite (single_name_join _ He), (single_name_join _ Hn) in Hdir.
    rewrite <- !app_assoc in Hdir. apply app_inv_head, app_inv_head in Hdir.
    destruct He as (_ & _ & _ & H47). apply H47. rewrite <- Hdir.
    apply elem_of_app. right. apply elem_of_app. left. by left.
Qed.

Lemma service_store_insert (w : world) (e : pystr) (d : gmap pystr (list byte))
    (g : list nat) :
  service_store w → plain_name e →
  service_store (World (<[initials_dir e := d]> (files w)) g).
Proof.
  intros Hw He dir. cbn [files]. rewrite lookup_insert_is_Some'.
  intros [<-|H]; [by exists e|by apply Hw].
Qed.

Lemma service_store_empty (g : list nat) : service_store (World ∅ g).
Proof. intros dir [d Hd]. cbn [files] in Hd. by rewrite lookup_empty in Hd. Qed.

Lemma service_store_world_with_AS : service_store world_with_AS.
Proof.
  intros dir Hd. exists (lit "AS"). split.
  - unfold plain_name, name_char. apply (bool_decide_unpack _). by vm_compute.
  - unfold world_with_AS in Hd. cbn [files] in Hd.
    apply lookup_singleton_is_Some in Hd. done.
Qed.

Lemma service_store_files (w w' : world) :
  files w' = files w → service_store w → service_store w'.
Proof. unfold service_store. by intros ->. Qed.

Lemma split_last_name (s : pystr) : 47%N ∉ s → split_last s = ([], s).
Proof.
  induction s as [|c s IH]; [done|]. intros H.
  apply not_elem_of_cons in H as [Hc Hs]. cbn [split_last]. rewrite (IH Hs).
  rewrite bool_decide_true by done.
  by destruct (N.eqb_spec c 47).
Qed.

Lemma split_last_app (dir name : pystr) :
  47%N ∉ name → split_last (dir ++ lit "/" ++ name) = (dir ++ lit "/", name).
Proof.
  intros H. induction dir as [|c dir IH].
  - change (lit "/") with [47%N]. cbn [app split_last].
    rewrite (split_last_name name H). by rewrite bool_decide_true.
  - cbn [app split_last]. rewrite IH.
    rewrite bool_decide_false; [done|]. by destruct dir.
Qed.

Lemma cps_of_uint_digits (u : uint) :
  Forall (fun c => c ≠ 0%N ∧ c ≠ 47%N) (cps_of_uint u).
Proof. induction u; constructor; done. Qed.

Lemma str_of_Z_digits (z : Z) :
  Forall (fun c => c ≠ 0%N ∧ c ≠ 47%N) (str_of_Z z).
Proof.
  unfold str_of_Z. destruct (Z.to_int z); [|constructor; [done|]];
    apply cps_of_uint_digits.
Qed.

Lemma elem_of_join (x : N) (a b : pystr) :
  x ∈ os_path_join a b ↔ x ∈ b ∨ (startswith b (lit "/") = false ∧ (x ∈ a ∨
    (x = 47%N ∧ (bool_decide (a = []) || endswith a (lit "/")) = false))).
Proof.
  unfold os_path_join. destruct (startswith b (lit "/")).
  - split; [by left|]. by intros [?|[? _]].
  - destruct (_ || _).
    + rewrite elem_of_app. split; [intros [?|?]; auto|].
      intros [?|[_ [?|[_ ?]]]]; auto. done.
    + rewrite !elem_of_app. change (lit "/") with [47%N].
      rewrite list_elem_of_singleton. split; [intros [?|[?|?]]; auto|].
      intros [?|[_ [?|[? _]]]]; auto.
Qed.

(** ** The store and the generator *)

Lemma list_index_ok {A} (l : list A) (i : Z) (d : A) (w : world) :
  0 ≤ i < Z.of_nat (length l) → list_index l i w = (inr (nth (Z.to_nat i) l d), w).
Proof.
  intros Hi. unfold list_index.
  destruct (Z.ltb_spec i 0); [lia|].
  destruct (Z.ltb_spec i 0); [lia|].
  destruct (Z.leb_spec (Z.of_nat (length l)) i); [lia|]. simpl.
  destruct (lookup_lt_is_Some_2 l (Z.to_nat i)) as [x Hx]; [lia|].
  rewrite Hx. unfold ret. do 2 f_equal. symmetry. by apply nth_lookup_Some.
Qed.

Lemma list_index_0 {A} (x : A) (l : list A) (w : world) :
  list_index (x :: l) 0 w = (inr x, w).
Proof. rewrite (list_index_ok _ _ x) by (cbn [length]; lia). done. Qed.

Lemma list_index_1 {A} (x y : A) (l : list A) (w : world) :
  list_index (x :: y :: l) 1 w = (inr y, w).
Proof. rewrite (list_index_ok _ _ x) by (cbn [length]; lia). done. Qed.

Lemma random_choice_spec {A} (l : list A) (w : world) :
  l ≠ [] →
  ∃ x w', random_choice l w = (inr x, w') ∧ x ∈ l ∧ files w' = files w.
Proof.
  intros Hl. unfold random_choice. destruct l as [|a l]; [done|].
  destruct (randbelow_lt (length (a :: l)) w) as (j & w' & Hr & Hj & Hf);
    [cbn [length]; lia|].
  unfold bind. rewrite Hr.
  rewrite (list_index_ok _ _ a) by lia. rewrite Nat2Z.id.
  eexists _, _. split; [done|]. split; [|done].
  apply list_elem_of_In, nth_In. lia.
Qed.

Lemma submseteq_NoDup {A} (l k : list A) : l ⊆+ k → NoDup k → NoDup l.
Proof.
  intros Hsub Hk. apply submseteq_Permutation in Hsub as [k' Hk'].
  rewrite Hk' in Hk. by apply NoDup_app in Hk as [? _].
Qed.

Lemma BACKGROUND_COLORS_NoDup : NoDup BACKGROUND_COLORS.
Proof. apply (bool_decide_unpack _). by vm_compute. Qed.

Lemma elem_of_stored_png (initials f : pystr) (w : world) :
  f ∈ stored_png initials w ↔
  endswith f (lit ".png") = true ∧ is_Some (read_file (initials_dir initials) f w).
Proof.
  unfold stored_png, read_file, ProfileImageGenerator.png_names.
  destruct (files w !! dir_key (initials_dir initials)) as [d|]; simpl.
  - rewrite list_elem_of_filter, list_elem_of_fmap. split.
    + intros [Hp ([k c] & -> & Hin)]. split; [done|].
      apply elem_of_map_to_list in Hin. by eexists.
    + intros [Hp [c Hc]]. split; [done|]. exists (f, c). split; [done|].
      by apply elem_of_map_to_list.
  - split; [by intros ?%elem_of_nil|]. by intros [_ [? ?]].
Qed.

Lemma stored_png_NoDup (initials : pystr) (w : world) :
  NoDup (stored_png initials w).
Proof.
  unfold stored_png. destruct (files w !! _); [|constructor].
  apply NoDup_filter, NoDup_fst_map_to_list.
Qed.

Section GeneratorFacts.
Variable render_png : pystr → pystr → list byte.
Import ProfileImageGenerator.

Lemma variant_filename_png (initials : pystr) (k : Z) :
  endswith (variant_filename initials k) (lit ".png") = true.
Proof.
  apply bool_decide_eq_true. unfold variant_filename.
  exists (initials ++ lit "_variant" ++ str_of_Z k). by rewrite <- !app_assoc.
Qed.

Lemma variant_filename_parse (initials : pystr) (k : Z) (w : world) :
  str_contains initials marker = false →
  (let! tail := list_index (split (variant_filename initials k) (lit "_variant")) 1 in
   let! variant_num := list_index (split tail (lit ".")) 0 in
   py_int variant_num) w = (inr k, w).
Proof.
  intros Hm. unfold variant_filename.
  change (lit "_variant") with (95%N :: lit "variant").
  rewrite split_at_first by (by apply (no_match_marker initials)).
  rewrite split_none.
  2:{ apply no_match_first_char, Forall_app. split.
      - eapply Forall_impl; [apply str_of_Z_plain|]. by intros c (_ & ? & _).
      - by vm_compute; repeat constructor. }
  unfold bind at 1. rewrite list_index_1.
  change (lit ".png") with ((46%N :: []) ++ lit "png").
  change (lit ".") with (46%N :: []).
  rewrite split_at_first.
  2:{ apply no_match_first_char. eapply Forall_impl; [apply str_of_Z_plain|].
      by intros c (_ & _ & ?). }
  unfold bind at 1. rewrite list_index_0.
  apply py_int_str_of_Z.
Qed.

Lemma single_name_filepath (initials rest : pystr) :
  single_name initials →
  os_path_join (initials_dir initials) (initials ++ rest)
  = initials_dir initials ++ lit "/" ++ initials ++ rest.
Proof.
  intros Hn. rewrite (single_name_join initials Hn).
  destruct Hn as (H1 & _ & _ & H4). unfold os_path_join.
  assert (startswith (initials ++ rest) (lit "/") = false) as ->.
  { apply startswith_false. intros [k Hk]. apply H4.
    destruct initials as [|c r]; [done|]. injection Hk as -> _. by left. }
  rewrite bool_decide_false by (by intros [=]). cbn [orb].
  assert (endswith (OUTPUT_DIR ++ lit "/" ++ initials) (lit "/") = false) as ->;
    [|done].
  apply bool_decide_eq_false. intros [k Hk]. apply H4.
  destruct initials as [|c r _] using rev_ind; [done|].
  rewrite !app_assoc in Hk. apply app_inj_tail in Hk as [_ ->].
  apply elem_of_app. right. by left.
Qed.

Lemma initials_dir_no_nul (initials : pystr) :
  single_name initials → 0%N ∉ initials_dir initials.
Proof.
  intros Hn. rewrite (single_name_join _ Hn).
  destruct output_dir_name as (_ & _ & O0 & _). destruct Hn as (_ & _ & H0 & _).
  rewrite !elem_of_app. change (lit "/") with [47%N].
  rewrite list_elem_of_singleton. intros [?|[?|?]]; done.
Qed.

Lemma variant_filename_chars (initials : pystr) (v : Z) :
  single_name initials →
  (0%N ∉ variant_filename initials v) ∧ (47%N ∉ variant_filename initials v).
Proof.
  intros (_ & _ & H0 & H47). unfold variant_filename.
  pose proof (str_of_Z_digits v) as Hd. rewrite Forall_forall in Hd.
  rewrite !elem_of_app.
  split; (intros [?|[H|[H|H]]]; [done| |by apply Hd in H as [? ?]|]);
    revert H; apply (bool_decide_unpack _); by vm_compute.
Qed.

Lemma variant_filename_name (initials : pystr) (v : Z) :
  variant_filename initials v ≠ [] ∧ variant_filename initials v ≠ lit ".".
Proof.
  unfold variant_filename.
  split; intros H; apply (f_equal length) in H; rewrite !length_app in H;
    cbn [length lit map list_ascii_of_string] in H; lia.
Qed.

(** Saving a variant of a single name, in the directory of the initials,
    which exists: the call fails when a directory stands at the path of
    the file, and writes the file otherwise. *)
Lemma write_variant_cases (initials : pystr) (v : Z) (content : list byte)
    (w : world) (d : gmap pystr (list byte)) :
  single_name initials →
  files w !! initials_dir initials = Some d →
  write_file (os_path_join (initials_dir initials) (variant_filename initials v))
    content w
  = if bool_decide (is_Some (files w !! (initials_dir initials ++ lit "/"
                                           ++ variant_filename initials v)))
    then (inl (Exn IsADirectoryError
                 (lit "[Errno 21] Is a directory: '"
                    ++ (initials_dir initials ++ lit "/"
                          ++ variant_filename initials v) ++ lit "'")), w)
    else (inr tt,
          World (<[initials_dir initials :=
                     <[variant_filename initials v := content]> d]> (files w))
                (rng w)).
Proof.
  intros Hn Hd. pose proof (variant_filename_chars initials v Hn) as [Hc0 Hc47].
  pose proof (variant_filename_name initials v) as [Hv1 Hv2].
  assert (os_path_join (initials_dir initials) (variant_filename initials v)
          = initials_dir initials ++ lit "/" ++ variant_filename initials v) as ->
    by apply (single_name_filepath _ _ Hn).
  unfold write_file. rewrite bool_decide_false.
  - rewrite (split_last_app _ _ Hc47).
    destruct Hn as (H1 & H2 & _ & H4).
    rewrite (proj2 (dir_key_child initials H1 H2 H4)), Hd.
    by rewrite (dir_key_file initials _ H1 H2 H4 Hv1 Hv2 Hc47).
  - intros H. apply elem_of_app in H as [H|H];
      [by apply (initials_dir_no_nul initials)|].
    apply elem_of_app in H as [H|H]; [|done].
    by apply list_elem_of_singleton in H.
Qed.

Lemma write_variant (initials : pystr) (v : Z) (content : list byte)
    (w : world) (d : gmap pystr (list byte)) :
  single_name initials →
  files w !! initials_dir initials = Some d →
  files w !! (initials_dir initials ++ lit "/" ++ variant_filename initials v)
  = None →
  write_file (os_path_join (initials_dir initials) (variant_filename initials v))
    content w
  = (inr tt,
     World (<[initials_dir initials := <[variant_filename initials v := content]> d]>
              (files w)) (rng w)).
Proof.
  intros Hn Hd Hfree. rewrite (write_variant_cases _ _ _ _ _ Hn Hd), Hfree.
  rewrite bool_decide_false; [done|]. by intros [? ?].
Qed.

(** Making the directory of a single name: the call fails when the
    directory does not exist and a file stands at its path. *)
Lemma makedirs_cases (initials : pystr) (w : world) :
  single_name initials →
  makedirs (initials_dir initials) w
  = match files w !! initials_dir initials with
    | Some _ => (inr tt, w)
    | None =>
        if bool_decide (is_Some (read_file OUTPUT_DIR initials w)) then
          (inl (Exn FileExistsError
                  (lit "[Errno 17] File exists: '" ++ initials_dir initials
                     ++ lit "'")), w)
        else (inr tt, World (<[initials_dir initials := ∅]> (files w)) (rng w))
    end.
Proof.
  intros Hn. unfold makedirs. rewrite (dir_key_initials_dir _ Hn).
  rewrite bool_decide_false by (by apply initials_dir_no_nul).
  destruct (files w !! initials_dir initials); [done|].
  rewrite (single_name_join _ Hn).
  destruct Hn as (_ & _ & _ & H47). rewrite (split_last_app _ _ H47).
  unfold read_file. by rewrite (proj1 dir_key_root), (proj2 dir_key_root).
Qed.

(** What a call of [makedirs] that returns leaves: the directory, with the
    files it had. *)
Lemma makedirs_returned (initials : pystr) (w w0 : world) :
  single_name initials →
  makedirs (initials_dir initials) w = (inr tt, w0) →
  files w0 !! initials_dir initials
  = Some (default ∅ (files w !! initials_dir initials))
  ∧ (∀ x, <[initials_dir initials := x]> (files w0)
          = <[initials_dir initials := x]> (files w))
  ∧ (∀ dir, dir ≠ initials_dir initials → files w0 !! dir = files w !! dir)
  ∧ rng w0 = rng w.
Proof.
  intros Hn. rewrite (makedirs_cases _ _ Hn).
  destruct (files w !! initials_dir initials) as [d|] eqn:E.
  - by intros [= <-].
  - case_bool_decide; [done|]. intros [= <-]. cbn [files rng].
    rewrite lookup_insert_eq. split; [done|]. split; [|split; [|done]].
    + intros x. apply insert_insert_eq.
    + intros dir Hne. by rewrite lookup_insert_ne.
Qed.

Lemma makedirs_single (initials : pystr) (w : world) :
  single_name initials →
  unobstructed initials w →
  ∃ w0, makedirs (initials_dir initials) w = (inr tt, w0).
Proof.
  intros Hn [Hfile _]. rewrite (makedirs_cases _ _ Hn), Hfile.
  destruct (files w !! initials_dir initials); [by eexists|].
  rewrite bool_decide_false by (by intros [? ?]). by eexists.
Qed.

(** The loop of [generate_variants] on the directory of a single name,
    when it returns: the descriptors and the files of the variants. *)
Lemma generate_loop_returned (initials : pystr) (colors : list pystr)
    (todo : list Z) :
  ∀ (variants : list pyval) (w : world) (d : gmap pystr (list byte))
    (vs : list pyval) (w' : world),
  single_name initials →
  files w !! initials_dir initials = Some d →
  (∀ v, v ∈ todo → 1 ≤ v ≤ Z.of_nat (length colors)) →
  generate_loop render_png todo initials (initials_dir initials) colors variants w
  = (inr vs, w') →
  vs = variants ++ map (fun v => fresh_descriptor initials v (color_of colors v)) todo
  ∧ w' = World (<[initials_dir initials :=
                    with_variants render_png initials colors todo d]> (files w))
               (rng w).
Proof.
  induction todo as [|v todo IH]; intros variants w d vs w' Hn Hd Hin Hloop.
  - injection Hloop as <- <-. cbn [map with_variants foldl].
    rewrite app_nil_r, insert_id by done. by destruct w.
  - cbn [generate_loop] in Hloop. unfold bind at 1 in Hloop.
    rewrite (list_index_ok colors (v - 1) []) in Hloop
      by (specialize (Hin v (list_elem_of_here _ _)); lia).
    unfold bind at 1 in Hloop.
    rewrite (write_variant_cases initials v _ w d Hn Hd) in Hloop.
    case_bool_decide; [done|].
    eapply IH in Hloop as [-> ->]; [|done| |].
    + cbn [files rng map with_variants foldl].
      rewrite insert_insert_eq, <- app_assoc. done.
    + cbn [files]. apply lookup_insert_eq.
    + intros; apply Hin; by apply list_elem_of_further.
Qed.

(** The loop returns when no directory stands in the directory of the
    initials. *)
Lemma generate_loop_spec (initials : pystr) (colors : list pystr) (todo : list Z) :
  ∀ (variants : list pyval) (w : world) (d : gmap pystr (list byte)),
  single_name initials →
  files w !! initials_dir initials = Some d →
  (∀ name, files w !! (initials_dir initials ++ lit "/" ++ name) = None) →
  (∀ v, v ∈ todo → 1 ≤ v ≤ Z.of_nat (length colors)) →
  generate_loop render_png todo initials (initials_dir initials) colors variants w
  = (inr (variants ++ map (fun v => fresh_descriptor initials v (color_of colors v)) todo),
     World (<[initials_dir initials := with_variants render_png initials colors todo d]> (files w))
           (rng w)).
Proof.
  induction todo as [|v todo IH]; intros variants w d Hn Hd Hfree Hin.
  - simpl. rewrite app_nil_r, insert_id by done. by destruct w.
  - cbn [generate_loop]. unfold bind at 1.
    rewrite (list_index_ok colors (v - 1) [])
      by (specialize (Hin v (list_elem_of_here _ _)); lia).
    unfold bind at 1. rewrite (write_variant initials v _ w d Hn Hd (Hfree _)).
    erewrite IH.
    + cbn [files rng map with_variants foldl].
      rewrite insert_insert_eq, <- app_assoc. done.
    + done.
    + cbn [files]. apply lookup_insert_eq.
    + intros name. cbn [files].
      rewrite lookup_insert_ne
        by (intros H; symmetry in H; by apply initials_dir_longer in H).
      apply Hfree.
    + intros; apply Hin; by apply list_elem_of_further.
Qed.

Lemma sample_colors (n : Z) (w : world) :
  0 ≤ n ≤ 12 →
  ∃ colors w1,
    random_sample BACKGROUND_COLORS (Z.min n (Z.of_nat (length BACKGROUND_COLORS))) w
    = (inr colors, w1)
    ∧ files w1 = files w
    ∧ length colors = Z.to_nat n ∧ NoDup colors ∧ colors ⊆ BACKGROUND_COLORS.
Proof.
  intros Hn. unfold random_sample.
  change (Z.of_nat (length BACKGROUND_COLORS)) with 12.
  rewrite Z.min_l by lia.
  destruct (Z.ltb_spec n 0); [lia|]. destruct (Z.ltb_spec 12 n); [lia|]. cbn [orb].
  destruct (sample_loop_spec (Z.to_nat n) BACKGROUND_COLORS (length BACKGROUND_COLORS) w)
    as (colors & w1 & Hs & Hlen & Hsub & Hf).
  { change (length BACKGROUND_COLORS) with 12%nat. lia. }
  rewrite firstn_all in Hsub.
  exists colors, w1. split; [done|]. split; [done|]. split; [done|]. split.
  - eapply submseteq_NoDup; [exact Hsub|apply BACKGROUND_COLORS_NoDup].
  - intros c Hc. eapply elem_of_submseteq; eauto.
Qed.

(** What a call of [generate_variants] that returns has done, for a single
    name and a number from 1 to 12. *)
Lemma generate_variants_returned (initials : pystr) (n : Z) (w : world)
    (vs : list pyval) (w' : world) :
  single_name initials →
  1 ≤ n ≤ 12 →
  generate_variants render_png initials n w = (inr vs, w') →
  ∃ colors g,
    vs = map (fun v => fresh_descriptor initials v (color_of colors v))
           (range 1 (n + 1))
    ∧ w' = World (<[initials_dir initials :=
                      with_variants render_png initials colors (range 1 (n + 1))
                        (default ∅ (files w !! initials_dir initials))]> (files w)) g
    ∧ length colors = Z.to_nat n ∧ NoDup colors ∧ colors ⊆ BACKGROUND_COLORS.
Proof.
  intros Hname Hn. unfold generate_variants. fold (initials_dir initials).
  unfold bind at 1.
  destruct (makedirs (initials_dir initials) w) as [[e|[]] w0] eqn:Hm; [done|].
  apply (makedirs_returned _ _ _ Hname) in Hm as (Hd0 & Hins & _ & _).
  unfold bind at 1.
  destruct (sample_colors n w0) as (colors & w1 & -> & Hf & Hlen & Hnd & Hsub);
    [lia|].
  intros Hloop. eapply generate_loop_returned in Hloop as [-> ->]; [|done| |].
  - exists colors, (rng w1). rewrite Hf, Hins. done.
  - rewrite Hf. exact Hd0.
  - intros v Hv. apply elem_of_range in Hv. lia.
Qed.

(** The call returns when nothing stands in the way. *)
Lemma generate_variants_spec (initials : pystr) (n : Z) (w : world) :
  single_name initials →
  unobstructed initials w →
  1 ≤ n ≤ 12 →
  ∃ colors g,
    generate_variants render_png initials n w
    = (inr (map (fun v => fresh_descriptor initials v (color_of colors v)) (range 1 (n + 1))),
       World (<[initials_dir initials :=
                  with_variants render_png initials colors (range 1 (n + 1))
                    (default ∅ (files w !! initials_dir initials))]> (files w)) g)
    ∧ length colors = Z.to_nat n ∧ NoDup colors ∧ colors ⊆ BACKGROUND_COLORS.
Proof.
  intros Hname Hfree Hn. unfold generate_variants. fold (initials_dir initials).
  unfold bind at 1.
  destruct (makedirs_single initials w Hname Hfree) as [w0 Hm]. rewrite Hm.
  apply (makedirs_returned _ _ _ Hname) in Hm as (Hd0 & Hins & Hother & _).
  unfold bind at 1.
  destruct (sample_colors n w0) as (colors & w1 & -> & Hf & Hlen & Hnd & Hsub);
    [lia|].
  exists colors, (rng w1).
  erewrite generate_loop_spec; [|done| | |].
  - by rewrite Hf, Hins.
  - rewrite Hf. exact Hd0.
  - intros name. rewrite Hf, Hother by apply initials_dir_longer.
    apply Hfree.
  - intros v Hv. apply elem_of_range in Hv. lia.
Qed.

(** A call of [generate_variants] that returns was made on initials
    without NUL character. *)
Lemma generate_variants_no_nul (initials : pystr) (n : Z) (w : world)
    (vs : list pyval) (w' : world) :
  generate_variants render_png initials n w = (inr vs, w') → 0%N ∉ initials.
Proof.
  unfold generate_variants. unfold bind at 1. unfold makedirs.
  case_bool_decide as H0; [done|]. intros _ Hin. apply H0.
  apply elem_of_join. by left.
Qed.

Lemma get_random_variant_fresh_branch (initials : pystr) (w : world) :
  stored_png initials w = [] →
  get_random_variant render_png initials w
  = (let! variants := generate_variants render_png initials 3 in
     random_choice variants) w.
Proof.
  unfold stored_png, get_random_variant, path_exists, listdir.
  fold (initials_dir initials). unfold bind at 1.
  destruct (files w !! dir_key (initials_dir initials)) as [d|] eqn:E; [|done].
  intros Hnone. rewrite bool_decide_true by (by eexists). cbn [negb].
  unfold bind at 1. rewrite E, Hnone. done.
Qed.

Lemma get_random_variant_existing_branch (initials : pystr) (w : world) :
  stored_png initials w ≠ [] →
  get_random_variant render_png initials w
  = (let! random_file := random_choice (stored_png initials w) in
     let! tail := list_index (split random_file (lit "_variant")) 1 in
     let! variant_num := list_index (split tail (lit ".")) 0 in
     let! num := py_int variant_num in
     ret (existing_descriptor initials random_file num)) w.
Proof.
  unfold stored_png, get_random_variant, path_exists, listdir.
  fold (initials_dir initials). unfold bind at 1.
  destruct (files w !! dir_key (initials_dir initials)) as [d|] eqn:E; [|done].
  intros Hsome. rewrite bool_decide_true by (by eexists). cbn [negb].
  unfold bind at 1. rewrite E. rewrite bool_decide_false by done. done.
Qed.

End GeneratorFacts.

(** ** The claims about the generator *)

Section GeneratorClaims.
Variable upper : N → pystr.
Variable render_png : pystr → pystr → list byte.
Import ProfileImageGenerator.




End GeneratorClaims.


Section StoreClaims.
Variable render_png : pystr → pystr → list byte.
Import ProfileImageGenerator.



Lemma list_index_world {A} (l : list A) (i : Z) (w : world) :
  snd (list_index l i w) = w.
Proof.
  unfold list_index. destruct (_ || _); [done|]. by destruct (l !! _).
Qed.

Lemma py_int_world (s : pystr) (w : world) : snd (py_int s w) = w.
Proof.
  unfold py_int. by destruct (match int_strip s with [] => _ | _ => _ end).
Qed.

(** In the branch that reads the directory, whatever the names found there,
    the call ends with the store it started from. *)
Lemma get_random_variant_frame (initials : pystr) (w : world) :
  stored_png initials w ≠ [] →
  files (snd (get_random_variant render_png initials w)) = files w.
Proof.
  intros Hsome. rewrite get_random_variant_existing_branch by done.
  destruct (random_choice_spec (stored_png initials w) w Hsome)
    as (f & w1 & Hch & _ & Hf).
  unfold bind at 1. rewrite Hch. rewrite <- Hf. f_equal.
  unfold bind at 1.
  pose proof (list_index_world (split f (lit "_variant")) 1 w1) as H1.
  destruct (list_index (split f (lit "_variant")) 1 w1) as [[e|tail] w2];
    [done|]. cbn [snd] in H1. subst w2.
  unfold bind at 1.
  pose proof (list_index_world (split tail (lit ".")) 0 w1) as H2.
  destruct (list_index (split tail (lit ".")) 0 w1) as [[e|num] w2];
    [done|]. cbn [snd] in H2. subst w2.
  unfold bind at 1.
  pose proof (py_int_world num w1) as H3.
  by destruct (py_int num w1) as [[e|z] w2].
Qed.

(** C6, as the code has it. When the store already holds [.png] files for
    the initials, [get_random_variant] leaves every directory and file of
    the store as it was; and when these files are named as
    [generate_variants] names them (the initials not containing the text
    [_variant]), it returns the descriptor of one of them, with the number
    read back from its name. *)
Theorem get_random_variant_reuses (initials : pystr) (w : world) :
  stored_png initials w ≠ [] →
  files (snd (get_random_variant render_png initials w)) = files w
  ∧ (str_contains initials (lit "_variant") = false →
     (∀ f, f ∈ stored_png initials w → ∃ k, f = variant_filename initials k) →
     ∃ f k w',
       f ∈ stored_png initials w
       ∧ f = variant_filename initials k
       ∧ get_random_variant render_png initials w
         = (inr (existing_descriptor initials f k), w')).
Proof.
  intros Hsome. split; [by apply get_random_variant_frame|].
  intros Hm Hnamed.
  destruct (random_choice_spec (stored_png initials w) w Hsome)
    as (f & w' & Hch & Hin & Hf).
  destruct (Hnamed f Hin) as [k Hk].
  exists f, k, w'. split; [done|]. split; [done|].
  rewrite get_random_variant_existing_branch by done.
  unfold bind at 1. rewrite Hch.
  pose proof (variant_filename_parse initials k w' Hm) as Hparse.
  rewrite <- Hk in Hparse. unfold bind in Hparse |- *.
  destruct (list_index (split f (lit "_variant")) 1 w') as [[e|tail] w1];
    [done|].
  destruct (list_index (split tail (lit ".")) 0 w1) as [[e|num] w2]; [done|].
  destruct (py_int num w2) as [[e|z] w3]; [done|].
  by injection Hparse as -> ->.
Qed.

(** Once [generate_variants] has run for the initials, the [.png] files of
    their directory all carry the names it gives. *)
Lemma generate_variants_names (initials : pystr) (n : Z) (w : world)
    (vs : list pyval) (w' : world) :
  single_name initials →
  1 ≤ n ≤ 12 →
  (∀ f, f ∈ stored_png initials w → ∃ k, f = variant_filename initials k) →
  generate_variants render_png initials n w = (inr vs, w') →
  ∀ f, f ∈ stored_png initials w' → ∃ k, f = variant_filename initials k.
Proof.
  intros Hname Hn Hnamed Hgen f.
  destruct (generate_variants_returned render_png initials n w vs w' Hname Hn Hgen)
    as (colors & g & _ & -> & _).
  pose proof (dir_key_initials_dir initials Hname) as Hkey.
  rewrite !elem_of_stored_png. unfold read_file.
  rewrite Hkey.
  cbn [files]. rewrite lookup_insert_eq. cbn [mbind option_bind].
  intros [Hpng Hf].
  assert (∀ todo d,
            is_Some (with_variants render_png initials colors todo d !! f) →
            (∃ k, f = variant_filename initials k) ∨ is_Some (d !! f)) as Hw.
  { induction todo as [|v todo IH]; intros d; [by right|].
    cbn [with_variants foldl]. intros H. apply IH in H as [H|H]; [by left|].
    apply lookup_insert_is_Some' in H as [<-|H]; [left; by eexists|by right]. }
  apply Hw in Hf as [Hf|Hf]; [done|].
  apply Hnamed, elem_of_stored_png. split; [done|]. unfold read_file.
  rewrite Hkey.
  destruct (files w !! initials_dir initials); [done|].
  cbn in Hf. rewrite lookup_empty in Hf. by destruct Hf.
Qed.

Lemma generate_loop_shape (initials dir : pystr) (colors : list pystr)
    (todo : list Z) :
  ∀ (variants vs : list pyval) (w w' : world),
  generate_loop render_png todo initials dir colors variants w = (inr vs, w') →
  Forall (fun d => dict_keys d = Some fresh_keys) variants →
  Forall (fun d => dict_keys d = Some fresh_keys) vs.
Proof.
  induction todo as [|v todo IH]; intros variants vs w w' Hloop Hacc.
  - by injection Hloop as <- _.
  - cbn [generate_loop] in Hloop. unfold bind at 1 in Hloop.
    destruct (list_index colors (v - 1) w) as [[e|c] w1]; [done|].
    unfold bind at 1 in Hloop.
    destruct (write_file _ _ w1) as [[e|[]] w2]; [done|].
    eapply IH; [exact Hloop|].
    apply Forall_app. split; [done|]. by repeat constructor.
Qed.

Lemma generate_variants_shape (initials : pystr) (n : Z) (w : world)
    (vs : list pyval) (w' : world) :
  generate_variants render_png initials n w = (inr vs, w') →
  Forall (fun d => dict_keys d = Some fresh_keys) vs.
Proof.
  unfold generate_variants. unfold bind at 1.
  destruct (makedirs _ w) as [[e|[]] w0]; [done|].
  unfold bind at 1.
  destruct (random_sample _ _ _) as [[e|colors] w1]; [done|].
  intros Hloop. eapply generate_loop_shape; [exact Hloop|constructor].
Qed.

Lemma get_random_variant_shape (initials : pystr) (w : world) (v : pyval)
    (w' : world) :
  get_random_variant render_png initials w = (inr v, w') →
  (stored_png initials w = [] → dict_keys v = Some fresh_keys)
  ∧ (stored_png initials w ≠ [] → dict_keys v = Some existing_keys).
Proof.
  intros Hgrv. split; intros Hst.
  - rewrite get_random_variant_fresh_branch in Hgrv by done.
    unfold bind in Hgrv.
    destruct (generate_variants render_png initials 3 w) as [[e|vs] w1] eqn:Hgen;
      [done|].
    apply generate_variants_shape in Hgen.
    assert (v ∈ vs) as Hin.
    { unfold random_choice in Hgrv. destruct vs as [|a vs]; [done|].
      unfold bind in Hgrv. destruct (randbelow _ w1) as [[e|j] w2]; [done|].
      unfold list_index in Hgrv. destruct (_ || _); [done|].
      destruct ((a :: vs) !! _) as [x|] eqn:Hx; [|done].
      injection Hgrv as <- _. by eapply list_elem_of_lookup_2. }
    by eapply (proj1 (Forall_forall _ _)) in Hgen.
  - rewrite get_random_variant_existing_branch in Hgrv by done.
    unfold bind in Hgrv.
    repeat match type of Hgrv with
           | match ?m with _ => _ end = _ => destruct m as [[?|?] ?]; [done|]
           end.
    by injection Hgrv as <- _.
Qed.

(** C9. Every descriptor [generate_variants] returns, and every descriptor
    [get_random_variant] returns after generating, has the fields
    [variant], [filename], [filepath], [bg_color] and [url]; every
    descriptor [get_random_variant] returns for a file it found has the
    fields [variant], [filename], [filepath] and [url], and no colour. *)
Theorem descriptor_shapes (initials : pystr) (w : world) :
  (∀ n vs w',
     generate_variants render_png initials n w = (inr vs, w') →
     Forall (fun d => dict_keys d = Some fresh_keys) vs)
  ∧ (∀ v w',
       get_random_variant render_png initials w = (inr v, w') →
       (stored_png initials w = [] → dict_keys v = Some fresh_keys)
       ∧ (stored_png initials w ≠ [] → dict_keys v = Some existing_keys))
  ∧ "bg_color" ∈ fresh_keys
  ∧ "bg_color" ∉ existing_keys.
Proof.
  split. { intros n vs w'. apply generate_variants_shape. }
  split. { intros v w'. apply get_random_variant_shape. }
  split; by apply (bool_decide_unpack _).
Qed.

End StoreClaims.

(** ** The claims about the handlers *)

Section HandlerClaims.
Variable upper : N → pystr.
Variable render_png : pystr → pystr → list byte.

Lemma strip_prefix_app (prefix s : pystr) :
  strip_prefix prefix (prefix ++ s) = Some s.
Proof.
  unfold strip_prefix, startswith.
  rewrite bool_decide_true by apply prefix_app_r, reflexivity.
  by rewrite drop_app_length.
Qed.

(** C8. For every file of the store, the body [/image] streams and the
    decoded payload of the data URI [/image-base64] answers are the same
    bytes. *)
Theorem image_base64_roundtrip (initials filename : pystr)
    (content : list byte) (w : world) :
  read_file (initials_dir initials) filename w = Some content →
  ∃ uri,
    fst (serve_image initials filename w)
    = Response 200 (FileBody (lit "image/png") content)
    ∧ fst (serve_image_base64 initials filename w)
      = Response 200 (Json (VDict [
          ("success", VBool true);
          ("initials", VStr initials);
          ("filename", VStr filename);
          ("image_base64", VStr uri) ]))
    ∧ decode_data_uri uri = Some content.
Proof.
  intros Hread. unfold serve_image, serve_image_base64.
  fold (initials_dir initials). rewrite Hread.
  eexists. split; [done|]. split; [done|].
  unfold decode_data_uri. rewrite strip_prefix_app. apply b64_roundtrip.
Qed.

Lemma bind_inr {A B} (m : M A) (f : A → M B) (w w' : world) (b : B) :
  bind m f w = (inr b, w') →
  ∃ a w1, m w = (inr a, w1) ∧ f a w1 = (inr b, w').
Proof.
  unfold bind. destruct (m w) as [[e|a] w1]; [done|]. by exists a, w1.
Qed.

Lemma get_random_variant_truthy (initials : pystr) (w : world) (v : pyval)
    (w' : world) :
  ProfileImageGenerator.get_random_variant render_png initials w = (inr v, w') →
  truthy v = true ∧ v ≠ VNone.
Proof.
  intros Hgrv.
  destruct (get_random_variant_shape _ _ _ _ _ Hgrv) as [Hf He].
  destruct (decide (stored_png initials w = [])) as [Hst|Hst].
  - specialize (Hf Hst). by destruct v as [| | | | | |[|? ?]].
  - specialize (He Hst). by destruct v as [| | | | | |[|? ?]].
Qed.

(** C10. Whenever [get_random_variant] returns, it returns a dictionary
    that is neither [None] nor empty; so [/generate] never answers with the
    error [Failed to generate image] that guards a missing variant. *)
Theorem generate_always_has_image (initials : pystr) (req : request)
    (w : world) :
  (∀ v w',
     ProfileImageGenerator.get_random_variant render_png initials w = (inr v, w') →
     truthy v = true ∧ v ≠ VNone)
  ∧ fst (generate_profile_image upper render_png req w)
    ≠ error_response 500 (lit "Failed to generate image").
Proof.
  split; [intros v w'; apply get_random_variant_truthy|].
  unfold generate_profile_image.
  destruct (req_json req) as [data0|]; [|by intros [=]].
  destruct (if negb (truthy data0) then req_raw req else Some data0)
    as [data|]; [|by intros [=]].
  unfold catch_errors.
  match goal with |- context [match ?m w with _ => _ end] =>
    destruct (m w) as [[e|r] w1] eqn:Hrun end.
  { destruct (is_ValueError e); by intros [=]. }
  cbn [fst].
  apply bind_inr in Hrun as (f & w2 & _ & Hrun).
  apply bind_inr in Hrun as (first_name & w3 & _ & Hrun).
  apply bind_inr in Hrun as (l & w4 & _ & Hrun).
  apply bind_inr in Hrun as (last_name & w5 & _ & Hrun).
  destruct (negb (truthy (VStr first_name)) || negb (truthy (VStr last_name))).
  { injection Hrun as <- _. by intros [=]. }
  apply bind_inr in Hrun as (ini & w6 & _ & Hrun).
  apply bind_inr in Hrun as (variant & w7 & Hgrv & Hrun).
  apply get_random_variant_truthy in Hgrv as [Ht _].
  rewrite Ht in Hrun. cbn [negb] in Hrun.
  injection Hrun as <- _. by intros [=].
Qed.

Lemma filter_split_length {A} (P : A → Prop) `{∀ x, Decision (P x)}
    (l : list A) :
  (length (filter P l) + length (filter (fun x => ¬ P x) l) = length l)%nat.
Proof.
  induction l as [|a l IH]; [done|].
  rewrite !filter_cons. destruct (decide (P a)), (decide (¬ P a));
    cbn [length]; try lia; tauto.
Qed.

Lemma count_check_fails (nv : pyval) :
  (∀ z, nv = VInt z → ¬ 1 ≤ z ≤ 12) → nv ≠ VBool true →
  negb (isinstance_int nv) || (int_value nv <? 1) || (12 <? int_value nv) = true.
Proof.
  intros Hz Hb. destruct nv as [|[]|z| | | |]; try done.
  cbn [isinstance_int int_value negb orb].
  specialize (Hz z eq_refl).
  destruct (Z.ltb_spec z 1); [done|]. destruct (Z.ltb_spec 12 z); [done|]. lia.
Qed.

(** C4, as the code has it. When [num_variants] is present and is not an
    integer from 1 to 12 (the boolean [true] apart), [/generate-variants]
    leaves the store and the random generator untouched, so
    [generate_variants] of the store was not run, and answers with an error:
    400 when each of [first_name] and [last_name] is absent or a string,
    500 when one of them is present and is not a string. *)
Theorem generate_variants_rejects (req : request) (d : list (string * pyval))
    (nv : pyval) (w : world) :
  req_json req = Some (VDict d) →
  dict_get "num_variants" d = Some nv →
  (∀ z, nv = VInt z → ¬ 1 ≤ z ≤ 12) →
  nv ≠ VBool true →
  ∃ r,
    generate_variants upper render_png req w = (r, w)
    ∧ (text_or_absent "first_name" d ∧ text_or_absent "last_name" d →
       status r = 400)
    ∧ (¬ (text_or_absent "first_name" d ∧ text_or_absent "last_name" d) →
       status r = 500).
Proof.
  intros Hjson Hnv Hz Hb. unfold generate_variants. rewrite Hjson.
  assert (truthy (VDict d) = true) as -> by (by destruct d).
  cbn [negb py_get]. unfold catch_errors, text_or_absent, bind, ret.
  rewrite Hnv, (count_check_fails nv Hz Hb).
  destruct (dict_get "first_name" d) as [[| | | |f| |]|];
    try (eexists; split; [reflexivity|]; split; [by intros [[] _]|done]);
    (destruct (dict_get "last_name" d) as [[| | | |l| |]|];
     try (eexists; split; [reflexivity|]; split; [by intros [_ []]|done]));
    cbn [py_strip ret];
    destruct (negb _ || negb _);
    (eexists; split; [reflexivity|]; split; [done|by intros []]).
Qed.

End HandlerClaims.

(** ** The claims about the initials *)

Section InitialsClaims.
Variable upper : N → pystr.
Import ProfileImageGenerator.

(** What [extract_initials] returns on names that keep a character once
    trimmed: the capitals of the two first characters, whatever their
    number. *)
Lemma extract_initials_trimmed (first_name last_name : pystr) (c1 c2 : N)
    (r1 r2 : pystr) (w : world) :
  strip first_name = c1 :: r1 → strip last_name = c2 :: r2 →
  extract_initials upper first_name last_name w = (inr (upper c1 ++ upper c2), w).
Proof.
  intros H1 H2. unfold extract_initials.
  destruct first_name as [|a f]; [done|]. destruct last_name as [|b l]; [done|].
  cbn [truthy negb orb]. unfold bind. by rewrite H1, H2.
Qed.

(** An empty name is refused with [ValueError]. *)
Lemma extract_initials_empty (first_name last_name : pystr) (w : world) :
  first_name = [] ∨ last_name = [] →
  extract_initials upper first_name last_name w
  = (inl (Exn ValueError (lit "Both first_name and last_name are required")), w).
Proof.
  unfold extract_initials. intros [-> | ->]; [done|].
  by destruct first_name.
Qed.

(** A name made of blanks only passes the test for emptiness and fails at
    the indexing of its trimmed form. *)
Lemma extract_initials_blank (first_name last_name : pystr) (w : world) :
  first_name ≠ [] → last_name ≠ [] →
  strip first_name = [] ∨ strip last_name = [] →
  extract_initials upper first_name last_name w
  = (inl (Exn IndexError (lit "string index out of range")), w).
Proof.
  intros Hf Hl Hblank. unfold extract_initials.
  destruct first_name as [|a f]; [done|]. destruct last_name as [|b l]; [done|].
  cbn [truthy negb orb]. unfold bind.
  destruct (strip (a :: f)) as [|c1 r1] eqn:E1; [done|].
  destruct Hblank as [|E2]; [done|]. by rewrite E2.
Qed.

(** C2, at the input where the code departs from it: the first name is a
    single space. The call ends with [IndexError], which the handlers
    report as an internal error, not with [ValueError]. *)
Theorem extract_initials_space (w : world) :
  extract_initials upper (lit " ") (lit "Doe") w
  = (inl (Exn IndexError (lit "string index out of range")), w)
  ∧ strip (lit " ") = [].
Proof. split; [|done]. by apply extract_initials_blank; [..|left]. Qed.

End InitialsClaims.

(** C1, at the input where the code departs from it: the first name is the
    sharp s (U+00DF), whose capital form is two letters. The initials come
    out three characters long. *)
Theorem extract_initials_sharp_s (w : world) :
  ProfileImageGenerator.extract_initials latin1_upper [223%N] (lit "a") w
  = (inr (lit "SSA"), w)
  ∧ length (lit "SSA") = 3%nat.
Proof. done. Qed.

(** ** The service on examples *)




(** Initials that are not a plain name, as the store takes them: a NUL
    character is refused when the directory is made, and the handler
    answers 400 with the message of this [ValueError]; the initials [./]
    name [OUTPUT_DIR] itself, where [_variant1.png] is then written and
    found again. *)
Example generate_variants_nul :
  fst (ProfileImageGenerator.generate_variants sample_render [0%N; 65%N] 0
         empty_world)
  = inl (Exn ValueError (lit "embedded null byte"))
  ∧ fst (generate_profile_image latin1_upper sample_render
           (request_of (VDict [ ("first_name", VStr [0%N; 97%N]);
                                ("last_name", VStr (lit "b")) ]))
           empty_world)
    = error_response 400 (lit "embedded null byte").
Proof. split; by vm_compute. Qed.

Example generate_variants_dot_slash :
  ∃ vs w' image w'',
    ProfileImageGenerator.generate_variants sample_render (lit "./") 1 empty_world
    = (inr vs, w')
    ∧ read_file OUTPUT_DIR (lit "_variant1.png") w'
      = Some (sample_render (lit "./") (lit "#E74C3C"))
    ∧ ProfileImageGenerator.get_random_variant sample_render (lit "./") w'
      = (inr image, w'')
    ∧ field "filename" image = Some (VStr (lit "_variant1.png")).
Proof. eexists _, _, _, _. repeat split; by vm_compute. Qed.

Lemma stored_png_world_with_AS :
  stored_png (lit "AS") world_with_AS = [lit "AS_variant1.png"].
Proof. by vm_compute. Qed.

Lemma get_random_variant_reuses_witness :
  files (snd (ProfileImageGenerator.get_random_variant sample_render (lit "AS")
                world_with_AS))
  = files world_with_AS
  ∧ ∃ f k w',
      f ∈ stored_png (lit "AS") world_with_AS
      ∧ f = ProfileImageGenerator.variant_filename (lit "AS") k
      ∧ ProfileImageGenerator.get_random_variant sample_render (lit "AS") world_with_AS
        = (inr (existing_descriptor (lit "AS") f k), w').
Proof.
  destruct (get_random_variant_reuses sample_render (lit "AS") world_with_AS)
    as [Hframe Hpick].
  - rewrite stored_png_world_with_AS. discriminate.
  - split; [exact Hframe|]. apply Hpick; [reflexivity|].
    rewrite stored_png_world_with_AS. intros f Hf.
    apply list_elem_of_singleton in Hf as ->. by exists 1.
Defined.

(** C6 as it is stated fails on a directory that holds a [.png] file of
    another origin: the name has no [_variant] part and the call ends with
    [IndexError] instead of a descriptor. *)
Lemma get_random_variant_foreign_file :
  stored_png (lit "AB") world_with_foreign_file = [lit "photo.png"]
  ∧ fst (ProfileImageGenerator.get_random_variant sample_render (lit "AB")
           world_with_foreign_file)
    = inl (Exn IndexError (lit "list index out of range")).
Proof. split; by vm_compute. Qed.

Lemma descriptor_shapes_witness :
  ∃ v w',
    ProfileImageGenerator.get_random_variant sample_render (lit "AS") world_with_AS
    = (inr v, w')
    ∧ stored_png (lit "AS") world_with_AS ≠ []
    ∧ dict_keys v = Some existing_keys.
Proof.
  destruct (ProfileImageGenerator.get_random_variant sample_render (lit "AS")
              world_with_AS) as [[e|v] w'] eqn:Hrun.
  - vm_compute in Hrun. discriminate Hrun.
  - exists v, w'. split; [reflexivity|].
    assert (stored_png (lit "AS") world_with_AS ≠ []) as Hst
      by (rewrite stored_png_world_with_AS; discriminate).
    split; [exact Hst|].
    destruct (descriptor_shapes sample_render (lit "AS") world_with_AS)
      as (_ & Hshape & _).
    exact (proj2 (Hshape v w' Hrun) Hst).
Defined.

Lemma generate_variants_rejects_witness :
  ∃ r,
    generate_variants latin1_upper sample_render (request_of twenty_variants)
      empty_world = (r, empty_world)
    ∧ status r = 400.
Proof.
  destruct (generate_variants_rejects latin1_upper sample_render
              (request_of twenty_variants)
              [ ("first_name", VStr (lit "John")); ("last_name", VStr (lit "Doe"));
                ("num_variants", VInt 20) ]
              (VInt 20) empty_world) as (r & Hrun & H400 & _).
  - reflexivity.
  - reflexivity.
  - intros z [= <-]. lia.
  - discriminate.
  - exists r. split; [exact Hrun|]. apply H400. by split.
Defined.

(** C4 as it is stated fails when a name is not a string: the call of
    [strip] raises [AttributeError] before [num_variants] is looked at, and
    the answer is 500, not 400. *)
Lemma generate_variants_number_as_name :
  fst (generate_variants latin1_upper sample_render
         (request_of (VDict [ ("first_name", VInt 5);
                              ("last_name", VStr (lit "Doe"));
                              ("num_variants", VInt 20) ]))
         empty_world)
  = error_response 500 (lit "Internal server error")
  ∧ status (error_response 500 (lit "Internal server error")) ≠ 400.
Proof. split; by vm_compute. Qed.

(** The boolean [true] passes the test on [num_variants] and one variant is
    generated. *)
Example generate_variants_true :
  status (fst (generate_variants latin1_upper sample_render
                 (request_of (VDict [ ("first_name", VStr (lit "John"));
                                      ("last_name", VStr (lit "Doe"));
                                      ("num_variants", VBool true) ]))
                 empty_world)) = 200.
Proof. by vm_compute. Qed.

Example bulk_generate_scenario :
  ∃ r1 r2,
    fst (bulk_generate latin1_upper sample_render
           (request_of (VDict [("users", VList two_users)])) empty_world)
    = Response 200 (Json (VDict [
        ("success", VBool true);
        ("total_users", VInt 2);
        ("successful_generations", VInt 1);
        ("failed_generations", VInt 1);
        ("results", VList [r1; r2]) ]))
    ∧ field "initials" r1 = Some (VStr (lit "AS"))
    ∧ field "error" r2
      = Some (VStr (lit "Both first_name and last_name are required")).
Proof. eexists _, _. split; [by vm_compute|]. split; by vm_compute. Qed.

Lemma image_base64_roundtrip_witness :
  ∃ uri,
    fst (serve_image (lit "AS") (lit "AS_variant1.png") world_with_AS)
    = Response 200 (FileBody (lit "image/png")
                      (sample_render (lit "AS") (lit "#FF9933")))
    ∧ fst (serve_image_base64 (lit "AS") (lit "AS_variant1.png") world_with_AS)
      = Response 200 (Json (VDict [
          ("success", VBool true);
          ("initials", VStr (lit "AS"));
          ("filename", VStr (lit "AS_variant1.png"));
          ("image_base64", VStr uri) ]))
    ∧ decode_data_uri uri = Some (sample_render (lit "AS") (lit "#FF9933")).
Proof.
  apply (image_base64_roundtrip (lit "AS") (lit "AS_variant1.png")
           (sample_render (lit "AS") (lit "#FF9933")) world_with_AS).
  by vm_compute.
Defined.

(** The scenario of [/generate]: Arjun Sharma gets the initials AS and one
    of the three variants. *)
Example generate_scenario :
  ∃ image,
    fst (generate_profile_image latin1_upper sample_render
           (request_of (VDict [ ("first_name", VStr (lit "Arjun"));
                                ("last_name", VStr (lit "Sharma")) ]))
           empty_world)
    = Response 200 (Json (VDict [
        ("success", VBool true);
        ("user_info", VDict [ ("first_name", VStr (lit "Arjun"));
                              ("last_name", VStr (lit "Sharma"));
                              ("initials", VStr (lit "AS")) ]);
        ("image", image);
        ("message",
         VStr (lit "Profile image generated successfully for Arjun Sharma")) ]))
    ∧ field "url" image = Some (VStr (lit "/image/AS/AS_variant2.png")).
Proof. eexists. split; by vm_compute. Qed.

Example generate_empty_request :
  fst (generate_profile_image latin1_upper sample_render
         (Request (Some (VDict [])) (Some (VDict []))) empty_world)
  = error_response 400 (lit "Both first_name and last_name are required").
Proof. by vm_compute. Qed.

(** * Further properties *)

(** ** Initials *)

Lemma lstrip_head (s : pystr) :
  match lstrip s with c :: _ => isspace c = false | [] => True end.
Proof.
  induction s as [|c s IH]; [done|]. simpl.
  destruct (isspace c) eqn:E; [exact IH|exact E].
Qed.

Lemma lstrip_fixed (s : pystr) :
  match s with c :: _ => isspace c = false | [] => True end → lstrip s = s.
Proof. destruct s as [|c s]; [done|]. simpl. by intros ->. Qed.

Lemma lstrip_suffix (s : pystr) : ∃ blanks, s = blanks ++ lstrip s.
Proof.
  induction s as [|c s [b IH]]; [by exists []|]. simpl.
  destruct (isspace c); [|by exists []].
  exists (c :: b). simpl. by f_equal.
Qed.

Lemma rstrip_prefix (s : pystr) : ∃ blanks, s = rstrip s ++ blanks.
Proof.
  unfold rstrip. destruct (lstrip_suffix (rev s)) as [b Hb].
  exists (rev b). rewrite <- rev_app_distr, <- Hb. by rewrite rev_involutive.
Qed.

Lemma strip_idempotent (s : pystr) : strip (strip s) = strip s.
Proof.
  unfold strip.
  assert (Hl : lstrip (rstrip (lstrip s)) = rstrip (lstrip s)).
  { apply lstrip_fixed.
    destruct (rstrip_prefix (lstrip s)) as [b Hb].
    pose proof (lstrip_head s) as Hh. rewrite Hb in Hh.
    by destruct (rstrip (lstrip s)). }
  rewrite Hl. unfold rstrip at 1. unfold rstrip at 1.
  rewrite rev_involutive.
  rewrite (lstrip_fixed (lstrip (rev (lstrip s)))) by apply lstrip_head.
  done.
Qed.

Section InitialsFacts.
Variable upper : N → pystr.
Import ProfileImageGenerator.

(** X1. On names that keep a character once trimmed, and whose first
    characters have a capital form of one character, [extract_initials]
    returns exactly two characters: the capital of the first character of
    each trimmed name, in that order. *)
Theorem extract_initials_two_characters (first_name last_name : pystr)
    (c1 c2 : N) (r1 r2 : pystr) (w : world) :
  strip first_name = c1 :: r1 → strip last_name = c2 :: r2 →
  length (upper c1) = 1%nat → length (upper c2) = 1%nat →
  ∃ a b,
    extract_initials upper first_name last_name w = (inr [a; b], w)
    ∧ upper c1 = [a] ∧ upper c2 = [b].
Proof.
  intros H1 H2 L1 L2.
  destruct (upper c1) as [|a [|? ?]] eqn:E1; try done.
  destruct (upper c2) as [|b [|? ?]] eqn:E2; try done.
  exists a, b. split; [|done].
  rewrite (extract_initials_trimmed upper _ _ _ _ _ _ w H1 H2).
  by rewrite E1, E2.
Qed.

(** X2. [extract_initials] ends with [ValueError] exactly when one of the
    two names is the empty string, and it never changes the world. *)
Theorem extract_initials_value_error (first_name last_name : pystr)
    (w : world) :
  snd (extract_initials upper first_name last_name w) = w
  ∧ ((∃ msg, fst (extract_initials upper first_name last_name w)
             = inl (Exn ValueError msg))
     ↔ first_name = [] ∨ last_name = []).
Proof.
  unfold extract_initials.
  destruct first_name as [|a f], last_name as [|b l];
    try (split; [done|]; split; [intros _|intros _; by eexists]; auto; fail).
  cbn [truthy negb orb]. unfold bind, str_first.
  destruct (strip (a :: f)), (strip (b :: l)); cbn;
    (split; [done|]; split; [by intros [? [=]]|by intros [|]]).
Qed.

(** X3. Blanks around the names do not change the initials: on names that
    keep a character once trimmed, [extract_initials] gives the same result
    for the names and for their trimmed forms, which is what the handlers
    pass. *)
Theorem extract_initials_trim_invariant (first_name last_name : pystr)
    (w : world) :
  strip first_name ≠ [] → strip last_name ≠ [] →
  extract_initials upper (strip first_name) (strip last_name) w
  = extract_initials upper first_name last_name w.
Proof.
  intros H1 H2.
  destruct (strip first_name) as [|c1 r1] eqn:E1; [done|].
  destruct (strip last_name) as [|c2 r2] eqn:E2; [done|].
  rewrite (extract_initials_trimmed upper first_name last_name c1 c2 r1 r2 w E1 E2).
  rewrite <- E1, <- E2.
  apply (extract_initials_trimmed upper _ _ c1 c2 r1 r2);
    by rewrite strip_idempotent.
Qed.

End InitialsFacts.

Lemma extract_initials_two_characters_witness :
  ∃ a b,
    ProfileImageGenerator.extract_initials latin1_upper (lit "arjun")
      (lit " sharma ") empty_world = (inr [a; b], empty_world)
    ∧ latin1_upper 97 = [a] ∧ latin1_upper 115 = [b].
Proof.
  apply (extract_initials_two_characters latin1_upper (lit "arjun")
           (lit " sharma ") 97%N 115%N (lit "rjun") (lit "harma") empty_world);
    reflexivity.
Defined.

Lemma extract_initials_trim_invariant_witness :
  ProfileImageGenerator.extract_initials latin1_upper
    (strip (lit " arjun")) (strip (lit "sharma  ")) empty_world
  = ProfileImageGenerator.extract_initials latin1_upper
      (lit " arjun") (lit "sharma  ") empty_world.
Proof.
  apply (extract_initials_trim_invariant latin1_upper (lit " arjun")
           (lit "sharma  ") empty_world); discriminate.
Defined.

(** ** The generator and the store *)

Lemma range_split (a b c : Z) : a ≤ b ≤ c → range a c = range a b ++ range b c.
Proof.
  intros H. unfold range.
  replace (Z.to_nat (c - a)) with (Z.to_nat (b - a) + Z.to_nat (c - b))%nat by lia.
  rewrite seq_app, map_app. f_equal.
  rewrite Nat.add_0_l.
  rewrite <- (Nat.add_0_r (Z.to_nat (b - a))) at 1.
  rewrite <- (fmap_add_seq (Z.to_nat (b - a)) 0).
  change (map ?f ?l) with (f <$> l). rewrite <- list_fmap_compose.
  apply list_fmap_ext. intros _ i _. simpl. lia.
Qed.

Lemma range_cons (a b : Z) : a < b → range a b = a :: range (a + 1) b.
Proof.
  intros H. rewrite (range_split a (a + 1) b) by lia.
  unfold range at 1. replace (a + 1 - a) with 1 by lia. simpl.
  by rewrite Z.add_0_r.
Qed.

Section GeneratorExtras.
Variable render_png : pystr → pystr → list byte.
Import ProfileImageGenerator.

Lemma with_variants_cons (initials : pystr) (colors : list pystr) (v : Z)
    (todo : list Z) (d : gmap pystr (list byte)) :
  with_variants render_png initials colors (v :: todo) d
  = with_variants render_png initials colors todo
      (<[variant_filename initials v :=
           create_image render_png initials v (color_of colors v)]> d).
Proof. reflexivity. Qed.

Lemma with_variants_other (initials : pystr) (colors : list pystr)
    (todo : list Z) (d : gmap pystr (list byte)) (f : pystr) :
  f ∉ variant_filename initials <$> todo →
  with_variants render_png initials colors todo d !! f = d !! f.
Proof.
  revert d. induction todo as [|v todo IH]; intros d Hf; [done|].
  rewrite with_variants_cons. rewrite fmap_cons, not_elem_of_cons in Hf.
  destruct Hf as [Hne Hf].
  rewrite (IH _ Hf). by rewrite lookup_insert_ne.
Qed.

Lemma with_variants_written (initials : pystr) (colors : list pystr)
    (todo : list Z) (d : gmap pystr (list byte)) (v : Z) :
  NoDup todo → v ∈ todo →
  with_variants render_png initials colors todo d !! variant_filename initials v
  = Some (render_png initials (color_of colors v)).
Proof.
  revert d. induction todo as [|u todo IH]; intros d Hnd Hin;
    [by apply elem_of_nil in Hin|].
  apply NoDup_cons in Hnd as [Hu Hnd]. rewrite with_variants_cons.
  apply elem_of_cons in Hin as [->|Hin]; [|by apply IH].
  rewrite with_variants_other.
  - by rewrite lookup_insert_eq.
  - intros (x & Hx & Hin)%list_elem_of_fmap.
    apply variant_filename_inj in Hx as ->. done.
Qed.

Lemma with_variants_is_Some (initials : pystr) (colors : list pystr)
    (todo : list Z) (d : gmap pystr (list byte)) (f : pystr) :
  is_Some (with_variants render_png initials colors todo d !! f) ↔
  f ∈ variant_filename initials <$> todo ∨ is_Some (d !! f).
Proof.
  revert d. induction todo as [|v todo IH]; intros d.
  - cbn. rewrite elem_of_nil. tauto.
  - rewrite with_variants_cons.
    rewrite IH, lookup_insert_is_Some', fmap_cons, elem_of_cons.
    intuition congruence.
Qed.

(** X4. After [generate_variants initials n], for initials that are a plain
    name, [n] from 1 to 12 and a store that holds nothing but directories
    of plain initials, every descriptor it returned names a file of the
    store that holds the image of the initials on the background colour of
    that descriptor, and [/image] serves these bytes under the name of the
    descriptor. *)
Theorem generate_variants_stores_images (initials : pystr) (n : Z)
    (w : world) :
  plain_name initials →
  service_store w →
  1 ≤ n ≤ 12 →
  ∃ vs w',
    generate_variants render_png initials n w = (inr vs, w')
    ∧ ∀ v, v ∈ vs →
        ∃ k c,
          1 ≤ k ≤ n
          ∧ v = fresh_descriptor initials k c
          ∧ read_file (initials_dir initials) (variant_filename initials k) w'
            = Some (create_image render_png initials k c)
          ∧ fst (serve_image initials (variant_filename initials k) w')
            = Response 200 (FileBody (lit "image/png")
                              (create_image render_png initials k c)).
Proof.
  intros Hname%plain_single Hw Hn.
  destruct (generate_variants_spec render_png initials n w Hname
              (service_store_unobstructed _ _ Hw Hname) Hn)
    as (colors & g & Hgen & _).
  pose proof (dir_key_initials_dir initials Hname) as Hkey.
  eexists _, _. split; [exact Hgen|].
  intros v (k & -> & Hk)%list_elem_of_fmap.
  exists k, (color_of colors k).
  assert (read_file (initials_dir initials) (variant_filename initials k)
            (World (<[initials_dir initials :=
                        with_variants render_png initials colors (range 1 (n + 1))
                          (default ∅ (files w !! initials_dir initials))]> (files w)) g)
          = Some (create_image render_png initials k (color_of colors k))) as Hread.
  { unfold read_file. rewrite Hkey. cbn [files].
    rewrite lookup_insert_eq. cbn [mbind option_bind].
    apply with_variants_written; [apply range_NoDup|done]. }
  apply elem_of_range in Hk.
  split; [lia|]. split; [done|]. split; [exact Hread|].
  unfold serve_image. fold (initials_dir initials). by rewrite Hread.
Qed.

(** X5. [generate_variants initials n], for initials that are a plain name,
    [n] from 1 to 12 and a store that holds nothing but directories of
    plain initials, touches nothing but the files
    [{initials}_variant1.png] to [{initials}_variant{n}.png] of the
    directory of the initials: the directory of any other plain initials,
    with all its files, and the other files of this directory are as
    before, and the store still holds nothing but directories of plain
    initials. *)
Theorem generate_variants_frame (initials : pystr) (n : Z) (w : world) :
  plain_name initials →
  service_store w →
  1 ≤ n ≤ 12 →
  ∃ vs w',
    generate_variants render_png initials n w = (inr vs, w')
    ∧ service_store w'
    ∧ (∀ other, plain_name other → other ≠ initials →
         files w' !! initials_dir other = files w !! initials_dir other)
    ∧ (∀ f, (∀ k, 1 ≤ k ≤ n → f ≠ variant_filename initials k) →
            read_file (initials_dir initials) f w'
            = read_file (initials_dir initials) f w).
Proof.
  intros Hplain Hw Hn. pose proof (plain_single _ Hplain) as Hname.
  destruct (generate_variants_spec render_png initials n w Hname
              (service_store_unobstructed _ _ Hw Hname) Hn)
    as (colors & g & Hgen & _).
  pose proof (dir_key_initials_dir initials Hname) as Hkey.
  eexists _, _. split; [exact Hgen|].
  split; [by apply service_store_insert|]. cbn [files]. split.
  - intros other Hother%plain_single Hne. rewrite lookup_insert_ne; [done|].
    rewrite (single_name_join _ Hname), (single_name_join _ Hother).
    intros H. by apply app_inv_head, app_inv_head in H.
  - intros f Hf. unfold read_file. rewrite Hkey. cbn [files].
    rewrite lookup_insert_eq. cbn [mbind option_bind].
    rewrite with_variants_other.
    + destruct (files w !! initials_dir initials); [done|]. apply lookup_empty.
    + intros (k & -> & Hk)%list_elem_of_fmap. apply elem_of_range in Hk.
      apply (Hf k); [lia|done].
Qed.

End GeneratorExtras.

Lemma generate_variants_stores_images_witness :
  ∃ vs w',
    ProfileImageGenerator.generate_variants sample_render (lit "AS") 2 empty_world
    = (inr vs, w')
    ∧ ∀ v, v ∈ vs →
        ∃ k c,
          1 ≤ k ≤ 2
          ∧ v = fresh_descriptor (lit "AS") k c
          ∧ read_file (initials_dir (lit "AS"))
              (ProfileImageGenerator.variant_filename (lit "AS") k) w'
            = Some (ProfileImageGenerator.create_image sample_render (lit "AS") k c)
          ∧ fst (serve_image (lit "AS")
                   (ProfileImageGenerator.variant_filename (lit "AS") k) w')
            = Response 200 (FileBody (lit "image/png")
                (ProfileImageGenerator.create_image sample_render (lit "AS") k c)).
Proof.
  apply (generate_variants_stores_images sample_render (lit "AS") 2 empty_world);
    [|apply service_store_empty|lia].
  unfold plain_name, name_char. apply (bool_decide_unpack _). by vm_compute.
Defined.

Lemma generate_variants_frame_witness :
  ∃ vs w',
    ProfileImageGenerator.generate_variants sample_render (lit "AB") 2 world_with_AS
    = (inr vs, w')
    ∧ service_store w'
    ∧ (∀ other, plain_name other → other ≠ lit "AB" →
         files w' !! initials_dir other = files world_with_AS !! initials_dir other)
    ∧ (∀ f, (∀ k, 1 ≤ k ≤ 2 →
                  f ≠ ProfileImageGenerator.variant_filename (lit "AB") k) →
            read_file (initials_dir (lit "AB")) f w'
            = read_file (initials_dir (lit "AB")) f world_with_AS).
Proof.
  apply (generate_variants_frame sample_render (lit "AB") 2 world_with_AS);
    [|apply service_store_world_with_AS|lia].
  unfold plain_name, name_char. apply (bool_decide_unpack _). by vm_compute.
Defined.

Section GeneratorEdges.
Variable render_png : pystr → pystr → list byte.
Import ProfileImageGenerator.

Lemma keeps_files_refl (w : world) : keeps_files w w.
Proof. by intros dir name. Qed.

Lemma keeps_files_trans (w1 w2 w3 : world) :
  keeps_files w1 w2 → keeps_files w2 w3 → keeps_files w1 w3.
Proof. intros H12 H23 dir name H. by apply H23, H12. Qed.

Lemma keeps_files_same (w w' : world) : files w' = files w → keeps_files w w'.
Proof. intros Hf dir name. unfold read_file. by rewrite Hf. Qed.

Lemma write_file_keeps (filepath : pystr) (content : list byte) (w : world) :
  keeps_files w (snd (write_file filepath content w)).
Proof.
  unfold write_file. case_bool_decide; [apply keeps_files_refl|].
  destruct (split_last filepath) as [dir name].
  destruct (files w !! dir_key dir) as [d|] eqn:E; [|apply keeps_files_refl].
  case_bool_decide; [apply keeps_files_refl|].
  intros dir' name'. unfold read_file. cbn [snd files].
  destruct (decide (dir_key dir' = dir_key dir)) as [->|Hne].
  - rewrite lookup_insert_eq, E. cbn. rewrite lookup_insert_is_Some'. by right.
  - by rewrite lookup_insert_ne.
Qed.

Lemma makedirs_keeps (dir : pystr) (w : world) :
  keeps_files w (snd (makedirs dir w)).
Proof.
  unfold makedirs. case_bool_decide; [apply keeps_files_refl|].
  destruct (files w !! dir_key dir) eqn:E; [apply keeps_files_refl|].
  destruct (split_last (dir_key dir)) as [parent name].
  case_bool_decide; [apply keeps_files_refl|].
  intros dir' name'. unfold read_file. cbn [snd files].
  destruct (decide (dir_key dir' = dir_key dir)) as [->|Hne].
  - rewrite E. by intros [? ?].
  - by rewrite lookup_insert_ne.
Qed.

Lemma generate_loop_keeps (initials dir : pystr) (colors : list pystr)
    (todo : list Z) :
  ∀ (variants : list pyval) (w : world),
  keeps_files w (snd (generate_loop render_png todo initials dir colors variants w)).
Proof.
  induction todo as [|v todo IH]; intros variants w; [apply keeps_files_refl|].
  cbn [generate_loop]. unfold bind at 1.
  pose proof (list_index_world colors (v - 1) w) as Hw.
  destruct (list_index colors (v - 1) w) as [[e|c] w1]; cbn [snd] in Hw; subst w1;
    [apply keeps_files_refl|].
  unfold bind at 1.
  pose proof (write_file_keeps (os_path_join dir (variant_filename initials v))
                (create_image render_png initials v c) w) as Hk.
  destruct (write_file _ _ w) as [[e|[]] w2] eqn:E; [done|]. cbn [snd] in Hk.
  eapply keeps_files_trans; [exact Hk|apply IH].
Qed.

Lemma sample_loop_files {A} (k : nat) :
  ∀ (pool : list A) (live : nat) (w : world),
  files (snd (sample_loop k pool live w)) = files w.
Proof.
  induction k as [|k IH]; intros pool live w; [done|].
  cbn [sample_loop]. unfold bind at 1.
  assert (files (snd (randbelow live w)) = files w) as Hr
    by (unfold randbelow; by destruct (rng w)).
  destruct (randbelow live w) as [[e|j] w1]; [done|]. cbn [snd] in Hr.
  destruct (pool !! j) as [x|], (pool !! (live - 1)%nat) as [y|]; try done.
  unfold bind. specialize (IH (<[j:=y]> pool) (live - 1)%nat w1).
  destruct (sample_loop k _ _ w1) as [[e|rest] w2]; cbn [snd ret] in *;
    by rewrite IH.
Qed.

Lemma generate_variants_keeps (initials : pystr) (n : Z) (w : world) :
  keeps_files w (snd (generate_variants render_png initials n w)).
Proof.
  unfold generate_variants. unfold bind at 1.
  pose proof (makedirs_keeps (os_path_join OUTPUT_DIR initials) w) as Hm.
  destruct (makedirs _ w) as [[e|[]] w1] eqn:Em; [done|]. cbn [snd] in Hm.
  unfold bind at 1.
  assert (files (snd (random_sample BACKGROUND_COLORS
                        (Z.min n (Z.of_nat (length BACKGROUND_COLORS))) w1))
          = files w1) as Hs.
  { unfold random_sample. destruct (_ || _); [done|]. apply sample_loop_files. }
  destruct (random_sample _ _ w1) as [[e|colors] w2]; cbn [snd] in Hs.
  - eapply keeps_files_trans; [exact Hm|by apply keeps_files_same].
  - eapply keeps_files_trans; [exact Hm|].
    eapply keeps_files_trans; [by apply keeps_files_same|].
    apply generate_loop_keeps.
Qed.

(** X6. [generate_variants] never removes a file, whatever the number asked
    for and whether it returns or raises: every file of the store before
    the call is a file of the store after it. *)
Theorem generate_variants_keeps_files (initials : pystr) (n : Z) (w : world)
    (dir name : pystr) :
  is_Some (read_file dir name w) →
  is_Some (read_file dir name (snd (generate_variants render_png initials n w))).
Proof. apply generate_variants_keeps. Qed.

Lemma generate_loop_app (initials dir : pystr) (colors : list pystr)
    (todo1 todo2 : list Z) :
  ∀ (variants : list pyval) (w : world),
  generate_loop render_png (todo1 ++ todo2) initials dir colors variants w
  = match generate_loop render_png todo1 initials dir colors variants w with
    | (inr variants', w1) =>
        generate_loop render_png todo2 initials dir colors variants' w1
    | (inl e, w1) => (inl e, w1)
    end.
Proof.
  induction todo1 as [|v todo1 IH]; intros variants w; [done|].
  cbn [app generate_loop]. unfold bind at 1 3.
  destruct (list_index colors (v - 1) w) as [[e|c] w1]; [done|].
  unfold bind at 1 2. destruct (write_file _ _ w1) as [[e|[]] w2]; [done|].
  apply IH.
Qed.

(** X7. Asked for more than 12 variants, for initials that are a plain
    name and on a store that holds nothing but directories of plain
    initials, [generate_variants] writes the twelve files the palette has
    a colour for and then ends with [IndexError], at the lookup of a
    thirteenth colour. *)
Theorem generate_variants_too_many (initials : pystr) (n : Z) (w : world) :
  plain_name initials →
  service_store w →
  12 < n →
  ∃ w',
    generate_variants render_png initials n w
    = (inl (Exn IndexError (lit "list index out of range")), w')
    ∧ ∀ k, 1 ≤ k ≤ 12 →
        is_Some (read_file (initials_dir initials) (variant_filename initials k) w').
Proof.
  intros Hname%plain_single Hw Hn. unfold generate_variants.
  fold (initials_dir initials).
  pose proof (dir_key_initials_dir initials Hname) as Hkey.
  pose proof (service_store_unobstructed _ _ Hw Hname) as Hfree.
  unfold bind at 1.
  destruct (makedirs_single initials w Hname Hfree) as [w0 Hm]. rewrite Hm.
  apply (makedirs_returned _ _ _ Hname) in Hm as (Hd0 & _ & Hother & _).
  unfold bind at 1.
  replace (Z.min n (Z.of_nat (length BACKGROUND_COLORS)))
    with (Z.min 12 (Z.of_nat (length BACKGROUND_COLORS)))
    by (change (Z.of_nat (length BACKGROUND_COLORS)) with 12; lia).
  destruct (sample_colors 12 w0) as (colors & w1 & -> & Hf & Hlen & _);
    [lia|].
  rewrite (range_split 1 13 (n + 1)) by lia.
  rewrite generate_loop_app.
  erewrite generate_loop_spec; [|done|by rewrite Hf| |].
  2:{ intros name. rewrite Hf, Hother by apply initials_dir_longer. apply Hfree. }
  2:{ intros v Hv%elem_of_range. rewrite Hlen. lia. }
  rewrite (range_cons 13 (n + 1)) by lia. cbn [generate_loop].
  unfold bind at 1. unfold list_index.
  rewrite Hlen. change (13 - 1 <? 0) with false. cbv iota.
  change ((12 <? 0) || (Z.of_nat (Z.to_nat 12) <=? 12)) with true. cbv iota.
  eexists. split; [reflexivity|].
  intros k Hk. unfold read_file. rewrite Hkey. cbn [files].
  rewrite lookup_insert_eq.
  cbn [mbind option_bind]. apply with_variants_is_Some. left.
  apply list_elem_of_fmap. exists k. split; [done|]. apply elem_of_range. lia.
Qed.

(** X8. Asked for no variant, for initials that are a plain name and on a
    store that holds nothing but directories of plain initials,
    [generate_variants] returns the empty list; asked for a negative
    number, it ends with the [ValueError] of [random.sample]. Either way
    the directory of the initials exists afterwards, no file is written and
    no random draw is made. *)
Theorem generate_variants_none (initials : pystr) (n : Z) (w : world) :
  plain_name initials →
  service_store w →
  n ≤ 0 →
  ∃ w',
    generate_variants render_png initials n w
    = (if n =? 0 then inr []
       else inl (Exn ValueError
                   (lit "Sample larger than population or is negative")), w')
    ∧ path_exists (initials_dir initials) w' = (inr true, w')
    ∧ rng w' = rng w
    ∧ ∀ dir name, read_file dir name w' = read_file dir name w.
Proof.
  intros Hname%plain_single Hw Hn. unfold generate_variants.
  fold (initials_dir initials).
  pose proof (dir_key_initials_dir initials Hname) as Hkey.
  pose proof (service_store_unobstructed _ _ Hw Hname) as Hfree.
  unfold bind at 1.
  destruct (makedirs_single initials w Hname Hfree) as [w0 Hm]. rewrite Hm.
  apply (makedirs_returned _ _ _ Hname) in Hm as (Hd0 & _ & Hother & Hrng).
  exists w0. split; [|split; [|split; [done|]]].
  - unfold bind at 1. unfold random_sample.
    change (Z.of_nat (length BACKGROUND_COLORS)) with 12.
    rewrite Z.min_l by lia.
    destruct (Z.eqb_spec n 0) as [->|Hne]; [done|].
    destruct (Z.ltb_spec n 0); [done|lia].
  - unfold path_exists. rewrite Hkey, Hd0. by rewrite bool_decide_true.
  - intros dir name. unfold read_file.
    destruct (decide (dir_key dir = initials_dir initials)) as [->|Hne].
    + rewrite Hd0. by destruct (files w !! initials_dir initials).
    + by rewrite Hother.
Qed.

End GeneratorEdges.

Lemma generate_variants_too_many_witness :
  ∃ w',
    ProfileImageGenerator.generate_variants sample_render (lit "AS") 13 empty_world
    = (inl (Exn IndexError (lit "list index out of range")), w')
    ∧ ∀ k, 1 ≤ k ≤ 12 →
        is_Some (read_file (initials_dir (lit "AS"))
                   (ProfileImageGenerator.variant_filename (lit "AS") k) w').
Proof.
  apply (generate_variants_too_many sample_render (lit "AS") 13 empty_world);
    [|apply service_store_empty|lia].
  unfold plain_name, name_char. apply (bool_decide_unpack _). by vm_compute.
Defined.

Lemma generate_variants_none_witness :
  ∃ w',
    ProfileImageGenerator.generate_variants sample_render (lit "AS") (-1) empty_world
    = (inl (Exn ValueError (lit "Sample larger than population or is negative")), w')
    ∧ path_exists (initials_dir (lit "AS")) w' = (inr true, w')
    ∧ rng w' = rng empty_world
    ∧ ∀ dir name, read_file dir name w' = read_file dir name empty_world.
Proof.
  apply (generate_variants_none sample_render (lit "AS") (-1) empty_world);
    [|apply service_store_empty|lia].
  unfold plain_name, name_char. apply (bool_decide_unpack _). by vm_compute.
Defined.

Lemma generate_variants_keeps_files_witness :
  is_Some (read_file (initials_dir (lit "AS")) (lit "AS_variant1.png")
             (snd (ProfileImageGenerator.generate_variants sample_render
                     (lit "AS") 20 world_with_AS))).
Proof.
  apply (generate_variants_keeps_files sample_render (lit "AS") 20 world_with_AS).
  vm_compute. by eexists.
Defined.

(** ** Picking a variant *)

Section PickExtras.
Variable render_png : pystr → pystr → list byte.
Import ProfileImageGenerator.

Lemma stored_png_after_generate (initials : pystr) (n : Z) (w : world)
    (vs : list pyval) (w' : world) :
  single_name initials →
  1 ≤ n ≤ 12 → stored_png initials w = [] →
  generate_variants render_png initials n w = (inr vs, w') →
  stored_png initials w' ≡ₚ variant_filename initials <$> range 1 (n + 1).
Proof.
  intros Hname Hn Hnone Hgen.
  destruct (generate_variants_returned render_png initials n w vs w' Hname Hn Hgen)
    as (colors & g & _ & -> & _).
  pose proof (dir_key_initials_dir initials Hname) as Hkey.
  apply NoDup_Permutation.
  - apply stored_png_NoDup.
  - apply NoDup_fmap_2; [intros x y; apply variant_filename_inj|apply range_NoDup].
  - intros f. rewrite elem_of_stored_png. unfold read_file. rewrite Hkey.
    cbn [files].
    rewrite lookup_insert_eq. cbn [mbind option_bind].
    rewrite with_variants_is_Some. split.
    + intros [Hpng [Hnew|Hold]]; [done|]. exfalso.
      assert (f ∈ stored_png initials w) as Hin;
        [|by rewrite Hnone in Hin; apply elem_of_nil in Hin].
      apply elem_of_stored_png. split; [done|]. unfold read_file. rewrite Hkey.
      destruct (files w !! initials_dir initials); [done|].
      cbn in Hold. rewrite lookup_empty in Hold. by destruct Hold.
    + intros Hin. split; [|by left].
      apply list_elem_of_fmap in Hin as (k & -> & _). apply variant_filename_png.
Qed.

Lemma get_random_variant_existing_ok (initials : pystr) (w : world) :
  str_contains initials marker = false →
  stored_png initials w ≠ [] → well_named initials w →
  ∃ k w',
    variant_filename initials k ∈ stored_png initials w
    ∧ get_random_variant render_png initials w
      = (inr (existing_descriptor initials (variant_filename initials k) k), w')
    ∧ files w' = files w.
Proof.
  intros Hm Hsome Hnamed.
  destruct (random_choice_spec (stored_png initials w) w Hsome)
    as (f & w' & Hch & Hin & Hf).
  destruct (Hnamed f Hin) as [k ->].
  exists k, w'. split; [done|]. split; [|done].
  rewrite get_random_variant_existing_branch by done.
  unfold bind at 1. rewrite Hch.
  pose proof (variant_filename_parse initials k w' Hm) as Hparse.
  unfold bind in Hparse |- *.
  destruct (list_index (split (variant_filename initials k) (lit "_variant")) 1 w')
    as [[e|tail] w1]; [done|].
  destruct (list_index (split tail (lit ".")) 0 w1) as [[e|num] w2]; [done|].
  destruct (py_int num w2) as [[e|z] w3]; [done|].
  by injection Hparse as -> ->.
Qed.

Lemma well_named_same_files (initials : pystr) (w w' : world) :
  files w' = files w → well_named initials w → well_named initials w'.
Proof. unfold well_named, stored_png. by intros ->. Qed.

Lemma get_random_variant_returns (initials : pystr) (w : world) :
  plain_name initials →
  service_store w →
  str_contains initials (lit "_variant") = false →
  well_named initials w →
  ∃ v w' k,
    get_random_variant render_png initials w = (inr v, w')
    ∧ field "variant" v = Some (VInt k)
    ∧ field "filename" v = Some (VStr (variant_filename initials k))
    ∧ field "url" v
      = Some (VStr (lit "/image/" ++ initials ++ lit "/"
                      ++ variant_filename initials k))
    ∧ status (fst (serve_image initials (variant_filename initials k) w')) = 200
    ∧ keeps_files w w'
    ∧ well_named initials w'
    ∧ service_store w'.
Proof.
  intros Hplain Hw Hm Hnamed. pose proof (plain_single _ Hplain) as Hname.
  pose proof (dir_key_initials_dir initials Hname) as Hkey.
  assert (Hserve : ∀ f w0, is_Some (read_file (initials_dir initials) f w0) →
                           status (fst (serve_image initials f w0)) = 200).
  { intros f w0 [c Hc]. unfold serve_image. fold (initials_dir initials).
    by rewrite Hc. }
  destruct (decide (stored_png initials w = [])) as [Hnone|Hsome].
  - destruct (generate_variants_spec render_png initials 3 w) as
      (colors & g & Hgen & _);
      [done|by apply service_store_unobstructed|lia|].
    pose proof (generate_variants_keeps render_png initials 3 w) as Hkeep.
    pose proof (generate_variants_names render_png initials 3 w _ _
                  Hname ltac:(lia) Hnamed Hgen) as Hnamed1.
    rewrite Hgen in Hkeep. cbn [snd] in Hkeep.
    set (vs := map _ _) in *. set (w1 := World _ _) in *.
    destruct (random_choice_spec vs w1) as (v & w2 & Hch & Hin & Hf); [done|].
    apply list_elem_of_fmap in Hin as (k & -> & Hk).
    exists (fresh_descriptor initials k (color_of colors k)), w2, k.
    split. { rewrite get_random_variant_fresh_branch by done.
             unfold bind. by rewrite Hgen. }
    split; [done|]. split; [done|]. split; [done|]. split.
    { apply Hserve. unfold read_file. rewrite Hf, Hkey. subst w1. cbn [files].
      rewrite lookup_insert_eq. cbn [mbind option_bind].
      apply with_variants_is_Some. left. apply list_elem_of_fmap. by exists k. }
    split.
    { eapply keeps_files_trans; [exact Hkeep|by apply keeps_files_same]. }
    split; [by apply (well_named_same_files initials w1)|].
    apply (service_store_files w1); [done|]. by apply service_store_insert.
  - destruct (get_random_variant_existing_ok initials w Hm Hsome Hnamed)
      as (k & w' & Hin & Hrun & Hf).
    exists (existing_descriptor initials (variant_filename initials k) k), w', k.
    split; [done|]. split; [done|]. split; [done|]. split; [done|]. split.
    { apply Hserve. apply elem_of_stored_png in Hin as [_ Hin].
      unfold read_file in *. by rewrite Hf. }
    split; [by apply keeps_files_same|].
    split; [by apply (well_named_same_files initials w)|].
    by apply (service_store_files w).
Qed.

(** X9. On a store that holds nothing but directories of plain initials
    and whose [.png] files for the initials carry the names
    [generate_variants] gives (none at all included), and for initials that
    are a plain name without the text [_variant], [get_random_variant]
    always returns a descriptor: its number is the one in its file name,
    its file is in the store after the call and is what [/image] serves
    under its URL, no file of the store is lost, and the store is still of
    this kind afterwards, so that the next call succeeds as well. *)
Theorem get_random_variant_total (initials : pystr) (w : world) :
  plain_name initials →
  service_store w →
  str_contains initials (lit "_variant") = false →
  well_named initials w →
  ∃ v w' k,
    get_random_variant render_png initials w = (inr v, w')
    ∧ field "variant" v = Some (VInt k)
    ∧ field "filename" v = Some (VStr (variant_filename initials k))
    ∧ field "url" v
      = Some (VStr (lit "/image/" ++ initials ++ lit "/"
                      ++ variant_filename initials k))
    ∧ status (fst (serve_image initials (variant_filename initials k) w')) = 200
    ∧ keeps_files w w'
    ∧ well_named initials w'
    ∧ service_store w'.
Proof. apply get_random_variant_returns. Qed.

(** X10. Once [generate_variants initials n] has run on a store that holds
    nothing but directories of plain initials, without [.png] file for the
    initials ([n] from 1 to 12, the initials a plain name without the text
    [_variant]), [get_random_variant] picks among the [n] files just
    written: it returns the descriptor of [{initials}_variant{k}.png] with
    the number [k], for some [k] from 1 to [n], and writes nothing. *)
Theorem generate_then_pick (initials : pystr) (n : Z) (w : world)
    (vs : list pyval) (w1 : world) :
  plain_name initials →
  service_store w →
  1 ≤ n ≤ 12 →
  str_contains initials (lit "_variant") = false →
  stored_png initials w = [] →
  generate_variants render_png initials n w = (inr vs, w1) →
  ∃ k w2,
    1 ≤ k ≤ n
    ∧ get_random_variant render_png initials w1
      = (inr (existing_descriptor initials (variant_filename initials k) k), w2)
    ∧ files w2 = files w1.
Proof.
  intros Hname%plain_single _ Hn Hm Hnone Hgen.
  pose proof (stored_png_after_generate initials n w vs w1 Hname Hn Hnone Hgen)
    as Hperm.
  assert (stored_png initials w1 ≠ []) as Hsome.
  { intros E. rewrite E in Hperm. apply Permutation_length in Hperm.
    rewrite length_fmap, length_range in Hperm. cbn in Hperm. lia. }
  assert (well_named initials w1) as Hnamed.
  { intros f Hf. rewrite Hperm in Hf.
    apply list_elem_of_fmap in Hf as (k & -> & _). by exists k. }
  destruct (get_random_variant_existing_ok initials w1 Hm Hsome Hnamed)
    as (k & w2 & Hin & Hrun & Hf).
  exists k, w2. split; [|done].
  rewrite Hperm in Hin. apply list_elem_of_fmap in Hin as (k' & Hk' & Hin).
  apply variant_filename_inj in Hk' as <-. apply elem_of_range in Hin. lia.
Qed.

End PickExtras.

Lemma well_named_world_with_AS : well_named (lit "AS") world_with_AS.
Proof.
  intros f Hf. rewrite stored_png_world_with_AS in Hf.
  apply list_elem_of_singleton in Hf as ->. by exists 1.
Qed.

Lemma get_random_variant_total_witness :
  ∃ v w' k,
    ProfileImageGenerator.get_random_variant sample_render (lit "AS") world_with_AS
    = (inr v, w')
    ∧ field "variant" v = Some (VInt k)
    ∧ field "filename" v
      = Some (VStr (ProfileImageGenerator.variant_filename (lit "AS") k))
    ∧ field "url" v
      = Some (VStr (lit "/image/" ++ lit "AS" ++ lit "/"
                      ++ ProfileImageGenerator.variant_filename (lit "AS") k))
    ∧ status (fst (serve_image (lit "AS")
                     (ProfileImageGenerator.variant_filename (lit "AS") k) w')) = 200
    ∧ keeps_files world_with_AS w'
    ∧ well_named (lit "AS") w'
    ∧ service_store w'.
Proof.
  apply (get_random_variant_total sample_render (lit "AS") world_with_AS).
  - unfold plain_name, name_char. apply (bool_decide_unpack _). by vm_compute.
  - apply service_store_world_with_AS.
  - reflexivity.
  - apply well_named_world_with_AS.
Defined.

Lemma generate_then_pick_witness :
  ∃ k w2,
    1 ≤ k ≤ 2
    ∧ ProfileImageGenerator.get_random_variant sample_render (lit "AS")
        (snd (ProfileImageGenerator.generate_variants sample_render (lit "AS") 2
                empty_world))
      = (inr (existing_descriptor (lit "AS")
                (ProfileImageGenerator.variant_filename (lit "AS") k) k), w2)
    ∧ files w2
      = files (snd (ProfileImageGenerator.generate_variants sample_render
                      (lit "AS") 2 empty_world)).
Proof.
  destruct (ProfileImageGenerator.generate_variants sample_render (lit "AS") 2
              empty_world) as [[e|vs] w1] eqn:Hgen.
  - vm_compute in Hgen. discriminate Hgen.
  - apply (generate_then_pick sample_render (lit "AS") 2 empty_world vs w1);
      [|apply service_store_empty|lia|reflexivity|reflexivity|exact Hgen].
    unfold plain_name, name_char. apply (bool_decide_unpack _). by vm_compute.
Defined.

(** ** The handlers *)

Section HandlerExtras.
Variable upper : N → pystr.
Variable render_png : pystr → pystr → list byte.

Lemma name_field_get (k : string) (d : list (string * pyval)) (w : world) :
  text_or_absent k d →
  (let! v := py_get (VDict d) k (VStr []) in py_strip v) w
  = (inr (name_field k d), w).
Proof.
  unfold text_or_absent, name_field. cbn [py_get]. unfold bind, ret.
  by destruct (dict_get k d) as [[| | | |s| |]|].
Qed.

Lemma names_missing (d : list (string * pyval)) :
  name_field "first_name" d = [] ∨ name_field "last_name" d = [] →
  negb (truthy (VStr (name_field "first_name" d)))
  || negb (truthy (VStr (name_field "last_name" d))) = true.
Proof.
  intros [-> | ->]; [done|]. cbn. apply orb_true_r.
Qed.

Lemma names_present (d : list (string * pyval)) (c1 c2 : N) (r1 r2 : pystr) :
  name_field "first_name" d = c1 :: r1 → name_field "last_name" d = c2 :: r2 →
  negb (truthy (VStr (name_field "first_name" d)))
  || negb (truthy (VStr (name_field "last_name" d))) = false.
Proof. by intros -> ->. Qed.

(** X11. A request whose body is a JSON object with at least one field, and
    whose [first_name] or [last_name] is missing, empty or made of blanks
    only (each being a string when present), is refused by [/generate] and
    by [/generate-variants] with 400 and the message that both names are
    required, whatever [num_variants] says, and the store is not touched.
    (The object without any field is taken for a missing body, and is
    answered otherwise.) *)
Theorem handlers_require_names (req : request) (d : list (string * pyval))
    (w : world) :
  req_json req = Some (VDict d) → d ≠ [] →
  text_or_absent "first_name" d → text_or_absent "last_name" d →
  name_field "first_name" d = [] ∨ name_field "last_name" d = [] →
  generate_profile_image upper render_png req w
  = (error_response 400 (lit "Both first_name and last_name are required"), w)
  ∧ generate_variants upper render_png req w
    = (error_response 400 (lit "Both first_name and last_name are required"), w).
Proof.
  intros Hjson Hd Hf Hl Hmiss.
  assert (truthy (VDict d) = true) as Ht by (by destruct d).
  pose proof (names_missing d Hmiss) as Hm.
  unfold generate_profile_image, generate_variants. rewrite Hjson, Ht.
  cbn [negb py_get]. unfold catch_errors, bind, ret.
  unfold text_or_absent, name_field in *.
  destruct (dict_get "first_name" d) as [[| | | |f| |]|]; try done;
    destruct (dict_get "last_name" d) as [[| | | |l| |]|]; try done;
    cbn [py_strip ret]; change (strip []) with (@nil N); by rewrite Hm.
Qed.


Lemma name_field_text (k : string) (d : list (string * pyval)) (c : N)
    (r : pystr) :
  name_field k d = c :: r → text_or_absent k d ∧ strip (c :: r) = c :: r.
Proof.
  unfold name_field, text_or_absent.
  destruct (dict_get k d) as [[| | | |s| |]|]; try done.
  intros <-. split; [done|apply strip_idempotent].
Qed.

(** X12. A request to [/generate] whose two names are strings that keep a
    character once trimmed is answered 200 when the initials, made of the
    capitals of their first characters, are a plain name, the store holds
    nothing but directories of plain initials and the [.png] files of the
    initials are named in order (none at all included): the answer echoes
    the trimmed names, carries the initials and an image whose file
    [/image] serves; no file of the store is lost. *)
Theorem generate_succeeds (req : request) (d : list (string * pyval))
    (c1 c2 : N) (r1 r2 : pystr) (w : world) :
  req_json req = Some (VDict d) →
  name_field "first_name" d = c1 :: r1 →
  name_field "last_name" d = c2 :: r2 →
  plain_name (upper c1 ++ upper c2) →
  service_store w →
  str_contains (upper c1 ++ upper c2) (lit "_variant") = false →
  well_named (upper c1 ++ upper c2) w →
  ∃ image w' k,
    generate_profile_image upper render_png req w
    = (Response 200 (Json (VDict [
         ("success", VBool true);
         ("user_info", VDict [ ("first_name", VStr (c1 :: r1));
                               ("last_name", VStr (c2 :: r2));
                               ("initials", VStr (upper c1 ++ upper c2)) ]);
         ("image", image);
         ("message",
          VStr (lit "Profile image generated successfully for "
                  ++ (c1 :: r1) ++ lit " " ++ (c2 :: r2))) ])), w')
    ∧ field "filename" image
      = Some (VStr (ProfileImageGenerator.variant_filename (upper c1 ++ upper c2) k))
    ∧ status (fst (serve_image (upper c1 ++ upper c2)
                     (ProfileImageGenerator.variant_filename (upper c1 ++ upper c2) k)
                     w')) = 200
    ∧ keeps_files w w'.
Proof.
  intros Hjson H1 H2 Hname Hw Hm Hnamed.
  destruct (name_field_text _ _ _ _ H1) as [Hf Hs1].
  destruct (name_field_text _ _ _ _ H2) as [Hl Hs2].
  assert (truthy (VDict d) = true) as Ht.
  { destruct d; [|done]. by cbn in H1. }
  destruct (get_random_variant_returns render_png _ w Hname Hw Hm Hnamed)
    as (image & w' & k & Hrun & _ & Hfile & _ & Hserve & Hkeep & _).
  exists image, w', k. split; [|done].
  pose proof (get_random_variant_truthy render_png _ _ _ _ Hrun) as [Himg _].
  unfold generate_profile_image. rewrite Hjson, Ht. cbn [negb].
  unfold catch_errors.
  pose proof (name_field_get "first_name" d w Hf) as Hgf.
  pose proof (name_field_get "last_name" d w Hl) as Hgl.
  unfold bind in Hgf, Hgl |- *.
  destruct (py_get (VDict d) "first_name" (VStr []) w) as [[e|f] w1]; [done|].
  destruct (py_strip f w1) as [[e|first_name] w2]; [done|].
  injection Hgf as -> ->.
  destruct (py_get (VDict d) "last_name" (VStr []) w) as [[e|l] w3]; [done|].
  destruct (py_strip l w3) as [[e|last_name] w4]; [done|].
  injection Hgl as -> ->.
  rewrite H1, H2. cbn [truthy negb orb].
  rewrite (extract_initials_trimmed upper _ _ c1 c2 r1 r2 w Hs1 Hs2).
  rewrite Hrun, Himg. done.
Qed.

(** X13. A request to [/generate-variants] whose two names are strings that
    keep a character once trimmed, whose initials are a plain name, and
    whose [num_variants] is absent or an integer [n] from 1 to 12, is
    answered 200 with [n] variants (3 when the field is absent) on a store
    that holds nothing but directories of plain initials:
    [total_variants] is [n], the variants are numbered from 1 to [n] and
    belong to the initials, and no file of the store is lost. *)
Theorem generate_variants_succeeds (req : request) (d : list (string * pyval))
    (c1 c2 : N) (r1 r2 : pystr) (n : Z) (w : world) :
  req_json req = Some (VDict d) →
  name_field "first_name" d = c1 :: r1 →
  name_field "last_name" d = c2 :: r2 →
  plain_name (upper c1 ++ upper c2) →
  service_store w →
  match dict_get "num_variants" d with
  | None => n = 3
  | Some v => v = VInt n
  end →
  1 ≤ n ≤ 12 →
  ∃ variants w',
    generate_variants upper render_png req w
    = (Response 200 (Json (VDict [
         ("success", VBool true);
         ("user_info", VDict [ ("first_name", VStr (c1 :: r1));
                               ("last_name", VStr (c2 :: r2));
                               ("initials", VStr (upper c1 ++ upper c2)) ]);
         ("variants", VList variants);
         ("total_variants", VInt n);
         ("message",
          VStr (lit "Generated " ++ str_of_Z n ++ lit " variants for "
                  ++ (c1 :: r1) ++ lit " " ++ (c2 :: r2))) ])), w')
    ∧ field "filename" <$> variants
      = (fun k => Some (VStr (ProfileImageGenerator.variant_filename
                                (upper c1 ++ upper c2) k))) <$> range 1 (n + 1)
    ∧ keeps_files w w'.
Proof.
  intros Hjson H1 H2 Hname%plain_single Hw Hnv Hn.
  destruct (name_field_text _ _ _ _ H1) as [Hf Hs1].
  destruct (name_field_text _ _ _ _ H2) as [Hl Hs2].
  assert (truthy (VDict d) = true) as Ht.
  { destruct d; [|done]. by cbn in H1. }
  destruct (generate_variants_spec render_png (upper c1 ++ upper c2) n w Hname
              (service_store_unobstructed _ _ Hw Hname) Hn)
    as (colors & g & Hgen & _).
  pose proof (generate_variants_keeps render_png (upper c1 ++ upper c2) n w) as Hkeep.
  rewrite Hgen in Hkeep. cbn [snd] in Hkeep.
  eexists _, _. split; [|split; [|exact Hkeep]].
  - unfold generate_variants. rewrite Hjson, Ht. cbn [negb].
    unfold catch_errors.
    pose proof (name_field_get "first_name" d w Hf) as Hgf.
    pose proof (name_field_get "last_name" d w Hl) as Hgl.
    unfold bind in Hgf, Hgl |- *.
    destruct (py_get (VDict d) "first_name" (VStr []) w) as [[e|f] w1]; [done|].
    destruct (py_strip f w1) as [[e|first_name] w2]; [done|].
    injection Hgf as -> ->.
    destruct (py_get (VDict d) "last_name" (VStr []) w) as [[e|l] w3]; [done|].
    destruct (py_strip l w3) as [[e|last_name] w4]; [done|].
    injection Hgl as -> ->.
    assert (py_get (VDict d) "num_variants" (VInt 3) w = (inr (VInt n), w)) as ->.
    { cbn [py_get]. unfold ret.
      destruct (dict_get "num_variants" d); by rewrite Hnv. }
    rewrite H1, H2. cbn [truthy negb orb isinstance_int int_value].
    destruct (Z.ltb_spec n 1); [lia|]. destruct (Z.ltb_spec 12 n); [lia|].
    cbn [orb].
    rewrite (extract_initials_trimmed upper _ _ c1 c2 r1 r2 w Hs1 Hs2).
    rewrite Hgen. rewrite length_map, length_range.
    replace (Z.of_nat (Z.to_nat (n + 1 - 1))) with n by lia. reflexivity.
  - change (map ?f ?l) with (f <$> l). by rewrite <- list_fmap_compose.
Qed.


Lemma bulk_entry_nameless (user : pyval) (w : world) :
  nameless user →
  bulk_entry upper render_png user w = (refused_entry user, w).
Proof.
  intros (d & -> & Hf & Hl & Hmiss).
  pose proof (names_missing d Hmiss) as Hm.
  unfold bulk_entry. cbn [py_get]. unfold bind, ret.
  unfold text_or_absent, name_field in *.
  destruct (dict_get "first_name" d) as [[| | | |f| |]|]; try done;
    destruct (dict_get "last_name" d) as [[| | | |l| |]|]; try done;
    cbn [py_strip ret]; change (strip []) with (@nil N); by rewrite Hm.
Qed.

Lemma bulk_loop_nameless (users : list pyval) :
  ∀ (results : list pyval) (w : world),
  Forall nameless users →
  bulk_loop upper render_png users results w
  = (results ++ map refused_entry users, w).
Proof.
  induction users as [|user users IH]; intros results w Hall.
  - by rewrite app_nil_r.
  - apply Forall_cons in Hall as [Hu Hall]. cbn [bulk_loop map].
    rewrite (bulk_entry_nameless user w Hu), (IH _ _ Hall).
    by rewrite <- app_assoc.
Qed.

Lemma no_success_refused (users : list pyval) :
  filter (fun r => entry_success r = true) (map refused_entry users) = [].
Proof. induction users as [|u users IH]; [done|]. cbn [map]. by rewrite filter_cons. Qed.

(** X14. A batch in which every user lacks a name (missing, empty or made
    of blanks) is answered 200 with one refusal per user, in order, zero
    successes and as many failures as users; the store and the random
    generator are left as they were. *)
Theorem bulk_generate_all_refused (req : request) (d : list (string * pyval))
    (users : list pyval) (w : world) :
  req_json req = Some (VDict d) →
  dict_get "users" d = Some (VList users) →
  Forall nameless users →
  bulk_generate upper render_png req w
  = (Response 200 (Json (VDict [
       ("success", VBool true);
       ("total_users", VInt (Z.of_nat (length users)));
       ("successful_generations", VInt 0);
       ("failed_generations", VInt (Z.of_nat (length users)));
       ("results", VList (map refused_entry users)) ])), w).
Proof.
  intros Hjson Husers Hall. unfold bulk_generate. rewrite Hjson.
  assert (truthy (VDict d) = true) as -> by (by destruct d).
  cbn [negb py_contains py_getitem ret]. rewrite Husers.
  rewrite bool_decide_true by (by eexists). unfold ret.
  rewrite (bulk_loop_nameless users [] w Hall). cbn [app].
  rewrite no_success_refused. cbn [length]. by rewrite Z.sub_0_r.
Qed.

Lemma keeps_bind {A B} (m : M A) (f : A → M B) :
  keeps m → (∀ a, keeps (f a)) → keeps (bind m f).
Proof.
  intros Hm Hf w. unfold bind. specialize (Hm w).
  destruct (m w) as [[e|a] w1]; [done|]. cbn [snd] in Hm.
  eapply keeps_files_trans; [exact Hm|apply Hf].
Qed.

Lemma keeps_pure {A} (m : M A) : (∀ w, snd (m w) = w) → keeps m.
Proof. intros H w. rewrite H. apply keeps_files_refl. Qed.

Lemma keeps_name (obj : pyval) (k : string) :
  keeps (let! v := py_get obj k (VStr []) in py_strip v).
Proof.
  apply keeps_bind; [apply keeps_pure; by destruct obj|].
  intros v. apply keeps_pure. by destruct v.
Qed.

Lemma keeps_extract_initials (first_name last_name : pystr) :
  keeps (ProfileImageGenerator.extract_initials upper first_name last_name).
Proof.
  apply keeps_pure. intros w. unfold ProfileImageGenerator.extract_initials.
  destruct (_ || _); [done|]. unfold bind, str_first.
  by destruct (strip first_name), (strip last_name).
Qed.

Lemma keeps_random_choice {A} (l : list A) : keeps (random_choice l).
Proof.
  intros w. apply keeps_files_same. unfold random_choice.
  destruct l as [|a l]; [done|]. unfold bind.
  assert (files (snd (randbelow (length (a :: l)) w)) = files w) as Hr
    by (unfold randbelow; by destruct (rng w)).
  destruct (randbelow _ w) as [[e|j] w1]; [done|]. cbn [snd] in Hr.
  by rewrite list_index_world.
Qed.

Lemma keeps_get_random_variant (initials : pystr) :
  keeps (ProfileImageGenerator.get_random_variant render_png initials).
Proof.
  intros w. destruct (decide (stored_png initials w = [])) as [Hnone|Hsome].
  - rewrite get_random_variant_fresh_branch by done.
    apply keeps_bind; [intros w0; apply generate_variants_keeps|].
    intros vs. apply keeps_random_choice.
  - apply keeps_files_same. by apply get_random_variant_frame.
Qed.

Lemma keeps_catch_errors (m : M response) (w : world) :
  keeps m → keeps_files w (snd (catch_errors m w)).
Proof.
  intros Hm. unfold catch_errors. specialize (Hm w).
  destruct (m w) as [[e|r] w1]; [|done]. by destruct (is_ValueError e).
Qed.

Lemma keeps_if {A} (b : bool) (m1 m2 : M A) :
  keeps m1 → keeps m2 → keeps (if b then m1 else m2).
Proof. by destruct b. Qed.

Lemma keeps_ret {A} (a : A) : keeps (ret a).
Proof. intros w. apply keeps_files_refl. Qed.

Lemma bulk_entry_keeps (user : pyval) (w : world) :
  keeps_files w (snd (bulk_entry upper render_png user w)).
Proof.
  unfold bulk_entry.
  match goal with |- context [match ?m w with _ => _ end] =>
    assert (keeps m) as Hm; [|specialize (Hm w); by destruct (m w) as [[e|r] w1]]
  end.
  apply keeps_bind; [apply keeps_pure; by destruct user|]. intros f.
  apply keeps_bind; [apply keeps_pure; by destruct f|]. intros first_name.
  apply keeps_bind; [apply keeps_pure; by destruct user|]. intros l.
  apply keeps_bind; [apply keeps_pure; by destruct l|]. intros last_name.
  apply keeps_if; [apply keeps_ret|].
  apply keeps_bind; [apply keeps_extract_initials|]. intros initials.
  apply keeps_bind; [apply keeps_get_random_variant|]. intros variant.
  apply keeps_ret.
Qed.

Lemma bulk_loop_keeps (users : list pyval) :
  ∀ (results : list pyval) (w : world),
  keeps_files w (snd (bulk_loop upper render_png users results w)).
Proof.
  induction users as [|user users IH]; intros results w;
    [apply keeps_files_refl|].
  cbn [bulk_loop]. pose proof (bulk_entry_keeps user w) as He.
  destruct (bulk_entry upper render_png user w) as [r w1]. cbn [snd] in He.
  eapply keeps_files_trans; [exact He|apply IH].
Qed.

(** X15. No handler removes a file: whatever the request and whatever the
    answer, every file of the store before a call of [/generate],
    [/generate-variants] or [/bulk-generate] is a file of the store after
    it. *)
Theorem handlers_keep_files (req : request) (w : world) :
  keeps_files w (snd (generate_profile_image upper render_png req w))
  ∧ keeps_files w (snd (generate_variants upper render_png req w))
  ∧ keeps_files w (snd (bulk_generate upper render_png req w)).
Proof.
  split; [|split].
  - unfold generate_profile_image.
    destruct (req_json req) as [data0|]; [|apply keeps_files_refl].
    destruct (if negb (truthy data0) then req_raw req else Some data0)
      as [data|]; [|apply keeps_files_refl].
    apply keeps_catch_errors.
    apply keeps_bind; [apply keeps_pure; by destruct data|]. intros f.
    apply keeps_bind; [apply keeps_pure; by destruct f|]. intros first_name.
    apply keeps_bind; [apply keeps_pure; by destruct data|]. intros l.
    apply keeps_bind; [apply keeps_pure; by destruct l|]. intros last_name.
    apply keeps_if; [apply keeps_ret|].
    apply keeps_bind; [apply keeps_extract_initials|]. intros initials.
    apply keeps_bind; [apply keeps_get_random_variant|]. intros variant.
    apply keeps_if; apply keeps_ret.
  - unfold generate_variants.
    destruct (req_json req) as [data|]; [|apply keeps_files_refl].
    apply keeps_catch_errors.
    apply keeps_if; [apply keeps_ret|].
    apply keeps_bind; [apply keeps_pure; by destruct data|]. intros f.
    apply keeps_bind; [apply keeps_pure; by destruct f|]. intros first_name.
    apply keeps_bind; [apply keeps_pure; by destruct data|]. intros l.
    apply keeps_bind; [apply keeps_pure; by destruct l|]. intros last_name.
    apply keeps_bind; [apply keeps_pure; by destruct data|]. intros nv.
    apply keeps_if; [apply keeps_ret|].
    apply keeps_if; [apply keeps_ret|].
    apply keeps_bind; [apply keeps_extract_initials|]. intros initials.
    apply keeps_bind; [intros w0; apply generate_variants_keeps|]. intros vs.
    apply keeps_ret.
  - unfold bulk_generate.
    destruct (req_json req) as [data|]; [|apply keeps_files_refl].
    destruct (negb (truthy data)); [apply keeps_files_refl|].
    destruct (py_contains data "users" w) as [[e|[|]] w1];
      try apply keeps_files_refl.
    destruct (py_getitem data "users" w) as [[e|[| | | | |users|]] w2];
      try apply keeps_files_refl.
    pose proof (bulk_loop_keeps users [] w) as Hk.
    by destruct (bulk_loop upper render_png users [] w) as [results w'].
Qed.

End HandlerExtras.

(** ** The batch *)

Section BatchClaim.
Variable upper : N → pystr.
Variable render_png : pystr → pystr → list byte.

Lemma bulk_entry_not_object (user : pyval) (w : world) :
  (∀ d, user ≠ VDict d) →
  bulk_entry upper render_png user w
  = (failed_entry user (no_attribute user "get"), w).
Proof. intros H. destruct user; try done. by destruct (H d). Qed.

Lemma bulk_entry_first_not_text (d : list (string * pyval)) (v : pyval)
    (w : world) :
  dict_get "first_name" d = Some v → (∀ s, v ≠ VStr s) →
  bulk_entry upper render_png (VDict d) w
  = (failed_entry (VDict d) (no_attribute v "strip"), w).
Proof.
  intros Hv Hs. unfold bulk_entry. cbn [py_get]. unfold bind, ret. rewrite Hv.
  destruct v; try done. by destruct (Hs s).
Qed.

Lemma bulk_entry_last_not_text (d : list (string * pyval)) (v : pyval)
    (w : world) :
  text_or_absent "first_name" d →
  dict_get "last_name" d = Some v → (∀ s, v ≠ VStr s) →
  bulk_entry upper render_png (VDict d) w
  = (failed_entry (VDict d) (no_attribute v "strip"), w).
Proof.
  intros Hf Hv Hs. unfold bulk_entry.
  pose proof (name_field_get "first_name" d w Hf) as Hgf.
  unfold bind in Hgf |- *.
  destruct (py_get (VDict d) "first_name" (VStr []) w) as [[e|f] w1]; [done|].
  destruct (py_strip f w1) as [[e|first_name] w2]; [done|].
  injection Hgf as -> ->.
  cbn [py_get]. unfold ret. rewrite Hv.
  destruct v; try done. by destruct (Hs s).
Qed.

Lemma bulk_entry_named (d : list (string * pyval)) (c1 c2 : N) (r1 r2 : pystr)
    (w : world) :
  name_field "first_name" d = c1 :: r1 →
  name_field "last_name" d = c2 :: r2 →
  bulk_entry upper render_png (VDict d) w
  = match ProfileImageGenerator.get_random_variant render_png
            (upper c1 ++ upper c2) w with
    | (inr image, w') =>
        (served_entry (VDict d) (upper c1 ++ upper c2) image, w')
    | (inl e, w') => (failed_entry (VDict d) (exn_msg e), w')
    end.
Proof.
  intros H1 H2.
  destruct (name_field_text _ _ _ _ H1) as [Hf Hs1].
  destruct (name_field_text _ _ _ _ H2) as [Hl Hs2].
  unfold bulk_entry.
  pose proof (name_field_get "first_name" d w Hf) as Hgf.
  pose proof (name_field_get "last_name" d w Hl) as Hgl.
  unfold bind in Hgf, Hgl |- *.
  destruct (py_get (VDict d) "first_name" (VStr []) w) as [[e|f] w1]; [done|].
  destruct (py_strip f w1) as [[e|first_name] w2]; [done|].
  injection Hgf as -> ->.
  destruct (py_get (VDict d) "last_name" (VStr []) w) as [[e|l] w3]; [done|].
  destruct (py_strip l w3) as [[e|last_name] w4]; [done|].
  injection Hgl as -> ->.
  rewrite H1, H2. cbn [truthy negb orb].
  rewrite (extract_initials_trimmed upper _ _ c1 c2 r1 r2 w Hs1 Hs2).
  by destruct (ProfileImageGenerator.get_random_variant render_png _ w)
    as [[e|image] w'].
Qed.

(** Every user gets the entry owed to it. *)
Lemma nameless_entry_recorded (user : pyval) (w : world) :
  nameless user →
  recorded upper render_png user w
    (fst (bulk_entry upper render_png user w))
    (snd (bulk_entry upper render_png user w)).
Proof.
  intros Hn. rewrite (bulk_entry_nameless upper render_png _ w Hn).
  by apply recorded_nameless.
Qed.

Lemma bulk_entry_recorded (user : pyval) (w : world) :
  recorded upper render_png user w
    (fst (bulk_entry upper render_png user w))
    (snd (bulk_entry upper render_png user w)).
Proof.
  destruct user as [| | | | | |d];
    try (rewrite bulk_entry_not_object by done; by apply recorded_not_object).
  destruct (dict_get "first_name" d) as [v1|] eqn:E1.
  - destruct v1 as [| | | |s1| |];
      try (rewrite (bulk_entry_first_not_text d _ w E1) by done;
           by eapply recorded_first_not_text).
    assert (text_or_absent "first_name" d) as Hf
      by (unfold text_or_absent; by rewrite E1).
    destruct (dict_get "last_name" d) as [v2|] eqn:E2.
    + destruct v2 as [| | | |s2| |];
        try (rewrite (bulk_entry_last_not_text d _ w Hf E2) by done;
             by eapply recorded_last_not_text).
      assert (text_or_absent "last_name" d) as Hl
        by (unfold text_or_absent; by rewrite E2).
      destruct (name_field "first_name" d) as [|c1 r1] eqn:N1.
      { apply nameless_entry_recorded. exists d. auto. }
      destruct (name_field "last_name" d) as [|c2 r2] eqn:N2.
      { apply nameless_entry_recorded. exists d. auto. }
      rewrite (bulk_entry_named d c1 c2 r1 r2 w N1 N2).
      destruct (ProfileImageGenerator.get_random_variant render_png _ w)
        as [[e|image] w'] eqn:Hrun.
      * by eapply recorded_failed.
      * by eapply recorded_served.
    + apply nameless_entry_recorded. exists d.
      split; [done|]. split; [done|]. split.
      * unfold text_or_absent. by rewrite E2.
      * right. unfold name_field. by rewrite E2.
  - assert (text_or_absent "first_name" d) as Hf
      by (unfold text_or_absent; by rewrite E1).
    assert (name_field "first_name" d = []) as N1
      by (unfold name_field; by rewrite E1).
    destruct (dict_get "last_name" d) as [v2|] eqn:E2.
    + destruct v2 as [| | | |s2| |];
        try (rewrite (bulk_entry_last_not_text d _ w Hf E2) by done;
             by eapply recorded_last_not_text).
      apply nameless_entry_recorded. exists d.
      split; [done|]. split; [done|]. split; [|by left].
      unfold text_or_absent. by rewrite E2.
    + apply nameless_entry_recorded. exists d.
      split; [done|]. split; [done|]. split; [|by left].
      unfold text_or_absent. by rewrite E2.
Qed.

Lemma recorded_entry_for (user : pyval) (w : world) (r : pyval) (w' : world) :
  recorded upper render_png user w r w' → entry_for user r.
Proof.
  destruct 1; try (right; by eexists). left. by eexists _, _.
Qed.

(** A recorded entry is a success only for a user with two names whose
    image [get_random_variant] returned. *)
Lemma recorded_success (user : pyval) (w : world) (r : pyval) (w' : world) :
  recorded upper render_png user w r w' →
  entry_success r = true →
  ∃ d c1 r1 c2 r2 image,
    user = VDict d
    ∧ name_field "first_name" d = c1 :: r1
    ∧ name_field "last_name" d = c2 :: r2
    ∧ ProfileImageGenerator.get_random_variant render_png (upper c1 ++ upper c2) w
      = (inr image, w')
    ∧ r = served_entry user (upper c1 ++ upper c2) image.
Proof. destruct 1; try done. intros _. by eexists d, c1, r1, c2, r2, image. Qed.

Lemma bulk_loop_recorded (users : list pyval) :
  ∀ (results : list pyval) (w : world),
  ∃ rs w',
    bulk_loop upper render_png users results w = (results ++ rs, w')
    ∧ recorded_all upper render_png users w rs w'.
Proof.
  induction users as [|user users IH]; intros results w.
  - exists [], w. rewrite app_nil_r. split; [done|constructor].
  - cbn [bulk_loop].
    pose proof (bulk_entry_recorded user w) as He.
    destruct (bulk_entry upper render_png user w) as [r w1]. cbn [fst snd] in He.
    destruct (IH (results ++ [r]) w1) as (rs & w' & Hloop & Hall).
    exists (r :: rs), w'. rewrite Hloop, <- app_assoc.
    split; [done|]. by econstructor.
Qed.

Lemma recorded_all_entries (users : list pyval) (w : world)
    (results : list pyval) (w' : world) :
  recorded_all upper render_png users w results w' →
  Forall2 entry_for users results.
Proof.
  induction 1; constructor; [by eapply recorded_entry_for|done].
Qed.

(** C7. For every request whose [users] field is a list, [/bulk-generate]
    answers 200 with one result per user, in the order of the request, and
    each result is the one owed to its user on the world the users before
    have left: a user that fails validation (not an object, a name that is
    not a string, a name missing or blank) gets a failure that carries the
    entry of the request and the message of the error; a user with two
    names gets a success with the initials and the image when
    [get_random_variant] returns, and a failure with the message of the
    exception when it raises. The batch goes on after a failure.
    [total_users] is the sum of [successful_generations] and
    [failed_generations], which count the results of either kind. *)
Theorem bulk_generate_isolates (req : request) (d : list (string * pyval))
    (users : list pyval) (w : world) :
  req_json req = Some (VDict d) →
  dict_get "users" d = Some (VList users) →
  ∃ results successful failed w',
    bulk_generate upper render_png req w
    = (Response 200 (Json (VDict [
         ("success", VBool true);
         ("total_users", VInt (Z.of_nat (length users)));
         ("successful_generations", VInt successful);
         ("failed_generations", VInt failed);
         ("results", VList results) ])), w')
    ∧ recorded_all upper render_png users w results w'
    ∧ Forall2 entry_for users results
    ∧ successful
      = Z.of_nat (length (filter (fun r => entry_success r = true) results))
    ∧ failed
      = Z.of_nat (length (filter (fun r => entry_success r ≠ true) results))
    ∧ Z.of_nat (length users) = successful + failed.
Proof.
  intros Hjson Husers. unfold bulk_generate. rewrite Hjson.
  assert (truthy (VDict d) = true) as -> by (by destruct d).
  cbn [negb py_contains py_getitem ret]. rewrite Husers.
  rewrite bool_decide_true by (by eexists).
  destruct (bulk_loop_recorded users [] w) as (rs & w' & Hloop & Hall).
  unfold ret. rewrite Hloop. cbn [app].
  pose proof (recorded_all_entries _ _ _ _ Hall) as Hentries.
  eexists rs, _, _, w'. split; [reflexivity|]. split; [done|].
  split; [done|]. split; [done|].
  apply Forall2_length in Hentries.
  pose proof (filter_split_length (fun r => entry_success r = true) rs) as Hp.
  split; lia.
Qed.

End BatchClaim.

Lemma bulk_generate_isolates_witness :
  ∃ results successful failed w',
    bulk_generate latin1_upper sample_render
      (request_of (VDict [("users", VList two_users)])) empty_world
    = (Response 200 (Json (VDict [
         ("success", VBool true);
         ("total_users", VInt (Z.of_nat (length two_users)));
         ("successful_generations", VInt successful);
         ("failed_generations", VInt failed);
         ("results", VList results) ])), w')
    ∧ recorded_all latin1_upper sample_render two_users empty_world results w'
    ∧ Forall2 entry_for two_users results
    ∧ successful
      = Z.of_nat (length (filter (fun r => entry_success r = true) results))
    ∧ failed
      = Z.of_nat (length (filter (fun r => entry_success r ≠ true) results))
    ∧ Z.of_nat (length two_users) = successful + failed.
Proof.
  apply (bulk_generate_isolates latin1_upper sample_render
           (request_of (VDict [("users", VList two_users)]))
           [("users", VList two_users)] two_users empty_world);
    reflexivity.
Defined.

(** ** Statistics *)

Lemma entry_name_Some (dir e : pystr) :
  entry_name dir = Some e → dir = initials_dir e.
Proof.
  unfold entry_name. destruct (startswith dir _) eqn:Hs; [|done].
  apply startswith_true in Hs as [k ->]. rewrite drop_app_length.
  case_bool_decide as Hok; [|done]. intros [= <-].
  destruct Hok as (_ & Hslash & _).
  unfold initials_dir. rewrite join_root by done. by rewrite <- app_assoc.
Qed.

Lemma entry_name_dir (e : pystr) :
  e ≠ [] → 47%N ∉ e → e ≠ lit "." → e ≠ lit ".." →
  entry_name (initials_dir e) = Some e.
Proof.
  intros H1 H2 H3 H4. unfold entry_name, initials_dir.
  rewrite join_root by done. rewrite app_assoc.
  assert (startswith ((OUTPUT_DIR ++ lit "/") ++ e) (OUTPUT_DIR ++ lit "/") = true)
    as -> by (apply startswith_true; by eexists).
  rewrite drop_app_length. by rewrite bool_decide_true.
Qed.

Lemma entry_name_key (dir e : pystr) :
  entry_name dir = Some e → dir_key (initials_dir e) = dir.
Proof.
  intros He. pose proof (entry_name_Some dir e He) as Hdir.
  unfold entry_name in He. destruct (startswith _ _); [|done].
  case_bool_decide as Hok; [|done]. injection He as He.
  destruct Hok as (H1 & H2 & H3 & _). rewrite Hdir, <- He.
  apply dir_key_child; [exact H1|exact H3|exact H2].
Qed.

Lemma root_entries_dirs (w : world) :
  Forall (fun e => is_Some (files w !! dir_key (initials_dir e))) (root_entries w).
Proof.
  apply Forall_forall. intros e (dir & Hin & He)%list_elem_of_omap.
  rewrite (entry_name_key dir e He).
  apply list_elem_of_fmap in Hin as ([k d] & -> & Hin).
  apply elem_of_map_to_list in Hin. by eexists.
Qed.

Lemma sum_variants_entry (w : world) (e : pystr) (rest : list pyval) :
  sum_variants (stats_entry w e :: rest)
  = Z.of_nat (length (stored_png e w)) + sum_variants rest.
Proof. reflexivity. Qed.

Lemma stats_loop_spec (entries : list pystr) :
  ∀ (total_initials total_variants : Z) (generated : list pyval) (w : world),
  Forall (fun e => is_Some (files w !! dir_key (initials_dir e))) entries →
  stats_loop entries total_initials total_variants generated w
  = (inr (total_initials + Z.of_nat (length entries),
          total_variants + sum_variants (map (stats_entry w) entries),
          generated ++ map (stats_entry w) entries), w).
Proof.
  induction entries as [|e entries IH]; intros ti tv gen w Hall.
  - cbn. by rewrite !Z.add_0_r, app_nil_r.
  - apply Forall_cons in Hall as [[d Hd] Hall].
    cbn [stats_loop]. fold (initials_dir e).
    unfold bind, isdir, path_exists, listdir.
    rewrite bool_decide_true by (by eexists). rewrite Hd.
    rewrite (IH _ _ _ _ Hall). cbn [map length].
    rewrite sum_variants_entry, <- app_assoc.
    assert (ProfileImageGenerator.png_names (map_to_list d).*1 = stored_png e w)
      as -> by (unfold stored_png; by rewrite Hd).
    replace (ti + 1 + Z.of_nat (length entries))
      with (ti + Z.of_nat (S (length entries))) by lia.
    rewrite <- Z.add_assoc. reflexivity.
Qed.

Lemma get_stats_lists_entries (now : pystr) (w : world) :
  ∃ generated,
    get_stats now w
    = (Response 200 (Json (VDict [
         ("success", VBool true);
         ("stats", VDict [
            ("total_initials", VInt (Z.of_nat (length generated)));
            ("total_variants", VInt (sum_variants generated));
            ("initials_generated", VList generated) ]);
         ("timestamp", VStr now) ])), w)
    ∧ generated = map (stats_entry w) (root_entries w).
Proof.
  eexists. split; [|reflexivity].
  unfold get_stats, collect_stats, bind, listdir_root.
  fold (root_entries w).
  rewrite (stats_loop_spec _ _ _ _ _ (root_entries_dirs w)).
  by rewrite length_map.
Qed.

(** X16. [/stats] always answers 200 and leaves the world as it is. It
    lists, for each directory of [OUTPUT_DIR], its name with the number of
    its [.png] files; [total_initials] is the length of that list and
    [total_variants] the sum of its counts. *)
Theorem get_stats_consistent (now : pystr) (w : world) :
  ∃ generated,
    get_stats now w
    = (Response 200 (Json (VDict [
         ("success", VBool true);
         ("stats", VDict [
            ("total_initials", VInt (Z.of_nat (length generated)));
            ("total_variants", VInt (sum_variants generated));
            ("initials_generated", VList generated) ]);
         ("timestamp", VStr now) ])), w)
    ∧ generated = map (stats_entry w) (root_entries w).
Proof. apply get_stats_lists_entries. Qed.

Section StatsExtras.
Variable render_png : pystr → pystr → list byte.
Import ProfileImageGenerator.

(** X17. After [generate_variants initials n] on a store without [.png]
    file for the initials ([n] from 1 to 12; the initials a plain directory
    name: not empty, without slash, neither [.] nor [..]), [/stats] lists
    the initials with exactly [n] variants. *)
Theorem get_stats_after_generate (initials : pystr) (n : Z) (w : world)
    (vs : list pyval) (w' : world) (now : pystr) :
  1 ≤ n ≤ 12 →
  initials ≠ [] → 47%N ∉ initials → initials ≠ lit "." → initials ≠ lit ".." →
  stored_png initials w = [] →
  generate_variants render_png initials n w = (inr vs, w') →
  ∃ total_initials total_variants generated,
    get_stats now w'
    = (Response 200 (Json (VDict [
         ("success", VBool true);
         ("stats", VDict [
            ("total_initials", VInt total_initials);
            ("total_variants", VInt total_variants);
            ("initials_generated", VList generated) ]);
         ("timestamp", VStr now) ])), w')
    ∧ VDict [ ("initials", VStr initials); ("variants", VInt n) ] ∈ generated.
Proof.
  intros Hn H1 H2 H3 H4 Hnone Hgen.
  assert (single_name initials) as Hname.
  { split; [done|]. split; [done|]. split; [|done].
    by apply (generate_variants_no_nul render_png initials n w vs w'). }
  destruct (get_stats_lists_entries now w') as (generated & Hstats & ->).
  eexists _, _, _. split; [exact Hstats|].
  apply list_elem_of_fmap. exists initials. split.
  - unfold stats_entry.
    rewrite (stored_png_after_generate render_png initials n w vs w' Hname Hn
               Hnone Hgen).
    rewrite length_fmap, length_range.
    by replace (Z.of_nat (Z.to_nat (n + 1 - 1))) with n by lia.
  - apply list_elem_of_omap. exists (initials_dir initials).
    split; [|by apply entry_name_dir].
    destruct (generate_variants_returned render_png initials n w vs w' Hname Hn
                Hgen) as (colors & g & _ & -> & _).
    cbn [files].
    apply list_elem_of_fmap. eexists (_, _). split; [reflexivity|].
    apply elem_of_map_to_list. apply lookup_insert_eq.
Qed.

End StatsExtras.

(** ** Fonts *)

Section FontExtras.
Variable font : Type.
Variable truetype : pystr → Z → option font.
Variable load_default : font.
Import ProfileImageGenerator.

Lemma load_font_from_first (tried : list pystr) (p : pystr) (rest : list pystr)
    (f : font) :
  Forall (fun q => truetype q FONT_SIZE = None) tried →
  truetype p FONT_SIZE = Some f →
  load_font_from font truetype load_default (tried ++ p :: rest) = f.
Proof.
  intros Htried Hp. induction Htried as [|q tried Hq _ IH]; cbn.
  - by rewrite Hp.
  - by rewrite Hq.
Qed.

Lemma load_font_from_none (paths : list pystr) :
  Forall (fun q => truetype q FONT_SIZE = None) paths →
  load_font_from font truetype load_default paths = load_default.
Proof. induction 1 as [|q paths Hq _ IH]; cbn; [done|by rewrite Hq]. Qed.

(** X18. [_load_font] returns the font of the first path of [FONT_PATHS]
    that loads, whatever the later paths would give, and the default font
    when none loads. *)
Theorem load_font_priority :
  (∀ tried p rest f,
     FONT_PATHS = tried ++ p :: rest →
     Forall (fun q => truetype q FONT_SIZE = None) tried →
     truetype p FONT_SIZE = Some f →
     _load_font font truetype load_default = f)
  ∧ (Forall (fun q => truetype q FONT_SIZE = None) FONT_PATHS →
     _load_font font truetype load_default = load_default).
Proof.
  unfold _load_font. split.
  - intros tried p rest f ->. apply load_font_from_first.
  - apply load_font_from_none.
Qed.

End FontExtras.

(** ** The further properties on examples *)

Lemma handlers_require_names_witness :
  generate_profile_image latin1_upper sample_render (request_of only_first_name)
    empty_world
  = (error_response 400 (lit "Both first_name and last_name are required"),
     empty_world)
  ∧ generate_variants latin1_upper sample_render (request_of only_first_name)
      empty_world
    = (error_response 400 (lit "Both first_name and last_name are required"),
       empty_world).
Proof.
  apply (handlers_require_names latin1_upper sample_render
           (request_of only_first_name) [("first_name", VStr (lit "John"))]
           empty_world);
    [reflexivity|discriminate|exact I|exact I|by right].
Defined.

Lemma well_named_empty_world (initials : pystr) : well_named initials empty_world.
Proof.
  intros f Hf. unfold stored_png in Hf. cbn [files empty_world] in Hf.
  rewrite lookup_empty in Hf. by apply elem_of_nil in Hf.
Qed.

Lemma generate_succeeds_witness :
  ∃ image w' k,
    generate_profile_image latin1_upper sample_render (request_of arjun_sharma)
      empty_world
    = (Response 200 (Json (VDict [
         ("success", VBool true);
         ("user_info", VDict [ ("first_name", VStr (lit "Arjun"));
                               ("last_name", VStr (lit "Sharma"));
                               ("initials", VStr (lit "AS")) ]);
         ("image", image);
         ("message",
          VStr (lit "Profile image generated successfully for "
                  ++ lit "Arjun" ++ lit " " ++ lit "Sharma")) ])), w')
    ∧ field "filename" image
      = Some (VStr (ProfileImageGenerator.variant_filename (lit "AS") k))
    ∧ status (fst (serve_image (lit "AS")
                     (ProfileImageGenerator.variant_filename (lit "AS") k) w')) = 200
    ∧ keeps_files empty_world w'.
Proof.
  apply (generate_succeeds latin1_upper sample_render (request_of arjun_sharma)
           [ ("first_name", VStr (lit "Arjun")); ("last_name", VStr (lit "Sharma")) ]
           65%N 83%N (lit "rjun") (lit "harma") empty_world);
    [reflexivity|reflexivity|reflexivity| |apply service_store_empty
    |reflexivity|].
  - unfold plain_name, name_char. apply (bool_decide_unpack _). by vm_compute.
  - apply well_named_empty_world.
Defined.

Lemma generate_variants_succeeds_witness :
  ∃ variants w',
    generate_variants latin1_upper sample_render (request_of five_variants)
      empty_world
    = (Response 200 (Json (VDict [
         ("success", VBool true);
         ("user_info", VDict [ ("first_name", VStr (lit "Radha"));
                               ("last_name", VStr (lit "Krishna"));
                               ("initials", VStr (lit "RK")) ]);
         ("variants", VList variants);
         ("total_variants", VInt 5);
         ("message",
          VStr (lit "Generated " ++ str_of_Z 5 ++ lit " variants for "
                  ++ lit "Radha" ++ lit " " ++ lit "Krishna")) ])), w')
    ∧ field "filename" <$> variants
      = (fun k => Some (VStr (ProfileImageGenerator.variant_filename (lit "RK") k)))
          <$> range 1 (5 + 1)
    ∧ keeps_files empty_world w'.
Proof.
  apply (generate_variants_succeeds latin1_upper sample_render
           (request_of five_variants)
           [ ("first_name", VStr (lit "Radha")); ("last_name", VStr (lit "Krishna"));
             ("num_variants", VInt 5) ]
           82%N 75%N (lit "adha") (lit "rishna") 5 empty_world);
    [reflexivity|reflexivity|reflexivity| |apply service_store_empty
    |reflexivity|lia].
  unfold plain_name, name_char. apply (bool_decide_unpack _). by vm_compute.
Defined.

Lemma bulk_generate_all_refused_witness :
  bulk_generate latin1_upper sample_render
    (request_of (VDict [("users", VList nameless_users)])) empty_world
  = (Response 200 (Json (VDict [
       ("success", VBool true);
       ("total_users", VInt (Z.of_nat (length nameless_users)));
       ("successful_generations", VInt 0);
       ("failed_generations", VInt (Z.of_nat (length nameless_users)));
       ("results", VList (map refused_entry nameless_users)) ])), empty_world).
Proof.
  apply (bulk_generate_all_refused latin1_upper sample_render
           (request_of (VDict [("users", VList nameless_users)]))
           [("users", VList nameless_users)] nameless_users empty_world);
    [reflexivity|reflexivity|].
  repeat constructor.
  - exists [ ("first_name", VStr []); ("last_name", VStr []) ].
    split; [reflexivity|]. split; [exact I|]. split; [exact I|by left].
  - exists [ ("first_name", VStr (lit "  ")); ("last_name", VStr (lit "Doe")) ].
    split; [reflexivity|]. split; [exact I|]. split; [exact I|by left].
Defined.

Lemma get_stats_after_generate_witness :
  ∃ total_initials total_variants generated,
    get_stats (lit "2024-01-01T00:00:00")
      (snd (ProfileImageGenerator.generate_variants sample_render (lit "AS") 2
              empty_world))
    = (Response 200 (Json (VDict [
         ("success", VBool true);
         ("stats", VDict [
            ("total_initials", VInt total_initials);
            ("total_variants", VInt total_variants);
            ("initials_generated", VList generated) ]);
         ("timestamp", VStr (lit "2024-01-01T00:00:00")) ])),
       snd (ProfileImageGenerator.generate_variants sample_render (lit "AS") 2
              empty_world))
    ∧ VDict [ ("initials", VStr (lit "AS")); ("variants", VInt 2) ] ∈ generated.
Proof.
  destruct (ProfileImageGenerator.generate_variants sample_render (lit "AS") 2
              empty_world) as [[e|vs] w1] eqn:Hgen.
  - vm_compute in Hgen. discriminate Hgen.
  - apply (get_stats_after_generate sample_render (lit "AS") 2 empty_world vs w1);
      [lia|discriminate|by apply (bool_decide_unpack _)|discriminate|discriminate
      |reflexivity|exact Hgen].
Defined.

Example get_stats_empty_store :
  fst (get_stats (lit "2024-01-01T00:00:00") empty_world)
  = Response 200 (Json (VDict [
      ("success", VBool true);
      ("stats", VDict [ ("total_initials", VInt 0);
                        ("total_variants", VInt 0);
                        ("initials_generated", VList []) ]);
      ("timestamp", VStr (lit "2024-01-01T00:00:00")) ])).
Proof. by vm_compute. Qed.

Example get_colors_twelve :
  field "total_colors" (match body get_colors with Json v => v | _ => VNone end)
  = Some (VInt 12).
Proof. reflexivity. Qed.
